(** * Chemical-Engineering-AI: a shallow embedding of the retrieval pipeline

    The development follows the Python sources:
    - [utils/helpers.py]          ([clean_text], [format_citation],
                                   [format_citations_list], [truncate_text]),
    - [src/document_processor.py] ([chunk_text], [load_pdf], [process_book],
                                   [process_books_directory],
                                   [process_new_books]),
    - [src/book_manager.py]       ([BookManager]),
    - [src/vector_store.py]       ([similarity_search], [add_documents]),
    - [src/rag_engine.py]         ([RAGEngine]),
    - [config/settings.py]        ([Settings]).

    A Python [str] is a list of Unicode code points, a [bytes] object a list
    of byte values.  Third-party calls (the PDF reader, the vector database,
    the hosted language model, the clock) are inputs of the model.  Logging,
    and with it the [log_execution_time] decorator, which logs and re-raises,
    does not change what a function returns or raises and is left out. *)

From Stdlib Require Import ZArith NArith Lia List Bool Ascii String DecimalString.
From Stdlib Require DecimalPos DecimalZ.
From stdpp Require Import base list option gmap.

Open Scope Z_scope.
Open Scope list_scope.

(** ** Python strings *)

(** A [str] is the sequence of its code points, a [bytes] object the
    sequence of its bytes. *)
Abbreviation str := (list N).
Abbreviation bytes := (list Byte.byte).

Module Py.

(** An ASCII literal of the source text. *)
Definition lit (s : string) : str :=
  map N_of_ascii (list_ascii_of_string s).

Definition NL : N := 10%N.
Definition SP : N := 32%N.

(** [str.isspace] on one code point (CPython's [_PyUnicode_IsWhitespace]):
    the set that [str.strip()] removes and that [\s] matches in a [str]
    pattern. *)
Definition isspace (c : N) : bool :=
  ((9 <=? c) && (c <=? 13) || (28 <=? c) && (c <=? 32) ||
   (c =? 133) || (c =? 160) || (c =? 5760) ||
   (8192 <=? c) && (c <=? 8202) ||
   (c =? 8232) || (c =? 8233) || (c =? 8239) || (c =? 8287) ||
   (c =? 12288))%N.

Fixpoint lstrip (s : str) : str :=
  match s with
  | c :: s' => if isspace c then lstrip s' else s
  | [] => []
  end.

Definition rstrip (s : str) : str := rev (lstrip (rev s)).

(** [s.strip()] *)
Definition strip (s : str) : str := rstrip (lstrip s).

(** Truth value of a [str]. *)
Definition truthy (s : str) : bool :=
  match s with [] => false | _ => true end.

(** [s[:k]] and [s[k:]] with Python's treatment of a negative index. *)
Definition slice_to (s : str) (k : Z) : str :=
  if k <? 0 then take (Z.to_nat (Z.of_nat (length s) + k)) s
  else take (Z.to_nat k) s.

Definition slice_from (s : str) (k : Z) : str :=
  if k <? 0 then drop (Z.to_nat (Z.of_nat (length s) + k)) s
  else drop (Z.to_nat k) s.

(** [s.startswith(p)] *)
Fixpoint startswith (p s : str) : bool :=
  match p, s with
  | [], _ => true
  | a :: p', b :: s' => (a =? b)%N && startswith p' s'
  | _ :: _, [] => false
  end.

(** [s.partition(sep)] when [sep] occurs: the text before and after the first
    occurrence. *)
Fixpoint partition (sep s : str) : option (str * str) :=
  if startswith sep s then Some ([], drop (length sep) s)
  else match s with
       | [] => None
       | c :: s' =>
           match partition sep s' with
           | Some (a, b) => Some (c :: a, b)
           | None => None
           end
       end.

(** [sep in s] *)
Definition contains (sep s : str) : bool :=
  match partition sep s with Some _ => true | None => false end.

Fixpoint split_fuel (n : nat) (sep s : str) : list str :=
  match n with
  | O => [s]
  | S n' =>
      match partition sep s with
      | Some (a, b) => a :: split_fuel n' sep b
      | None => [s]
      end
  end.

(** [s.split(sep)] for a non-empty [sep]: every occurrence consumes at least
    one character, so [length s] rounds are enough. *)
Definition split (sep s : str) : list str := split_fuel (length s) sep s.

(** [sep.join(l)] *)
Fixpoint join (sep : str) (l : list str) : str :=
  match l with
  | [] => []
  | [x] => x
  | x :: l' => x ++ sep ++ join sep l'
  end.

End Py.

(** ** Python values, dictionaries, exceptions *)

(** The values that the dictionaries of the program hold. *)
Inductive value :=
| VNone
| VBool (b : bool)
| VInt (z : Z)
| VStr (s : str).

#[global] Instance value_eq_dec : EqDecision value.
Proof. solve_decision. Defined.

(** A [dict] with [str] keys. *)
Abbreviation dict := (gmap (list N) value).

(** The exceptions of the model; all of them derive from [Exception].
    [LibraryError] stands for whatever a third-party call raises. *)
Inductive exn :=
| KeyError (key : str)
| IndexError
| ValueError (msg : str)
| FileNotFoundError (msg : str)
| UnboundLocalError (var : str)
| LibraryError (code : N).

(** The result of running a piece of the program: a value, a raised
    exception, or a loop that was still running when its budget of iterations
    ended. *)
Inductive outcome (A : Type) :=
| Ret (a : A)
| Raise (e : exn)
| OutOfFuel.

Arguments Ret {A} a.
Arguments Raise {A} e.
Arguments OutOfFuel {A}.

(** The result of a third-party call: it returns or it raises. *)
Inductive returned (A : Type) :=
| Returned (a : A)
| Raised (e : exn).

Arguments Returned {A} a.
Arguments Raised {A} e.

Definition lib {A} (r : returned A) : outcome A :=
  match r with
  | Returned a => Ret a
  | Raised e => Raise e
  end.

#[global] Instance outcome_ret : MRet outcome := fun A a => Ret a.
#[global] Instance outcome_bind : MBind outcome := fun A B f m =>
  match m with
  | Ret a => f a
  | Raise e => Raise e
  | OutOfFuel => OutOfFuel
  end.
#[global] Instance outcome_fmap : FMap outcome := fun A B f m =>
  match m with
  | Ret a => Ret (f a)
  | Raise e => Raise e
  | OutOfFuel => OutOfFuel
  end.

Module PyVal.

(** [str(n)] for an [int]. *)
Definition str_of_Z (z : Z) : str :=
  Py.lit (DecimalString.NilZero.string_of_int (Z.to_int z)).

(** [str(v)], which is also what an f-string substitutes for [{v}]. *)
Definition to_str (v : value) : str :=
  match v with
  | VNone => Py.lit "None"
  | VBool true => Py.lit "True"
  | VBool false => Py.lit "False"
  | VInt z => str_of_Z z
  | VStr s => s
  end.

(** Truth value, as tested by [if v:]. *)
Definition truthy (v : value) : bool :=
  match v with
  | VNone => false
  | VBool b => b
  | VInt z => negb (z =? 0)
  | VStr s => Py.truthy s
  end.

(** [x or dflt] for an optional [int] argument: [None] and 0 are falsy. *)
Definition or_default (x : option Z) (dflt : Z) : Z :=
  match x with
  | Some z => if z =? 0 then dflt else z
  | None => dflt
  end.

(** [d[k]] *)
Definition getitem (d : dict) (k : str) : outcome value :=
  match d !! k with
  | Some v => Ret v
  | None => Raise (KeyError k)
  end.

(** [d.get(k, dflt)] *)
Definition get (d : dict) (k : str) (dflt : value) : value :=
  default dflt (d !! k).

End PyVal.

(** The tables of the interpreter that the program reaches through [re] and
    [int]: which code points [\d] matches, and the integer that [int(s)]
    returns ([None] when it raises [ValueError]). *)
Class Unicode := {
  isdecimal : N -> bool;
  int_of_str : str -> option Z
}.

Module AsciiTables.

(** The code points of the digits zero of Unicode 14.0.0 (category [Nd]), the
    version of CPython 3.11; the nine code points after each are the digits
    one to nine. *)
Definition decimal_zeros : list N :=
  [48; 1632; 1776; 1984; 2406; 2534; 2662; 2790; 2918; 3046; 3174; 3302; 3430;
   3558; 3664; 3792; 3872; 4160; 4240; 6112; 6160; 6470; 6608; 6784; 6800;
   6992; 7088; 7232; 7248; 42528; 43216; 43264; 43472; 43504; 43600; 44016;
   65296; 66720; 68912; 69734; 69872; 69942; 70096; 70384; 70736; 70864;
   71248; 71360; 71472; 71904; 72016; 72784; 73040; 73120; 92768; 92864;
   93008; 120782; 120792; 120802; 120812; 120822; 123200; 123632; 125264;
   130032]%N.

(** [Py_UNICODE_TODECIMAL] *)
Definition decimal_value (c : N) : option N :=
  (fun z => c - z)%N
    <$> List.find (fun z => (z <=? c) && (c <? z + 10))%N decimal_zeros.

(** [Py_ISSPACE] *)
Definition c_isspace (c : N) : bool :=
  ((c =? 32) || ((9 <=? c) && (c <=? 13)))%N.

(** What [int] makes of a [str] before it reads it: ASCII stays, other white
    space becomes a space and other decimal digits become ASCII digits;
    [None] for a string with a character that is none of these, for which
    [int] raises. *)
Fixpoint to_ascii (s : str) : option str :=
  match s with
  | [] => Some []
  | c :: s' =>
      c' ← (if (c <? 127)%N then Some c
            else if Py.isspace c then Some 32%N
            else (fun d => 48 + d)%N <$> decimal_value c);
      r ← to_ascii s';
      Some (c' :: r)
  end.

Fixpoint skip_spaces (s : str) : str :=
  match s with
  | c :: s' => if c_isspace c then skip_spaces s' else s
  | [] => []
  end.

Inductive seen := Start | Digit | Underscore.

(** The digits with single underscores between them; [count] digits have
    been read.  More than 4300 digits are refused
    ([sys.get_int_max_str_digits()]). *)
Fixpoint digits (acc : Z) (count : nat) (last : seen) (s : str) : option Z :=
  match s with
  | [] =>
      match last with
      | Digit => if (count <=? 4300)%nat then Some acc else None
      | _ => None
      end
  | c :: s' =>
      if (c =? 95)%N then
        match last with Digit => digits acc count Underscore s' | _ => None end
      else if ((48 <=? c) && (c <=? 57))%N
      then digits (10 * acc + (Z.of_N c - 48)) (S count) Digit s'
      else None
  end.

(** [int(s)]: surrounding white space, a sign, decimal digits with single
    underscores between them. *)
Definition int (s : str) : option Z :=
  ascii ← to_ascii s;
  match rev (skip_spaces (rev (skip_spaces ascii))) with
  | 45%N :: r => Z.opp <$> digits 0 0 Start r
  | 43%N :: r => digits 0 0 Start r
  | r => digits 0 0 Start r
  end.

(** The tables of CPython 3.11. *)
Definition tables : Unicode :=
  {| isdecimal := fun c => bool_decide (is_Some (decimal_value c));
     int_of_str := int |}.

End AsciiTables.

(** ** [hashlib.md5] (RFC 1321) *)

Module Hashlib.

Definition mask32 : Z := 4294967295.
Definition add32 (a b : Z) : Z := Z.land (a + b) mask32.
Definition not32 (a : Z) : Z := Z.lxor a mask32.
Definition rotl32 (x n : Z) : Z :=
  Z.land (Z.lor (Z.shiftl x n) (Z.shiftr x (32 - n))) mask32.

(** The sine table [floor(2^32 * abs(sin(i + 1)))]. *)
Definition K : list Z :=
 [0xd76aa478; 0xe8c7b756; 0x242070db; 0xc1bdceee;
  0xf57c0faf; 0x4787c62a; 0xa8304613; 0xfd469501;
  0x698098d8; 0x8b44f7af; 0xffff5bb1; 0x895cd7be;
  0x6b901122; 0xfd987193; 0xa679438e; 0x49b40821;
  0xf61e2562; 0xc040b340; 0x265e5a51; 0xe9b6c7aa;
  0xd62f105d; 0x02441453; 0xd8a1e681; 0xe7d3fbc8;
  0x21e1cde6; 0xc33707d6; 0xf4d50d87; 0x455a14ed;
  0xa9e3e905; 0xfcefa3f8; 0x676f02d9; 0x8d2a4c8a;
  0xfffa3942; 0x8771f681; 0x6d9d6122; 0xfde5380c;
  0xa4beea44; 0x4bdecfa9; 0xf6bb4b60; 0xbebfbc70;
  0x289b7ec6; 0xeaa127fa; 0xd4ef3085; 0x04881d05;
  0xd9d4d039; 0xe6db99e5; 0x1fa27cf8; 0xc4ac5665;
  0xf4292244; 0x432aff97; 0xab9423a7; 0xfc93a039;
  0x655b59c3; 0x8f0ccc92; 0xffeff47d; 0x85845dd1;
  0x6fa87e4f; 0xfe2ce6e0; 0xa3014314; 0x4e0811a1;
  0xf7537e82; 0xbd3af235; 0x2ad7d2bb; 0xeb86d391].

(** The per-round left rotations. *)
Definition R : list Z :=
 [7; 12; 17; 22; 7; 12; 17; 22; 7; 12; 17; 22; 7; 12; 17; 22;
  5; 9; 14; 20; 5; 9; 14; 20; 5; 9; 14; 20; 5; 9; 14; 20;
  4; 11; 16; 23; 4; 11; 16; 23; 4; 11; 16; 23; 4; 11; 16; 23;
  6; 10; 15; 21; 6; 10; 15; 21; 6; 10; 15; 21; 6; 10; 15; 21].

Definition state : Type := Z * Z * Z * Z.

Definition round (M : list Z) (st : state) (i : nat) : state :=
  let '(A, B, C, D) := st in
  let '(F, g) :=
    if (i <? 16)%nat then (Z.lor (Z.land B C) (Z.land (not32 B) D), i)
    else if (i <? 32)%nat
    then (Z.lor (Z.land D B) (Z.land (not32 D) C), ((5 * i + 1) mod 16)%nat)
    else if (i <? 48)%nat
    then (Z.lxor B (Z.lxor C D), ((3 * i + 5) mod 16)%nat)
    else (Z.lxor C (Z.lor B (not32 D)), ((7 * i) mod 16)%nat) in
  let F' := add32 (add32 (add32 F A) (nth i K 0)) (nth g M 0) in
  (D, add32 B (rotl32 F' (nth i R 0)), B, C).

Fixpoint le_bytes (n : nat) (x : Z) : list Z :=
  match n with
  | O => []
  | S n' => Z.land x 255 :: le_bytes n' (Z.shiftr x 8)
  end.

Fixpoint le_word (bs : list Z) : Z :=
  match bs with
  | [] => 0
  | b :: bs' => b + 256 * le_word bs'
  end.

Fixpoint words (n : nat) (bs : list Z) : list Z :=
  match n with
  | O => []
  | S n' => le_word (take 4 bs) :: words n' (drop 4 bs)
  end.

Definition block (st : state) (blk : list Z) : state :=
  let M := words 16 blk in
  let '(A, B, C, D) := st in
  let '(A', B', C', D') := fold_left (round M) (seq 0 64) st in
  (add32 A A', add32 B B', add32 C C', add32 D D').

Fixpoint blocks (n : nat) (st : state) (bs : list Z) : state :=
  match n with
  | O => st
  | S n' => blocks n' (block st (take 64 bs)) (drop 64 bs)
  end.

Definition pad (msg : list Z) : list Z :=
  let len := length msg in
  msg ++ [128] ++ repeat 0 ((119 - len mod 64) mod 64)%nat
      ++ le_bytes 8 (8 * Z.of_nat len).

Definition digest (msg : bytes) : list Z :=
  let p := pad (map (fun b => Z.of_N (Byte.to_N b)) msg) in
  let '(A, B, C, D) :=
    blocks (length p / 64)
           (0x67452301, 0xefcdab89, 0x98badcfe, 0x10325476) p in
  le_bytes 4 A ++ le_bytes 4 B ++ le_bytes 4 C ++ le_bytes 4 D.

Definition hexdigit (x : Z) : N :=
  if x <? 10 then Z.to_N (48 + x) else Z.to_N (87 + x).

Definition hexbyte (b : Z) : str :=
  [hexdigit (Z.shiftr b 4); hexdigit (Z.land b 15)].

(** The hash object: [hashlib.md5()] starts it, [update] feeds it,
    [hexdigest] reads it; feeding pieces one after the other is feeding their
    concatenation. *)
Definition md5 : Type := bytes.
Definition new : md5 := [].
Definition update (h : md5) (data : bytes) : md5 := h ++ data.
Definition hexdigest (h : md5) : str := concat (map hexbyte (digest h)).

(** A [bytes] literal given in hexadecimal. *)
Fixpoint fromhex (l : str) : bytes :=
  match l with
  | a :: b :: l' =>
      let v (c : N) := (if c <? 58 then c - 48 else c - 87)%N in
      match Byte.of_N (16 * v a + v b) with
      | Some x => x :: fromhex l'
      | None => []
      end
  | _ => []
  end.

End Hashlib.

(** ** [config/settings.py] *)

Module Settings.

Definition CHUNK_SIZE : Z := 1000.
Definition CHUNK_OVERLAP : Z := 200.
Definition TOP_K_RESULTS : Z := 8.

End Settings.

(** ** [utils/helpers.py] *)

Module Helpers.

Section WithTables.
Context {U : Unicode}.

(** [re.sub(r'\s+', ' ', text)]: every maximal run of white space becomes one
    space.  [in_run] tells that the previous character belonged to the run
    being replaced. *)
Fixpoint sub_spaces (in_run : bool) (s : str) : str :=
  match s with
  | [] => []
  | c :: s' =>
      if Py.isspace c
      then (if in_run then sub_spaces true s' else Py.SP :: sub_spaces true s')
      else c :: sub_spaces false s'
  end.

(** The text after a match of [\d*\n] at the start of [s] (a newline is not
    a digit, so the greedy [\d*] stops at the first one). *)
Fixpoint after_digits_nl (s : str) : option str :=
  match s with
  | [] => None
  | c :: s' =>
      if (c =? Py.NL)%N then Some s'
      else if isdecimal c then after_digits_nl s' else None
  end.

(** The text after a match of [\n\d+\n] at the start of [s]. *)
Definition after_page_number (s : str) : option str :=
  match s with
  | a :: d :: s' =>
      if ((a =? Py.NL)%N && isdecimal d)%bool then after_digits_nl s' else None
  | _ => None
  end.

Fixpoint sub_page_numbers_fuel (n : nat) (s : str) : str :=
  match n with
  | O => s
  | S n' =>
      match after_page_number s with
      | Some rest => Py.NL :: sub_page_numbers_fuel n' rest
      | None =>
          match s with
          | [] => []
          | c :: s' => c :: sub_page_numbers_fuel n' s'
          end
      end
  end.

(** [re.sub(r'\n\d+\n', '\n', text)]: leftmost matches, none overlapping;
    every round consumes a character. *)
Definition sub_page_numbers (s : str) : str :=
  sub_page_numbers_fuel (length s) s.

(** What a run of [k] newlines becomes under [\n{3,}] -> [\n\n]. *)
Definition newline_run (k : nat) : str :=
  if (3 <=? k)%nat then [Py.NL; Py.NL] else repeat Py.NL k.

(** [re.sub(r'\n{3,}', '\n\n', text)]; [k] counts the newlines of the run
    being read. *)
Fixpoint sub_newlines (k : nat) (s : str) : str :=
  match s with
  | [] => newline_run k
  | c :: s' =>
      if (c =? Py.NL)%N then sub_newlines (S k) s'
      else newline_run k ++ c :: sub_newlines 0 s'
  end.

Definition clean_text (text : str) : str :=
  let text := sub_spaces false text in
  let text := sub_page_numbers text in
  let text := sub_newlines 0 text in
  Py.strip text.

End WithTables.

Definition format_citation (book_name : value) (page_number : value) : str :=
  if PyVal.truthy page_number
  then Py.lit "**" ++ PyVal.to_str book_name ++ Py.lit "** (Page "
         ++ PyVal.to_str page_number ++ Py.lit ")"
  else Py.lit "**" ++ PyVal.to_str book_name ++ Py.lit "**".

(** The loop of [format_citations_list]; [i] is the index that [enumerate]
    gives the head of [sources]. *)
Fixpoint citations_loop (i : Z) (sources : list dict) (citations : list str)
  : list str :=
  match sources with
  | [] => citations
  | source :: rest =>
      let book := PyVal.get source (Py.lit "book") (VStr (Py.lit "Unknown")) in
      let page := PyVal.get source (Py.lit "page") VNone in
      citations_loop (i + 1) rest
        (citations ++
           [PyVal.str_of_Z i ++ Py.lit ". " ++ format_citation book page])
  end.

Definition format_citations_list (sources : list dict) : str :=
  match sources with
  | [] => []
  | _ => Py.join [Py.NL] (citations_loop 1 sources [])
  end.

(** [truncate_text(text, max_length)] *)
Definition truncate_text (text : str) (max_length : Z) : str :=
  if Z.of_nat (length text) <=? max_length then text
  else Py.slice_to text (max_length - 3) ++ Py.lit "...".

End Helpers.

(** ** [src/document_processor.py] *)

(** A chunk, the dictionary with keys [text], [chunk_id], [book_name], [page]
    and [source] that [chunk_text] builds. *)
Record chunk := Chunk {
  text : str;
  chunk_id : Z;
  book_name : value;
  page : Z;
  source : value
}.

(** What [fitz.open] gives for a file: per page the result of
    [page.get_text()], and the document's metadata. *)
Record pdf_doc := PdfDoc {
  doc_pages : list (returned str);
  doc_metadata : dict
}.

(** A [pathlib.Path]: its string form, its final component ([.name]) and that
    component without its suffix ([.stem]). *)
Record Path := MkPath {
  path_str : str;
  path_name : str;
  path_stem : str
}.

(** The part of the file system that the program reads: the files with their
    contents, and the directories with what [glob("*.pdf")] lists in them. *)
Record filesystem := FS {
  files : gmap (list N) (list Byte.byte);
  pdf_listing : gmap (list N) (list Path)
}.

(** The PDF reader: what [fitz.open] makes of a file's contents. *)
Class Fitz := fitz_open : bytes -> returned pdf_doc.

Module DocumentProcessor.

Record t := Make {
  chunk_size : Z;
  chunk_overlap : Z
}.

(** [DocumentProcessor.__init__] *)
Definition init (chunk_size chunk_overlap : option Z) : t :=
  {| chunk_size := PyVal.or_default chunk_size Settings.CHUNK_SIZE;
     chunk_overlap := PyVal.or_default chunk_overlap Settings.CHUNK_OVERLAP |}.

(** The variables of [chunk_text] that its loops update; [page_num] is
    unbound until a page header has been read. *)
Record vars := Vars {
  current_chunk : str;
  page_num : option Z;
  next_id : Z;
  chunks : list chunk
}.

Section WithTables.
Context {U : Unicode}.

(** The two assignments of the [try] block for one page section: the page
    number, then the page text.  [None] is the [continue] of the handler of
    [ValueError] and [IndexError]. *)
Definition read_page_num (page_section : str) : option Z :=
  page_num_str ← head (Py.split (Py.lit " ---") page_section);
  int_of_str page_num_str.

Definition read_page_text (page_section : str) : option str :=
  if Py.contains [45; 45; 45; Py.NL]%N page_section
  then Py.split_fuel 1 [45; 45; 45; Py.NL]%N page_section !! 1%nat
  else Some page_section.

(** The [while] loop, run for at most [fuel] tests of its condition. *)
Fixpoint cut_loop (fuel : nat) (char_chunk_size char_overlap : Z)
    (metadata : dict) (page_num : Z) (current_chunk : str) (chunk_id : Z)
    (chunks : list chunk) : outcome (str * Z * list chunk) :=
  match fuel with
  | O => OutOfFuel
  | S fuel' =>
      if Z.of_nat (length current_chunk) >=? char_chunk_size then
        let chunk_text := Py.slice_to current_chunk char_chunk_size in
        book ← PyVal.getitem metadata (Py.lit "book_name");
        src ← PyVal.getitem metadata (Py.lit "file_path");
        cut_loop fuel' char_chunk_size char_overlap metadata page_num
          (Py.slice_from current_chunk (char_chunk_size - char_overlap))
          (chunk_id + 1)
          (chunks ++ [{| text := Py.strip chunk_text; chunk_id := chunk_id;
                         book_name := book; page := page_num;
                         source := src |}])
      else Ret (current_chunk, chunk_id, chunks)
  end.

(** The [for] loop over [pages[1:]]. *)
Fixpoint page_loop (char_chunk_size char_overlap : Z) (metadata : dict)
    (pages : list str) (v : vars) : outcome vars :=
  match pages with
  | [] => Ret v
  | page_section :: rest =>
      match read_page_num page_section with
      | None => page_loop char_chunk_size char_overlap metadata rest v
      | Some n =>
          match read_page_text page_section with
          | None =>
              page_loop char_chunk_size char_overlap metadata rest
                {| current_chunk := current_chunk v; page_num := Some n;
                   next_id := next_id v; chunks := chunks v |}
          | Some page_text =>
              let cur := current_chunk v ++ page_text in
              '(cur', id', chunks') ←
                cut_loop (S (length cur)) char_chunk_size char_overlap
                  metadata n cur (next_id v) (chunks v);
              page_loop char_chunk_size char_overlap metadata rest
                {| current_chunk := cur'; page_num := Some n;
                   next_id := id'; chunks := chunks' |}
          end
      end
  end.

(** The remaining text as the final chunk. *)
Definition final_chunk (metadata : dict) (v : vars) : outcome (list chunk) :=
  if Py.truthy (Py.strip (current_chunk v)) then
    book ← PyVal.getitem metadata (Py.lit "book_name");
    n ← match page_num v with
        | Some n => Ret n
        | None => Raise (UnboundLocalError (Py.lit "page_num"))
        end;
    src ← PyVal.getitem metadata (Py.lit "file_path");
    Ret (chunks v ++ [{| text := Py.strip (current_chunk v);
                         chunk_id := next_id v; book_name := book;
                         page := n; source := src |}])
  else Ret (chunks v).

Definition chunk_text (self : t) (text : str) (metadata : dict)
  : outcome (list chunk) :=
  let char_chunk_size := chunk_size self * 4 in
  let char_overlap := chunk_overlap self * 4 in
  let pages := Py.split (Py.lit "--- Page ") text in
  v ← page_loop char_chunk_size char_overlap metadata (tail pages)
        {| current_chunk := []; page_num := None; next_id := 0;
           chunks := [] |};
  final_chunk metadata v.

Context {F : Fitz}.

(** The loop of [load_pdf] over the pages, numbered from [page_num]. *)
Fixpoint extract_pages (page_num : Z) (pages : list (returned str))
    (full_text : str) : outcome str :=
  match pages with
  | [] => Ret full_text
  | page :: rest =>
      text ← lib page;
      extract_pages (page_num + 1) rest
        (full_text ++ [Py.NL] ++ Py.lit "--- Page " ++ PyVal.str_of_Z page_num
           ++ Py.lit " ---" ++ [Py.NL] ++ text)
  end.

Definition load_pdf (fs : filesystem) (file_path : Path)
  : outcome (str * dict) :=
  match files fs !! path_str file_path with
  | None =>
      Raise (FileNotFoundError
               (Py.lit "PDF file not found: " ++ path_str file_path))
  | Some contents =>
      doc ← lib (fitz_open contents);
      full_text ← extract_pages 1 (doc_pages doc) [];
      let page_count := Z.of_nat (length (doc_pages doc)) in
      let metadata : dict :=
        {[ Py.lit "book_name" := VStr (path_stem file_path);
           Py.lit "file_path" := VStr (path_str file_path);
           Py.lit "total_pages" := VInt page_count;
           Py.lit "title" :=
             PyVal.get (doc_metadata doc) (Py.lit "title")
               (VStr (path_stem file_path));
           Py.lit "author" :=
             PyVal.get (doc_metadata doc) (Py.lit "author")
               (VStr (Py.lit "Unknown")) ]} in
      Ret (Helpers.clean_text full_text, metadata)
  end.

Definition process_book (self : t) (fs : filesystem) (file_path : Path)
  : outcome (list chunk) :=
  '(text, metadata) ← load_pdf fs file_path;
  chunk_text self text metadata.

(** The variables of the batch loop, and the books handed to [process_book]
    so far, in order. *)
Record batch := Batch {
  all_chunks : list chunk;
  successful : Z;
  failed : Z;
  handled : list Path
}.

(** The [for] loop of [process_books_directory] with its [try]/[except
    Exception]. *)
Fixpoint books_loop (self : t) (fs : filesystem) (pdf_files : list Path)
    (b : batch) : outcome batch :=
  match pdf_files with
  | [] => Ret b
  | pdf_file :: rest =>
      match process_book self fs pdf_file with
      | Ret chunks =>
          books_loop self fs rest
            {| all_chunks := all_chunks b ++ chunks;
               successful := successful b + 1;
               failed := failed b;
               handled := handled b ++ [pdf_file] |}
      | Raise _ =>
          books_loop self fs rest
            {| all_chunks := all_chunks b;
               successful := successful b;
               failed := failed b + 1;
               handled := handled b ++ [pdf_file] |}
      | OutOfFuel => OutOfFuel
      end
  end.

(** [process_books_directory], returning with the chunk list the final
    values of the counters that it logs. *)
Definition process_books_directory_vars (self : t) (fs : filesystem)
    (books_dir : Path) : outcome batch :=
  match pdf_listing fs !! path_str books_dir with
  | None =>
      Raise (FileNotFoundError
               (Py.lit "Books directory not found: " ++ path_str books_dir))
  | Some [] =>
      Raise (ValueError
               (Py.lit "No PDF files found in " ++ path_str books_dir))
  | Some pdf_files =>
      books_loop self fs pdf_files
        {| all_chunks := []; successful := 0; failed := 0; handled := [] |}
  end.

Definition process_books_directory (self : t) (fs : filesystem)
    (books_dir : Path) : outcome (list chunk) :=
  all_chunks <$> process_books_directory_vars self fs books_dir.

End WithTables.

End DocumentProcessor.

(** ** [src/book_manager.py] *)

(** The JSON document that [_save_tracker] writes. *)
Record tracker_doc := TrackerDoc {
  doc_processed_books : option (gmap (list N) (gmap (list N) value));
  doc_last_updated : str
}.

(** The tracker file on disk. *)
Inductive tracker_file :=
| NoFile
| Unreadable
| Stored (d : tracker_doc).

(** How the write of [_save_tracker] went: done, failed before the file was
    opened, or failed after [open(..., 'w')] had truncated it.  Both failures
    are caught and logged. *)
Inductive write_result := Written | NotWritten | Truncated.

Module BookManager.

Record t := Make {
  processed_books : gmap (list N) (gmap (list N) value)
}.

Definition _load_tracker (disk : tracker_file)
  : gmap (list N) (gmap (list N) value) :=
  match disk with
  | Stored d => default ∅ (doc_processed_books d)
  | Unreadable => ∅
  | NoFile => ∅
  end.

(** [BookManager.__init__] *)
Definition init (disk : tracker_file) : t :=
  {| processed_books := _load_tracker disk |}.

Definition _save_tracker (self : t) (now : str) (io : write_result)
    (disk : tracker_file) : tracker_file :=
  match io with
  | Written =>
      Stored {| doc_processed_books := Some (processed_books self);
                doc_last_updated := now |}
  | NotWritten => disk
  | Truncated => Unreadable
  end.

(** [for chunk in iter(lambda: f.read(4096), b""): md5_hash.update(chunk)] *)
Fixpoint read_loop (fuel : nat) (md5_hash : Hashlib.md5) (rest : bytes)
  : Hashlib.md5 :=
  match fuel with
  | O => md5_hash
  | S fuel' =>
      match take 4096 rest with
      | [] => md5_hash
      | chunk =>
          read_loop fuel' (Hashlib.update md5_hash chunk) (drop 4096 rest)
      end
  end.

Definition _calculate_file_hash (fs : filesystem) (file_path : Path)
  : outcome str :=
  match files fs !! path_str file_path with
  | None => Raise (FileNotFoundError (path_str file_path))
  | Some contents =>
      Ret (Hashlib.hexdigest
             (read_loop (S (length contents)) Hashlib.new contents))
  end.

Definition is_processed (self : t) (fs : filesystem) (file_path : Path)
  : outcome bool :=
  let file_name := path_name file_path in
  match processed_books self !! file_name with
  | None => Ret false
  | Some entry =>
      current_hash ← _calculate_file_hash fs file_path;
      let stored_hash := PyVal.get entry (Py.lit "file_hash") (VStr []) in
      Ret (bool_decide (VStr current_hash = stored_hash))
  end.

(** [file_path.stat().st_size] *)
Definition st_size (fs : filesystem) (file_path : Path) : outcome Z :=
  match files fs !! path_str file_path with
  | None => Raise (FileNotFoundError (path_str file_path))
  | Some contents => Ret (Z.of_nat (length contents))
  end.

Definition mark_as_processed (self : t) (fs : filesystem) (file_path : Path)
    (chunk_count : Z) (now : str) (io : write_result) (disk : tracker_file)
  : outcome (t * tracker_file) :=
  let file_name := path_name file_path in
  file_hash ← _calculate_file_hash fs file_path;
  size ← st_size fs file_path;
  let entry : dict :=
    {[ Py.lit "file_path" := VStr (path_str file_path);
       Py.lit "file_hash" := VStr file_hash;
       Py.lit "chunk_count" := VInt chunk_count;
       Py.lit "processed_date" := VStr now;
       Py.lit "file_size" := VInt size ]} in
  let self' := {| processed_books := <[file_name := entry]> (processed_books self) |} in
  Ret (self', _save_tracker self' now io disk).

Definition remove_book (self : t) (file_name : str) (now : str)
    (io : write_result) (disk : tracker_file) : t * tracker_file :=
  match processed_books self !! file_name with
  | Some _ =>
      let self' := {| processed_books := delete file_name (processed_books self) |} in
      (self', _save_tracker self' now io disk)
  | None => (self, disk)
  end.

(** A use of the manager: one of the two operations that change the tracker,
    with what it meets outside (the files at that moment, the clock, how the
    write goes). *)
Inductive op :=
| Mark (fs : filesystem) (file_path : Path) (chunk_count : Z) (now : str)
       (io : write_result)
| Remove (file_name : str) (now : str) (io : write_result).

(** One operation on the manager and its tracker file; when
    [mark_as_processed] raises, nothing has been changed. *)
Definition step (st : t * tracker_file) (o : op) : t * tracker_file :=
  match o with
  | Mark fs file_path chunk_count now io =>
      match mark_as_processed (fst st) fs file_path chunk_count now io (snd st)
      with
      | Ret st' => st'
      | _ => st
      end
  | Remove file_name now io => remove_book (fst st) file_name now io (snd st)
  end.

Definition run (ops : list op) (st : t * tracker_file) : t * tracker_file :=
  fold_left step ops st.

(** The [processed_books] mapping of the tracker file, when it has one. *)
Definition persisted (disk : tracker_file)
  : option (gmap (list N) (gmap (list N) value)) :=
  match disk with
  | Stored d => doc_processed_books d
  | _ => None
  end.

(** The list comprehension of [get_new_books]. *)
Fixpoint new_books_loop (self : t) (fs : filesystem) (all_pdfs : list Path)
  : outcome (list Path) :=
  match all_pdfs with
  | [] => Ret []
  | pdf :: rest =>
      processed ← is_processed self fs pdf;
      new_books ← new_books_loop self fs rest;
      Ret (if (processed : bool) then new_books else pdf :: new_books)
  end.

Definition get_new_books (self : t) (fs : filesystem) (books_dir : Path)
  : outcome (list Path) :=
  match pdf_listing fs !! path_str books_dir with
  | None => Ret []
  | Some all_pdfs => new_books_loop self fs all_pdfs
  end.

(** [get_book_info(file_name)] *)
Definition get_book_info (self : t) (file_name : str)
  : gmap (list N) value :=
  default ∅ (processed_books self !! file_name).

Definition clear_all (self : t) (now : str) (io : write_result)
    (disk : tracker_file) : t * tracker_file :=
  let self' := {| processed_books := ∅ |} in
  (self', _save_tracker self' now io disk).

(** [book.get('chunk_count', 0)] as a summand: [None] when adding it to an
    [int] raises [TypeError]. *)
Definition chunk_count_of (book : gmap (list N) value) : option Z :=
  match PyVal.get book (Py.lit "chunk_count") (VInt 0) with
  | VInt z => Some z
  | VBool b => Some (if b then 1 else 0)
  | _ => None
  end.

(** What [get_stats] returns; [books], the list of the keys, is kept as
    their set. *)
Record stats := Stats {
  total_books_processed : Z;
  total_chunks : Z;
  books : gset (list N)
}.

(** [sum(book.get('chunk_count', 0) for book in ...values())] *)
Definition sum_chunk_counts (m : gmap (list N) (gmap (list N) value))
  : option Z :=
  map_fold (fun _ book acc => a ← acc; c ← chunk_count_of book; Some (a + c))
           (Some 0) m.

(** [get_stats()]; [None] when the sum raises [TypeError]. *)
Definition get_stats (self : t) : option stats :=
  total ← sum_chunk_counts (processed_books self);
  Some {| total_books_processed := Z.of_nat (size (processed_books self));
          total_chunks := total;
          books := dom (processed_books self) |}.

End BookManager.

(** Every key of [m] is the name of a file that some [Mark] of [ops] was
    given, and its entry holds as [file_hash] the MD5 hex digest of the
    contents that file had then. *)
Definition keyed_by_marked_names (ops : list BookManager.op)
    (m : gmap (list N) (gmap (list N) value)) : Prop :=
  forall key entry, m !! key = Some entry ->
    exists fs file_path chunk_count now io contents,
      In (BookManager.Mark fs file_path chunk_count now io) ops
      /\ path_name file_path = key
      /\ files fs !! path_str file_path = Some contents
      /\ entry !! Py.lit "file_hash"
         = Some (VStr (Hashlib.hexdigest contents)).

(** ** [DocumentProcessor.process_new_books] *)

(** The dictionary that [process_new_books] returns; the two lists of names
    are missing from the one it returns for a missing directory. *)
Record scan_result := ScanResult {
  new_books_processed : Z;
  skipped_books : Z;
  total_new_chunks : Z;
  scan_chunks : list chunk;
  new_book_names : option (list str);
  skipped_book_names : option (list str)
}.

Module Incremental.

Section WithTables.
Context {U : Unicode} {F : Fitz}.

(** The loop that separates the new books from the processed ones. *)
Fixpoint classify (book_manager : BookManager.t) (fs : filesystem)
    (all_pdfs : list Path) (new_books : list Path) (skipped : list str)
  : outcome (list Path * list str) :=
  match all_pdfs with
  | [] => Ret (new_books, skipped)
  | pdf_file :: rest =>
      processed ← BookManager.is_processed book_manager fs pdf_file;
      if (processed : bool)
      then classify book_manager fs rest new_books
             (skipped ++ [path_name pdf_file])
      else classify book_manager fs rest (new_books ++ [pdf_file]) skipped
  end.

(** The loop over the new books.  [clock] and [io] give, for the book being
    marked, the time and how the write of the tracker goes. *)
Fixpoint process_loop (self : DocumentProcessor.t) (fs : filesystem)
    (clock : Path -> str) (io : Path -> write_result) (new_books : list Path)
    (st : BookManager.t * tracker_file) (all_chunks : list chunk)
  : outcome (BookManager.t * tracker_file * list chunk) :=
  match new_books with
  | [] => Ret (st, all_chunks)
  | pdf_file :: rest =>
      match DocumentProcessor.process_book self fs pdf_file with
      | Ret chunks =>
          match BookManager.mark_as_processed (fst st) fs pdf_file
                  (Z.of_nat (length chunks)) (clock pdf_file) (io pdf_file)
                  (snd st)
          with
          | Ret st' => process_loop self fs clock io rest st'
                         (all_chunks ++ chunks)
          | Raise _ => process_loop self fs clock io rest st
                         (all_chunks ++ chunks)
          | OutOfFuel => OutOfFuel
          end
      | Raise _ => process_loop self fs clock io rest st all_chunks
      | OutOfFuel => OutOfFuel
      end
  end.

Definition process_new_books (self : DocumentProcessor.t) (fs : filesystem)
    (clock : Path -> str) (io : Path -> write_result)
    (book_manager : BookManager.t) (disk : tracker_file) (books_dir : Path)
  : outcome (scan_result * (BookManager.t * tracker_file)) :=
  match pdf_listing fs !! path_str books_dir with
  | None =>
      Ret ({| new_books_processed := 0; skipped_books := 0;
              total_new_chunks := 0; scan_chunks := [];
              new_book_names := None; skipped_book_names := None |},
           (book_manager, disk))
  | Some all_pdfs =>
      '(new_books, skipped) ← classify book_manager fs all_pdfs [] [];
      '(st, all_chunks) ←
        process_loop self fs clock io new_books (book_manager, disk) [];
      Ret ({| new_books_processed := Z.of_nat (length new_books);
              skipped_books := Z.of_nat (length skipped);
              total_new_chunks := Z.of_nat (length all_chunks);
              scan_chunks := all_chunks;
              new_book_names := Some (map path_name new_books);
              skipped_book_names := Some skipped |},
           st)
  end.

End WithTables.

End Incremental.

(** ** [src/vector_store.py] and [src/rag_engine.py] *)

(** A [float], held by its bit pattern: the program only copies the
    distances that the database reports. *)
Abbreviation float := N.

(** What [collection.query] returns. *)
Record query_results := QueryResults {
  documents : list (list str);
  metadatas : list (list (gmap (list N) value));
  distances : option (list (list float))
}.

(** A retrieved chunk: the dictionary with keys [text], [metadata] and
    [distance] that [similarity_search] builds. *)
Record hit := Hit {
  hit_text : str;
  hit_metadata : gmap (list N) value;
  hit_distance : option float
}.

(** The embedding model and the vector database. *)
Class VectorBackend := {
  collection : Type;
  embedding : Type;
  encode : str -> returned embedding;
  collection_query : collection -> embedding -> Z -> returned query_results
}.

(** The handler of the hosted language model ([src/llm_handler.py]). *)
Class LLMHandler := {
  create_rag_prompt : str -> list hit -> returned str;
  create_general_knowledge_prompt : str -> returned str;
  generate_response : str -> returned str
}.

(** What [collection.add] is given. *)
Record add_request (E : Type) := AddRequest {
  add_embeddings : list E;
  add_texts : list str;
  add_metadatas : list (gmap (list N) value);
  add_ids : list str
}.

Arguments AddRequest {E} _ _ _ _.
Arguments add_embeddings {E} _.
Arguments add_texts {E} _.
Arguments add_metadatas {E} _.
Arguments add_ids {E} _.

(** The writing side of the embedding model and of the database. *)
Class VectorWriter {B : VectorBackend} := {
  encode_all : list str -> returned (list embedding);
  collection_add : collection -> add_request embedding -> returned collection
}.

(** [xs[i]] *)
Definition index {A} (xs : list A) (i : nat) : outcome A :=
  match xs !! i with
  | Some x => Ret x
  | None => Raise IndexError
  end.

Module VectorStore.

Section WithBackend.
Context {B : VectorBackend}.

(** The loop [for i in range(len(results['documents'][0]))]. *)
Fixpoint format_results (results : query_results) (range : list nat)
    (formatted_results : list hit) : outcome (list hit) :=
  match range with
  | [] => Ret formatted_results
  | i :: rest =>
      docs ← index (documents results) 0;
      doc ← index docs i;
      metas ← index (metadatas results) 0;
      meta ← index metas i;
      dist ← match distances results with
             | Some ds =>
                 d0 ← index ds 0;
                 d ← index d0 i;
                 Ret (Some d)
             | None => Ret None
             end;
      format_results results rest
        (formatted_results ++
           [{| hit_text := doc; hit_metadata := meta; hit_distance := dist |}])
  end.

Definition similarity_search (self : collection) (query : str)
    (top_k : option Z) : outcome (list hit) :=
  let k := PyVal.or_default top_k Settings.TOP_K_RESULTS in
  query_embedding ← lib (encode query);
  results ← lib (collection_query self query_embedding k);
  match documents results with
  | (_ :: _) as docs0 :: _ =>
      format_results results (seq 0 (length docs0)) []
  | _ => Ret []
  end.

End WithBackend.

Section WithWriter.
Context {B : VectorBackend} {W : VectorWriter}.

(** The metadata and the id that [add_documents] gives a chunk. *)
Definition chunk_metadata (c : chunk) : gmap (list N) value :=
  {[ Py.lit "book_name" := book_name c;
     Py.lit "page" := VStr (PyVal.str_of_Z (page c));
     Py.lit "chunk_id" := VStr (PyVal.str_of_Z (chunk_id c));
     Py.lit "source" := source c ]}.

Definition chunk_doc_id (c : chunk) : str :=
  PyVal.to_str (book_name c) ++ Py.lit "_chunk_" ++ PyVal.str_of_Z (chunk_id c).

(** [add_documents(chunks)], returning the collection after the call. *)
Definition add_documents (self : collection) (chunks : list chunk)
  : outcome collection :=
  match chunks with
  | [] => Ret self
  | _ =>
      let texts := map text chunks in
      let metadatas := map chunk_metadata chunks in
      let ids := map chunk_doc_id chunks in
      embeddings ← lib (encode_all texts);
      lib (collection_add self
             {| add_embeddings := embeddings; add_texts := texts;
                add_metadatas := metadatas; add_ids := ids |})
  end.

End WithWriter.

End VectorStore.

(** The calls that leave the engine, in the order they are made. *)
Inductive event :=
| SimilaritySearch (query : str) (top_k : option Z)
| CreateRagPrompt (question : str) (chunks : list hit)
| CreateGeneralKnowledgePrompt (question : str)
| GenerateResponse (prompt : str).

(** A computation of the engine: the calls it made and how it ended. *)
Record traced (A : Type) := Traced {
  events : list event;
  result : outcome A
}.

Arguments Traced {A} events result.
Arguments events {A} t.
Arguments result {A} t.

#[global] Instance traced_ret : MRet traced := fun A a => Traced [] (Ret a).
#[global] Instance traced_bind : MBind traced := fun A B f m =>
  match result m with
  | Ret a => Traced (events m ++ events (f a)) (result (f a))
  | Raise e => Traced (events m) (Raise e)
  | OutOfFuel => Traced (events m) OutOfFuel
  end.

(** One outside call. *)
Definition call {A} (e : event) (r : outcome A) : traced A := Traced [e] r.

(** The dictionary that [RAGEngine.query] returns. *)
Record response := Response {
  answer : str;
  mode : str;
  sources : list (gmap (list N) value);
  citations : str
}.

Module RAGEngine.

Section WithServices.
Context {B : VectorBackend} {L : LLMHandler}.

(** The engine holds its vector store; the language model has no state. *)
Record t := Make { vector_store : collection }.

(** One entry of [sources]. *)
Definition source_entry (chunk : hit) : gmap (list N) value :=
  {[ Py.lit "book" :=
       PyVal.get (hit_metadata chunk) (Py.lit "book_name")
         (VStr (Py.lit "Unknown"));
     Py.lit "page" :=
       PyVal.get (hit_metadata chunk) (Py.lit "page") (VStr (Py.lit "N/A"));
     Py.lit "text_preview" :=
       VStr (if (200 <? length (hit_text chunk))%nat
             then Py.slice_to (hit_text chunk) 200 ++ Py.lit "..."
             else hit_text chunk) ]}.

Definition query_books (self : t) (question : str) (top_k : option Z)
  : traced (str * list (gmap (list N) value)) :=
  chunks ← call (SimilaritySearch question top_k)
             (VectorStore.similarity_search (vector_store self) question top_k);
  match chunks with
  | [] =>
      mret (Py.lit "I couldn't find relevant information in the books to answer this question.",
            [])
  | _ =>
      prompt ← call (CreateRagPrompt question chunks)
                 (lib (create_rag_prompt question chunks));
      answer ← call (GenerateResponse prompt)
                 (lib (generate_response prompt));
      mret (answer, map source_entry chunks)
  end.

Definition query_general_knowledge (self : t) (question : str) : traced str :=
  prompt ← call (CreateGeneralKnowledgePrompt question)
             (lib (create_general_knowledge_prompt question));
  call (GenerateResponse prompt) (lib (generate_response prompt)).

Definition query (self : t) (question : str) (use_general_knowledge : bool)
    (top_k : option Z) : traced response :=
  if use_general_knowledge then
    answer ← query_general_knowledge self question;
    mret {| answer := answer;
            mode := Py.lit "general_knowledge";
            sources := [];
            citations :=
              Py.lit "Based on general knowledge (not from textbooks)" |}
  else
    '(answer, sources) ← query_books self question top_k;
    let citations := Helpers.format_citations_list sources in
    mret {| answer := answer;
            mode := Py.lit "book_based";
            sources := sources;
            citations := citations |}.

End WithServices.

End RAGEngine.

(** ** Notions used to state the properties *)

(** No two adjacent white-space characters. *)
Fixpoint single_spaced (s : str) : bool :=
  match s with
  | a :: s' =>
      match s' with
      | b :: _ => negb (Py.isspace a && Py.isspace b) && single_spaced s'
      | [] => true
      end
  | [] => true
  end.

(** The first character, if there is one, is not white space. *)
Definition starts_clean (s : str) : bool :=
  match s with
  | c :: _ => negb (Py.isspace c)
  | [] => true
  end.

(** No leading and no trailing white space. *)
Definition trimmed (s : str) : bool :=
  starts_clean s && starts_clean (rev s).

(** Every white-space character is the space character. *)
Definition plain_spaces (s : str) : bool :=
  forallb (fun c => implb (Py.isspace c) (c =? Py.SP)%N) s.

(** The text that [chunk_text] accumulates from the page sections of its
    input: the page texts of the sections whose header it can read. *)
Definition page_text_of {U : Unicode} (page_section : str) : option str :=
  match DocumentProcessor.read_page_num page_section with
  | Some _ => DocumentProcessor.read_page_text page_section
  | None => None
  end.

Definition accumulated_text {U : Unicode} (text : str) : str :=
  concat (omap page_text_of (tail (Py.split (Py.lit "--- Page ") text))).

(** Fixed-size slicing with a fixed stride: the [i]-th window of [T]. *)
Definition window (size stride : nat) (T : str) (i : nat) : str :=
  take size (drop (i * stride) T).

(** The sizes for which the slicing loop makes progress and windows
    overlap. *)
Definition well_sized (p : DocumentProcessor.t) : Prop :=
  0 < DocumentProcessor.chunk_overlap p < DocumentProcessor.chunk_size p.

(** The chunks at the front of the output are the successive full windows of
    [T], stripped, numbered from 0, with the given book name and source. *)
Definition windows_cut (size stride : nat) (b f : value) (T : str)
    (l : list chunk) : Prop :=
  forall j c, l !! j = Some c ->
    text c = Py.strip (window size stride T j)
    /\ chunk_id c = Z.of_nat j
    /\ book_name c = b
    /\ source c = f
    /\ (j * stride + size <= length T)%nat.

(** The loop invariant of [chunk_text] between two page sections, [T] being
    the text accumulated so far. *)
Definition chunking_inv (size stride : nat) (b f : value) (T : str)
    (v : DocumentProcessor.vars) : Prop :=
  windows_cut size stride b f T (DocumentProcessor.chunks v)
  /\ DocumentProcessor.next_id v
     = Z.of_nat (length (DocumentProcessor.chunks v))
  /\ DocumentProcessor.current_chunk v
     = drop (length (DocumentProcessor.chunks v) * stride) T
  /\ (length (DocumentProcessor.chunks v) * stride <= length T)%nat
  /\ (length (DocumentProcessor.current_chunk v) < size)%nat
  /\ (DocumentProcessor.page_num v = None
      -> DocumentProcessor.current_chunk v = []).

(** The invariant of the tracker, in memory and on disk, after the
    operations [ops]. *)
Definition tracker_inv (ops : list BookManager.op)
    (st : BookManager.t * tracker_file) : Prop :=
  keyed_by_marked_names ops (BookManager.processed_books (fst st))
  /\ match BookManager.persisted (snd st) with
     | Some m => keyed_by_marked_names ops m
     | None => True
     end.

(** The chunks of a book when [process_book] returns them. *)
Definition chunks_if_processed {U : Unicode} {F : Fitz}
    (self : DocumentProcessor.t) (fs : filesystem) (file_path : Path)
  : option (list chunk) :=
  match DocumentProcessor.process_book self fs file_path with
  | Ret chunks => Some chunks
  | _ => None
  end.

(** The exception that [process_book] raises, when it raises. *)
Definition error_if_failed {U : Unicode} {F : Fitz}
    (self : DocumentProcessor.t) (fs : filesystem) (file_path : Path)
  : option exn :=
  match DocumentProcessor.process_book self fs file_path with
  | Raise e => Some e
  | _ => None
  end.

(** A line of the citation list: [i. **book** (Page p)], the page part left
    out when the page value is falsy. *)
Definition citation_line (i : Z) (book page : value) : str :=
  PyVal.str_of_Z i ++ Py.lit ". **" ++ PyVal.to_str book ++ Py.lit "**"
    ++ (if PyVal.truthy page
        then Py.lit " (Page " ++ PyVal.to_str page ++ Py.lit ")"
        else []).

(** The book name and the page that a retrieved chunk is cited with. *)
Definition cited_book (chunk : hit) : value :=
  PyVal.get (hit_metadata chunk) (Py.lit "book_name") (VStr (Py.lit "Unknown")).

Definition cited_page (chunk : hit) : value :=
  PyVal.get (hit_metadata chunk) (Py.lit "page") (VStr (Py.lit "N/A")).

(** Calls to the vector store, and calls to the language model handler. *)
Definition is_search (e : event) : bool :=
  match e with
  | SimilaritySearch _ _ => true
  | _ => false
  end.

Definition is_llm_call (e : event) : bool :=
  match e with
  | SimilaritySearch _ _ => false
  | _ => true
  end.

(** Every write of the tracker file succeeds. *)
Definition writes_succeed (ops : list BookManager.op) : Prop :=
  Forall (fun o => match o with
                   | BookManager.Mark _ _ _ _ io => io = Written
                   | BookManager.Remove _ _ io => io = Written
                   end) ops.

(** [is_processed] returns [True]. *)
Definition processed_now (self : BookManager.t) (fs : filesystem)
    (file_path : Path) : bool :=
  match BookManager.is_processed self fs file_path with
  | Ret true => true
  | _ => false
  end.

(** The chunks of one book: numbered from 0 in order, with the book's
    name. *)
Definition numbered_for (b : value) (chunks : list chunk) : Prop :=
  forall i c, chunks !! i = Some c ->
    chunk_id c = Z.of_nat i /\ book_name c = b.

(** ** Sample inputs *)

Module Samples.

Definition metadata : dict :=
  {[ Py.lit "book_name" := VStr (Py.lit "Perry");
     Py.lit "file_path" := VStr (Py.lit "data/books/Perry.pdf") ]}.

(** The text of a two-page book as [load_pdf] returns it. *)
Definition two_pages : str :=
  Py.lit "--- Page 1 --- ab cd ef gh ij kl --- Page 2 --- mn op".

(** One page whose 4000th accumulated character is a space: the six
    characters [1 --- ] that stay from the header, 3993 letters, a space,
    then ten more letters. *)
Definition trailing_space_page : str :=
  Py.lit "--- Page 1 --- " ++ repeat 97%N 3993 ++ [Py.SP] ++ repeat 98%N 10.

(** One page of 4000 spaces, not cleaned. *)
Definition blank_page : str :=
  Py.lit "--- Page 1 ---" ++ [Py.NL] ++ repeat Py.SP 4000.

(** A book file, and two contents for it that differ in six bytes (the
    pair of Wang and Yu). *)
Definition book : Path :=
  {| path_str := Py.lit "data/books/a.pdf";
     path_name := Py.lit "a.pdf";
     path_stem := Py.lit "a" |}.

Definition contents_a : bytes :=
  Hashlib.fromhex (Py.lit
    ("d131dd02c5e6eec4693d9a0698aff95c2fcab58712467eab4004583eb8fb7f89" ++
     "55ad340609f4b30283e488832571415a085125e8f7cdc99fd91dbdf280373c5b" ++
     "d8823e3156348f5bae6dacd436c919c6dd53e2b487da03fd02396306d248cda0" ++
     "e99f33420f577ee8ce54b67080a80d1ec69821bcb6a8839396f9652b6ff72a70")).

Definition contents_b : bytes :=
  Hashlib.fromhex (Py.lit
    ("d131dd02c5e6eec4693d9a0698aff95c2fcab50712467eab4004583eb8fb7f89" ++
     "55ad340609f4b30283e4888325f1415a085125e8f7cdc99fd91dbd7280373c5b" ++
     "d8823e3156348f5bae6dacd436c919c6dd53e23487da03fd02396306d248cda0" ++
     "e99f33420f577ee8ce54b67080280d1ec69821bcb6a8839396f965ab6ff72a70")).

Definition disk_with (contents : bytes) : filesystem :=
  {| files := {[ path_str book := contents ]};
     pdf_listing := {[ Py.lit "data/books" := [book] ]} |}.

Definition noon : str := Py.lit "2025-01-01T12:00:00".

(** A reader that takes a file for one page of plain text, and fails on an
    empty file. *)
Definition plain_reader : Fitz := fun contents =>
  match contents with
  | [] => Raised (LibraryError 1)
  | _ =>
      Returned {| doc_pages := [Returned (map Byte.to_N contents)];
                  doc_metadata := ∅ |}
  end.

Definition good_book : Path :=
  {| path_str := Py.lit "data/books/good.pdf";
     path_name := Py.lit "good.pdf";
     path_stem := Py.lit "good" |}.

Definition empty_book : Path :=
  {| path_str := Py.lit "data/books/empty.pdf";
     path_name := Py.lit "empty.pdf";
     path_stem := Py.lit "empty" |}.

Definition books_dir : Path :=
  {| path_str := Py.lit "data/books";
     path_name := Py.lit "books";
     path_stem := Py.lit "books" |}.

(** A directory with a failing book between two readable ones. *)
Definition library : filesystem :=
  {| files :=
       {[ path_str good_book := [Byte.x68; Byte.x69];
          path_str empty_book := [] ]};
     pdf_listing := {[ path_str books_dir := [good_book; empty_book; good_book] ]} |}.

(** A vector store that holds its documents in a list and reports all of
    them, and a language model handler that echoes. *)
Definition list_store : VectorBackend :=
  {| collection := list (str * gmap (list N) value);
     embedding := str;
     encode := fun query => Returned query;
     collection_query := fun c _ _ =>
       Returned {| documents := [map fst c];
                   metadatas := [map snd c];
                   distances := None |} |}.

Definition echo : LLMHandler :=
  {| create_rag_prompt := fun question _ => Returned question;
     create_general_knowledge_prompt := fun question => Returned question;
     generate_response := fun prompt => Returned prompt |}.

Definition shelf : list (str * gmap (list N) value) :=
  [(Py.lit "Distillation separates by volatility.",
    {[ Py.lit "book_name" := VStr (Py.lit "Perry");
       Py.lit "page" := VStr (Py.lit "12") ]});
   (Py.lit "A reboiler supplies the vapour.",
    {[ Py.lit "book_name" := VStr (Py.lit "McCabe");
       Py.lit "page" := VStr [] ]})].

Definition question : str := Py.lit "What is distillation?".

(** A directory with one readable book and one that cannot be read. *)
Definition two_books : filesystem :=
  {| files :=
       {[ path_str good_book := [Byte.x68; Byte.x69];
          path_str empty_book := [] ]};
     pdf_listing := {[ path_str books_dir := [good_book; empty_book] ]} |}.

End Samples.

(** * Properties *)

(** ** The model on known values *)

Example md5_empty :
  Hashlib.hexdigest [] = Py.lit "d41d8cd98f00b204e9800998ecf8427e".
Proof. vm_compute. reflexivity. Qed.

Example md5_abc :
  Hashlib.hexdigest [Byte.x61; Byte.x62; Byte.x63]
  = Py.lit "900150983cd24fb0d6963f7d28e17f72".
Proof. vm_compute. reflexivity. Qed.

Example md5_two_blocks :
  Hashlib.hexdigest Samples.contents_a
  = Py.lit "79054025255fb1a26e4bc422aef54eb4".
Proof. vm_compute. reflexivity. Qed.

Example int_page_number :
  AsciiTables.int (Py.lit " 12 ") = Some 12
  /\ AsciiTables.int (Py.lit "1_0") = Some 10
  /\ AsciiTables.int (Py.lit "-3") = Some (-3)
  /\ AsciiTables.int (Py.lit "1 2") = None
  /\ AsciiTables.int (Py.lit "") = None.
Proof. repeat split; reflexivity. Qed.

Example split_pages :
  Py.split (Py.lit "--- Page ") (Py.lit "--- Page 1 --- a --- Page 2 --- b")
  = [[]; Py.lit "1 --- a "; Py.lit "2 --- b"].
Proof. reflexivity. Qed.

Example clean_text_sample :
  Helpers.clean_text (U := AsciiTables.tables)
    ([Py.NL] ++ Py.lit "--- Page 1 ---" ++ [Py.NL] ++ Py.lit "ab  cd"
       ++ [Py.NL; Py.NL; Py.NL] ++ Py.lit "ef ")
  = Py.lit "--- Page 1 --- ab cd ef".
Proof. reflexivity. Qed.

Example chunk_text_sample :
  map text <$> DocumentProcessor.chunk_text (U := AsciiTables.tables)
                 (DocumentProcessor.init (Some 2) (Some 1)) Samples.two_pages
                 Samples.metadata
  = Ret [Py.lit "1 --- ab"; Py.lit "- ab cd"; Py.lit "cd ef g";
         Py.lit "ef gh ij"; Py.lit "h ij kl"; Py.lit "kl 2 --";
         Py.lit "2 --- mn"; Py.lit "- mn op"].
Proof. vm_compute. reflexivity. Qed.

(** ** Strings *)

Lemma lstrip_split (s : str) :
  exists w, s = w ++ Py.lstrip s /\ forallb Py.isspace w = true.
Proof.
  induction s as [|c s IH]; simpl.
  - exists []. auto.
  - destruct (Py.isspace c) eqn:Hc.
    + destruct IH as (w & Hw & Hall). exists (c :: w). simpl.
      rewrite Hc, Hall. split; [congruence | reflexivity].
    + exists []. auto.
Qed.

Lemma lstrip_starts_clean (s : str) : starts_clean (Py.lstrip s) = true.
Proof.
  induction s as [|c s IH]; simpl; [reflexivity|].
  destruct (Py.isspace c) eqn:Hc; [exact IH | simpl; now rewrite Hc].
Qed.

Lemma lstrip_id (s : str) : starts_clean s = true -> Py.lstrip s = s.
Proof.
  destruct s as [|c s]; simpl; [reflexivity|].
  now destruct (Py.isspace c).
Qed.

Lemma rstrip_split (s : str) :
  exists w, s = Py.rstrip s ++ w /\ forallb Py.isspace w = true.
Proof.
  unfold Py.rstrip. destruct (lstrip_split (rev s)) as (w & Hw & Hall).
  exists (rev w). split.
  - rewrite <- rev_app_distr, <- Hw. now rewrite rev_involutive.
  - rewrite forallb_forall in *. intros x Hx. apply Hall.
    now apply in_rev.
Qed.

Lemma rstrip_id (s : str) : starts_clean (rev s) = true -> Py.rstrip s = s.
Proof.
  intros H. unfold Py.rstrip. rewrite lstrip_id by exact H.
  apply rev_involutive.
Qed.

Lemma starts_clean_prefix (a b : str) :
  starts_clean (a ++ b) = true -> starts_clean a = true.
Proof. destruct a; simpl; auto. Qed.

Lemma strip_trimmed (s : str) : trimmed (Py.strip s) = true.
Proof.
  unfold trimmed, Py.strip. apply andb_true_intro. split.
  - destruct (rstrip_split (Py.lstrip s)) as (w & Hw & _).
    apply starts_clean_prefix with (b := w). rewrite <- Hw.
    apply lstrip_starts_clean.
  - unfold Py.rstrip. rewrite rev_involutive. apply lstrip_starts_clean.
Qed.

Lemma strip_id (s : str) : trimmed s = true -> Py.strip s = s.
Proof.
  unfold trimmed, Py.strip. intros H. apply andb_prop in H as [H1 H2].
  rewrite lstrip_id by exact H1. now apply rstrip_id.
Qed.

Lemma strip_split (s : str) :
  exists w1 w2, s = w1 ++ Py.strip s ++ w2
                /\ forallb Py.isspace w1 = true
                /\ forallb Py.isspace w2 = true.
Proof.
  destruct (lstrip_split s) as (w1 & H1 & A1).
  destruct (rstrip_split (Py.lstrip s)) as (w2 & H2 & A2).
  exists w1, w2. unfold Py.strip. rewrite <- H2. auto.
Qed.

Lemma single_spaced_app_l (a b : str) :
  single_spaced (a ++ b) = true -> single_spaced a = true.
Proof.
  induction a as [|x a IH]; simpl; [reflexivity|].
  destruct a as [|y a]; simpl in *; [reflexivity|].
  intros H. apply andb_prop in H as [H1 H2]. rewrite H1. simpl. auto.
Qed.

Lemma single_spaced_app_r (a b : str) :
  single_spaced (a ++ b) = true -> single_spaced b = true.
Proof.
  induction a as [|x a IH]; simpl; [auto|].
  destruct (a ++ b) eqn:E.
  - destruct a; destruct b; simpl in *; try discriminate; reflexivity.
  - intros H. apply andb_prop in H as [_ H2]. auto.
Qed.

Lemma plain_spaces_app (a b : str) :
  plain_spaces (a ++ b) = plain_spaces a && plain_spaces b.
Proof. apply forallb_app. Qed.

Lemma strip_single_spaced (s : str) :
  single_spaced s = true -> single_spaced (Py.strip s) = true.
Proof.
  intros H. destruct (strip_split s) as (w1 & w2 & E & _ & _).
  rewrite E in H. apply single_spaced_app_r in H.
  now apply single_spaced_app_l in H.
Qed.

Lemma strip_plain_spaces (s : str) :
  plain_spaces s = true -> plain_spaces (Py.strip s) = true.
Proof.
  intros H. destruct (strip_split s) as (w1 & w2 & E & _ & _).
  rewrite E, !plain_spaces_app in H.
  apply andb_prop in H as [_ H]. now apply andb_prop in H as [H _].
Qed.

(** ** [clean_text] *)

Section CleanText.
Context {U : Unicode}.

Lemma sub_spaces_in_run_starts_clean (s : str) :
  starts_clean (Helpers.sub_spaces true s) = true.
Proof.
  induction s as [|c s IH]; simpl; [reflexivity|].
  destruct (Py.isspace c) eqn:Hc; [exact IH | simpl; now rewrite Hc].
Qed.

Lemma single_spaced_cons (a : N) (s : str) :
  single_spaced s = true ->
  (Py.isspace a = true -> starts_clean s = true) ->
  single_spaced (a :: s) = true.
Proof.
  intros Hs Hh. destruct s as [|b s]; [reflexivity|].
  change (negb (Py.isspace a && Py.isspace b) && single_spaced (b :: s) = true).
  rewrite Hs, andb_true_r. destruct (Py.isspace a); [|reflexivity].
  specialize (Hh eq_refl). simpl in Hh. simpl.
  now destruct (Py.isspace b).
Qed.

Lemma sub_spaces_single_spaced (in_run : bool) (s : str) :
  single_spaced (Helpers.sub_spaces in_run s) = true.
Proof.
  revert in_run. induction s as [|c s IH]; intros in_run; simpl; [reflexivity|].
  destruct (Py.isspace c) eqn:Hc.
  - destruct in_run; [apply IH|].
    apply single_spaced_cons; [apply IH|].
    intros _. apply sub_spaces_in_run_starts_clean.
  - apply single_spaced_cons; [apply IH|]. congruence.
Qed.

Lemma sub_spaces_plain_spaces (in_run : bool) (s : str) :
  plain_spaces (Helpers.sub_spaces in_run s) = true.
Proof.
  revert in_run. induction s as [|c s IH]; intros in_run; simpl; [reflexivity|].
  destruct (Py.isspace c) eqn:Hc.
  - destruct in_run; [apply IH|]. simpl. apply IH.
  - simpl. rewrite Hc. simpl. apply IH.
Qed.

Lemma plain_spaces_no_newline (s : str) :
  plain_spaces s = true -> forallb (fun c => negb (c =? Py.NL)%N) s = true.
Proof.
  unfold plain_spaces. rewrite !forallb_forall. intros H c Hc.
  specialize (H c Hc). destruct (N.eqb_spec c Py.NL) as [->|]; [|reflexivity].
  discriminate H.
Qed.

Lemma sub_page_numbers_fuel_no_newline (n : nat) (s : str) :
  forallb (fun c => negb (c =? Py.NL)%N) s = true ->
  Helpers.sub_page_numbers_fuel n s = s.
Proof.
  revert s. induction n as [|n IH]; intros s H; simpl; [reflexivity|].
  destruct s as [|c s]; [reflexivity|].
  simpl in H. apply andb_prop in H as [Hc Hs].
  assert (Helpers.after_page_number (c :: s) = None) as ->.
  { unfold Helpers.after_page_number. destruct s; [reflexivity|].
    destruct (c =? Py.NL)%N; [discriminate | reflexivity]. }
  now rewrite IH.
Qed.

Lemma sub_newlines_no_newline (s : str) :
  forallb (fun c => negb (c =? Py.NL)%N) s = true ->
  Helpers.sub_newlines 0 s = s.
Proof.
  induction s as [|c s IH]; intros H; simpl; [reflexivity|].
  simpl in H. apply andb_prop in H as [Hc Hs].
  destruct (c =? Py.NL)%N; [discriminate|]. simpl. now rewrite IH.
Qed.

(** The two later substitutions never fire: the first one leaves no
    newline. *)
Lemma clean_text_eq (s : str) :
  Helpers.clean_text s = Py.strip (Helpers.sub_spaces false s).
Proof.
  unfold Helpers.clean_text, Helpers.sub_page_numbers.
  pose proof (plain_spaces_no_newline _ (sub_spaces_plain_spaces false s)) as H.
  rewrite sub_page_numbers_fuel_no_newline by exact H.
  now rewrite sub_newlines_no_newline by exact H.
Qed.

Lemma sub_spaces_id (s : str) :
  single_spaced s = true -> plain_spaces s = true ->
  Helpers.sub_spaces false s = s.
Proof.
  induction s as [|c s IH]; intros Ht Hp; [reflexivity|].
  simpl in Hp. apply andb_prop in Hp as [Hc Hp].
  assert (single_spaced s = true) as Hs
      by (apply (single_spaced_app_r [c] s); exact Ht).
  specialize (IH Hs Hp). simpl.
  destruct (Py.isspace c) eqn:Ec.
  - simpl in Hc. apply N.eqb_eq in Hc. subst c. f_equal.
    destruct s as [|d s]; [reflexivity|].
    change (negb (Py.isspace Py.SP && Py.isspace d)
            && single_spaced (d :: s) = true) in Ht.
    rewrite Ec in Ht.
    destruct (Py.isspace d) eqn:Ed; [discriminate|].
    simpl in IH |- *. rewrite Ed in IH |- *. exact IH.
  - now rewrite IH.
Qed.

Lemma clean_text_single_spaced (s : str) :
  single_spaced (Helpers.clean_text s) = true.
Proof.
  rewrite clean_text_eq. apply strip_single_spaced, sub_spaces_single_spaced.
Qed.

Lemma clean_text_plain_spaces (s : str) :
  plain_spaces (Helpers.clean_text s) = true.
Proof.
  rewrite clean_text_eq. apply strip_plain_spaces, sub_spaces_plain_spaces.
Qed.

Lemma clean_text_trimmed (s : str) : trimmed (Helpers.clean_text s) = true.
Proof. rewrite clean_text_eq. apply strip_trimmed. Qed.

(** C9. [clean_text] is idempotent: cleaning a cleaned text changes nothing;
    and every output of [clean_text] has no two adjacent white-space
    characters and no leading or trailing white space. *)
Theorem clean_text_idempotent (s : str) :
  Helpers.clean_text (Helpers.clean_text s) = Helpers.clean_text s
  /\ single_spaced (Helpers.clean_text s) = true
  /\ trimmed (Helpers.clean_text s) = true.
Proof.
  split; [|split].
  - rewrite (clean_text_eq (Helpers.clean_text s)).
    rewrite sub_spaces_id
      by (apply clean_text_single_spaced || apply clean_text_plain_spaces).
    apply strip_id, clean_text_trimmed.
  - apply clean_text_single_spaced.
  - apply clean_text_trimmed.
Qed.

End CleanText.

(** ** Splitting a single-spaced text *)

Lemma startswith_spec (p s : str) :
  Py.startswith p s = true -> s = p ++ drop (length p) s.
Proof.
  revert s. induction p as [|a p IH]; intros s H; [reflexivity|].
  destruct s as [|c s]; [discriminate|]. simpl in H.
  apply andb_prop in H as [Hac Hp]. apply N.eqb_eq in Hac. subst c.
  simpl. f_equal. now apply IH.
Qed.

Lemma partition_spec (sep s a b : str) :
  Py.partition sep s = Some (a, b) -> s = a ++ sep ++ b.
Proof.
  revert a. induction s as [|c s IH]; intros a; simpl.
  - destruct (Py.startswith sep []) eqn:E; [|discriminate].
    intros [= <- <-]. now apply startswith_spec in E.
  - destruct (Py.startswith sep (c :: s)) eqn:E.
    + intros [= <- <-]. now apply startswith_spec in E.
    + destruct (Py.partition sep s) as [[a' b']|]; [|discriminate].
      intros [= <- <-]. simpl. f_equal. now apply IH.
Qed.

Lemma single_spaced_app (a b : str) :
  single_spaced a = true -> single_spaced b = true ->
  starts_clean b = true -> single_spaced (a ++ b) = true.
Proof.
  intros Ha Hb Hc. induction a as [|x a IH]; [exact Hb|].
  assert (single_spaced a = true) as Ha'
      by (apply (single_spaced_app_r [x] a); exact Ha).
  specialize (IH Ha'). destruct a as [|y a].
  - simpl. destruct b as [|z b]; [reflexivity|].
    simpl in Hc. rewrite Hb. destruct (Py.isspace z); [discriminate|].
    now rewrite andb_false_r.
  - simpl in Ha |- *. apply andb_prop in Ha as [Hxy _].
    rewrite Hxy. exact IH.
Qed.

Lemma single_spaced_after_space (x b : str) (w : N) :
  Py.isspace w = true -> single_spaced (x ++ w :: b) = true ->
  starts_clean b = true.
Proof.
  intros Hw H. apply single_spaced_app_r in H.
  destruct b as [|c b]; [reflexivity|]. simpl in H |- *.
  rewrite Hw in H. now destruct (Py.isspace c).
Qed.

(** What follows a separator that ends in white space. *)
Lemma partition_single_spaced (sep' : str) (w : N) (s a b : str) :
  Py.isspace w = true -> single_spaced s = true ->
  Py.partition (sep' ++ [w]) s = Some (a, b) ->
  single_spaced a = true /\ single_spaced b = true /\ starts_clean b = true.
Proof.
  intros Hw Hs Hp. apply partition_spec in Hp. subst s.
  split; [now apply single_spaced_app_l in Hs|].
  apply single_spaced_app_r in Hs. rewrite <- app_assoc in Hs. simpl in Hs.
  split.
  - apply single_spaced_app_r in Hs.
    now apply (single_spaced_app_r [w] b).
  - now apply (single_spaced_after_space sep' b w).
Qed.

Lemma split_fuel_single_spaced (n : nat) (sep' : str) (w : N) (s : str) :
  Py.isspace w = true -> single_spaced s = true ->
  Forall (fun p => single_spaced p = true /\ starts_clean p = true)
         (tail (Py.split_fuel n (sep' ++ [w]) s)).
Proof.
  intros Hw. revert s.
  assert (forall n s, single_spaced s = true -> starts_clean s = true ->
            Forall (fun p => single_spaced p = true /\ starts_clean p = true)
                   (Py.split_fuel n (sep' ++ [w]) s)) as Hall.
  { clear n. induction n as [|n IH]; intros s Hs Hc; simpl.
    - repeat constructor; assumption.
    - destruct (Py.partition (sep' ++ [w]) s) as [[a b]|] eqn:E.
      + destruct (partition_single_spaced _ _ _ _ _ Hw Hs E) as (Ha & Hb & Hcb).
        constructor; [|now apply IH].
        split; [exact Ha|]. apply partition_spec in E. subst s.
        now apply starts_clean_prefix in Hc.
      + repeat constructor; assumption. }
  intros s Hs. destruct n as [|n]; simpl; [constructor|].
  destruct (Py.partition (sep' ++ [w]) s) as [[a b]|] eqn:E; [|constructor].
  destruct (partition_single_spaced _ _ _ _ _ Hw Hs E) as (Ha & Hb & Hcb).
  simpl. now apply Hall.
Qed.

Lemma concat_single_spaced (l : list str) :
  Forall (fun p => single_spaced p = true /\ starts_clean p = true) l ->
  single_spaced (concat l) = true /\ starts_clean (concat l) = true.
Proof.
  induction 1 as [|p l [Hp Hc] _ [IH1 IH2]]; simpl; [auto|].
  split; [now apply single_spaced_app|].
  destruct p; [exact IH2 | exact Hc].
Qed.

Section Accumulated.
Context {U : Unicode}.

Lemma read_page_text_single_spaced (sec t : str) :
  single_spaced sec = true -> starts_clean sec = true ->
  DocumentProcessor.read_page_text sec = Some t ->
  single_spaced t = true /\ starts_clean t = true.
Proof.
  intros Hs Hc. unfold DocumentProcessor.read_page_text, Py.contains.
  change [45; 45; 45; Py.NL]%N with ([45; 45; 45] ++ [Py.NL])%N.
  simpl Py.split_fuel.
  destruct (Py.partition _ sec) as [[a b']|] eqn:E.
  - simpl. intros [= <-].
    destruct (partition_single_spaced _ _ _ _ _ (eq_refl : Py.isspace Py.NL = true) Hs E)
      as (_ & Hb & Hcb). auto.
  - intros [= <-]. auto.
Qed.

(** The text accumulated from a single-spaced input is single-spaced. *)
Lemma accumulated_text_single_spaced (text : str) :
  single_spaced text = true -> single_spaced (accumulated_text text) = true.
Proof.
  intros Hs. unfold accumulated_text. apply concat_single_spaced.
  pose proof (split_fuel_single_spaced (length text) (Py.lit "--- Page") Py.SP
                text eq_refl Hs) as Hall.
  change (Py.lit "--- Page" ++ [Py.SP]) with (Py.lit "--- Page ") in Hall.
  fold (Py.split (Py.lit "--- Page ") text) in Hall.
  induction Hall as [|sec l [H1 H2] _ IH]; simpl; [constructor|].
  unfold page_text_of at 1.
  destruct (DocumentProcessor.read_page_num sec); [|exact IH].
  destruct (DocumentProcessor.read_page_text sec) as [t|] eqn:E; [|exact IH].
  constructor; [|exact IH].
  now apply (read_page_text_single_spaced sec).
Qed.

End Accumulated.

(** A window of two or more characters of a single-spaced text is not
    blank. *)
Lemma strip_nonempty (w : str) :
  single_spaced w = true -> (2 <= length w)%nat -> Py.strip w <> [].
Proof.
  intros Hs Hlen E. destruct (strip_split w) as (w1 & w2 & Hw & A1 & A2).
  rewrite E in Hw. simpl in Hw.
  assert (forallb Py.isspace w = true) as Hall
      by (rewrite Hw, forallb_app, A1, A2; reflexivity).
  destruct w as [|x [|y w]]; simpl in Hlen; try lia.
  simpl in Hall, Hs.
  apply andb_prop in Hall as [Hx Hall]. apply andb_prop in Hall as [Hy _].
  rewrite Hx, Hy in Hs. discriminate Hs.
Qed.

Lemma window_single_spaced (size stride : nat) (T : str) (i : nat) :
  single_spaced T = true -> single_spaced (window size stride T i) = true.
Proof.
  intros H. unfold window.
  rewrite <- (take_drop (i * stride) T) in H. apply single_spaced_app_r in H.
  rewrite <- (take_drop size (drop (i * stride) T)) in H.
  now apply single_spaced_app_l in H.
Qed.

(** ** The budget of the slicing loop *)

Section Budget.
Context {U : Unicode}.
Variables (cs co : Z) (md : dict) (pn : Z).

Lemma cut_loop_more_fuel (n m : nat) (cur : str) (id : Z) (l : list chunk) :
  DocumentProcessor.cut_loop n cs co md pn cur id l <> OutOfFuel ->
  (n <= m)%nat ->
  DocumentProcessor.cut_loop m cs co md pn cur id l
  = DocumentProcessor.cut_loop n cs co md pn cur id l.
Proof.
  revert m cur id l. induction n as [|n IH]; intros m cur id l Hne Hle.
  - now contradiction Hne.
  - destruct m as [|m]; [lia|]. simpl in Hne |- *.
    destruct (Z.of_nat (length cur) >=? cs); [|reflexivity].
    destruct (PyVal.getitem md (Py.lit "book_name")) as [bk|e|];
      simpl in Hne |- *; try reflexivity.
    destruct (PyVal.getitem md (Py.lit "file_path")) as [src|e|];
      simpl in Hne |- *; try reflexivity.
    apply IH; [exact Hne | lia].
Qed.

Lemma slice_from_length (s : str) (k : Z) :
  length (Py.slice_from s k)
  = if k <? 0 then Nat.min (length s) (Z.to_nat (- k))
    else (length s - Z.to_nat k)%nat.
Proof.
  unfold Py.slice_from. destruct (k <? 0) eqn:E; rewrite length_drop.
  - apply Z.ltb_lt in E. lia.
  - reflexivity.
Qed.

Lemma slice_from_fixed (s : str) (k : Z) :
  k <= 0 -> Py.slice_from (Py.slice_from s k) k = Py.slice_from s k.
Proof.
  intros Hk. destruct (Z.eq_dec k 0) as [->|Hne]; [reflexivity|].
  pose proof (slice_from_length s k) as Hlen.
  unfold Py.slice_from at 1. destruct (Z.ltb_spec k 0) as [Hlt|]; [|lia].
  replace (Z.to_nat _) with 0%nat by lia. reflexivity.
Qed.

(** A loop that neither shrinks its text below the window size nor fails
    never ends. *)
Lemma cut_loop_stuck (n : nat) (cur : str) (id : Z) (l : list chunk) :
  (Z.of_nat (length cur) >=? cs) = true ->
  Py.slice_from cur (cs - co) = cur ->
  is_Some (md !! Py.lit "book_name") -> is_Some (md !! Py.lit "file_path") ->
  DocumentProcessor.cut_loop n cs co md pn cur id l = OutOfFuel.
Proof.
  intros Hge Hfix [bk Hb] [src Hf]. revert id l.
  induction n as [|n IH]; intros id l; [reflexivity|].
  simpl. rewrite Hge. unfold PyVal.getitem. rewrite Hb, Hf. simpl.
  rewrite Hfix. apply IH.
Qed.

(** The budget that [chunk_text] is run with is enough: if the loop ends
    within some number of tests, it ends within one more than the length of
    its text. *)
Lemma cut_loop_fuel_enough (n : nat) (cur : str) (id : Z) (l : list chunk) :
  DocumentProcessor.cut_loop n cs co md pn cur id l <> OutOfFuel ->
  DocumentProcessor.cut_loop (S (length cur)) cs co md pn cur id l
  = DocumentProcessor.cut_loop n cs co md pn cur id l.
Proof.
  revert n id l.
  induction cur as [cur IH] using (induction_ltof1 _ (@length N)).
  unfold ltof in IH. intros n id l Hne.
  destruct n as [|n]; [now contradiction Hne|].
  cbn [DocumentProcessor.cut_loop] in Hne |- *.
  destruct (Z.of_nat (length cur) >=? cs) eqn:Hge; [|reflexivity].
  unfold PyVal.getitem in *.
  destruct (md !! Py.lit "book_name") as [bk|] eqn:Hb; [|reflexivity].
  destruct (md !! Py.lit "file_path") as [src|] eqn:Hf; [|reflexivity].
  cbn [mbind outcome_bind] in Hne |- *.
  set (cur' := Py.slice_from cur (cs - co)) in *.
  set (l' := l ++ _) in *.
  destruct (decide (length cur' < length cur)%nat) as [Hlt|Hnlt].
  - rewrite <- (IH cur' Hlt n (id + 1) l' Hne).
    apply cut_loop_more_fuel; [|lia].
    rewrite (IH cur' Hlt n (id + 1) l' Hne). exact Hne.
  - (* the text did not get shorter: it never will *)
    exfalso. apply Hne.
    pose proof (slice_from_length cur (cs - co)) as Hlen. fold cur' in Hlen.
    apply cut_loop_stuck; eauto.
    + apply Z.geb_le in Hge. apply Z.geb_le. lia.
    + destruct (Z.le_gt_cases (cs - co) 0) as [Hstep|Hstep].
      * now apply slice_from_fixed.
      * destruct (Z.ltb_spec (cs - co) 0); [lia|].
        assert (cur' = []) as -> by (apply length_zero_iff_nil; lia).
        unfold Py.slice_from. destruct (cs - co <? 0); now rewrite drop_nil.
Qed.

End Budget.

(** ** The slicing loop of [chunk_text] *)

Section Slicing.
Context {U : Unicode}.
Variables (cs co : Z) (md : dict) (b f : value).
Hypothesis Hsize : 0 <= co < cs.
Hypothesis Hb : md !! Py.lit "book_name" = Some b.
Hypothesis Hf : md !! Py.lit "file_path" = Some f.

Local Abbreviation csn := (Z.to_nat cs).
Local Abbreviation stepn := (Z.to_nat (cs - co)).

Lemma window_app (T t : str) (j : nat) :
  (j * stepn + csn <= length T)%nat ->
  window csn stepn (T ++ t) j = window csn stepn T j.
Proof.
  intros H. unfold window.
  rewrite drop_app_le by lia.
  rewrite take_app_le; [reflexivity|].
  rewrite length_drop. lia.
Qed.

Lemma windows_cut_app (T t : str) (l : list chunk) :
  windows_cut csn stepn b f T l -> windows_cut csn stepn b f (T ++ t) l.
Proof.
  intros H j c Hj. destruct (H j c Hj) as (H1 & H2 & H3 & H4 & H5).
  rewrite window_app by exact H5. rewrite length_app.
  repeat split; auto; lia.
Qed.

Lemma windows_cut_snoc (T : str) (l : list chunk) (pn : Z) :
  windows_cut csn stepn b f T l ->
  (length l * stepn + csn <= length T)%nat ->
  windows_cut csn stepn b f T
    (l ++ [{| text := Py.strip (take csn (drop (length l * stepn) T));
              chunk_id := Z.of_nat (length l); book_name := b;
              page := pn; source := f |}]).
Proof.
  intros H Hlen j c Hj.
  destruct (decide (j < length l)%nat) as [Hlt|Hge].
  - rewrite lookup_app_l in Hj by exact Hlt. now apply H.
  - rewrite lookup_app_r in Hj by lia.
    destruct (j - length l)%nat eqn:E; simpl in Hj; [|discriminate].
    assert (j = length l) as -> by lia.
    injection Hj as <-. simpl. repeat split; auto.
Qed.

Lemma cut_loop_windows (fuel : nat) (T : str) (pn : Z) (l : list chunk) :
  windows_cut csn stepn b f T l ->
  (length l * stepn <= length T)%nat ->
  (length (drop (length l * stepn) T) < fuel)%nat ->
  exists l',
    DocumentProcessor.cut_loop fuel cs co md pn
      (drop (length l * stepn) T) (Z.of_nat (length l)) l
    = Ret (drop (length l' * stepn) T, Z.of_nat (length l'), l')
    /\ windows_cut csn stepn b f T l'
    /\ (length l' * stepn <= length T)%nat
    /\ (length (drop (length l' * stepn) T) < csn)%nat.
Proof.
  revert l. induction fuel as [|fuel IH]; intros l Hw Hle Hfuel; [lia|].
  simpl. rewrite length_drop in *.
  destruct (Z.geb_spec (Z.of_nat (length T - length l * stepn)) cs) as [Hge|Hlt].
  - unfold PyVal.getitem. rewrite Hb, Hf. simpl.
    unfold Py.slice_to, Py.slice_from.
    destruct (Z.ltb_spec cs 0) as [?|_]; [lia|].
    destruct (Z.ltb_spec (cs - co) 0) as [?|_]; [lia|].
    rewrite drop_drop.
    set (c := {| text := _ |}).
    assert (length (l ++ [c]) = S (length l)) as Hlen
        by (rewrite length_app; simpl; lia).
    replace (length l * stepn + stepn)%nat with (length (l ++ [c]) * stepn)%nat
      by (rewrite Hlen; lia).
    replace (Z.of_nat (length l) + 1) with (Z.of_nat (length (l ++ [c])))
      by (rewrite Hlen; lia).
    apply IH.
    + apply windows_cut_snoc; [exact Hw | lia].
    + rewrite Hlen. lia.
    + rewrite length_drop, Hlen. lia.
  - exists l. split; [reflexivity|]. split; [exact Hw|].
    split; [exact Hle|]. rewrite length_drop. lia.
Qed.


Lemma chunking_inv_init : chunking_inv csn stepn b f []
  {| DocumentProcessor.current_chunk := []; DocumentProcessor.page_num := None;
     DocumentProcessor.next_id := 0; DocumentProcessor.chunks := [] |}.
Proof.
  split; [intros j c Hj; discriminate Hj|].
  simpl. repeat split; auto; lia.
Qed.

Local Opaque DocumentProcessor.cut_loop.

Lemma page_loop_windows (pages : list str) (v : DocumentProcessor.vars)
    (T : str) :
  chunking_inv csn stepn b f T v ->
  exists v',
    DocumentProcessor.page_loop cs co md pages v = Ret v'
    /\ chunking_inv csn stepn b f (T ++ concat (omap page_text_of pages)) v'.
Proof.
  revert v T. induction pages as [|sec pages IH]; intros v T Hinv.
  - exists v. simpl. rewrite app_nil_r. auto.
  - simpl. unfold page_text_of at 1.
    destruct (DocumentProcessor.read_page_num sec) as [n|]; [|now apply IH].
    destruct (DocumentProcessor.read_page_text sec) as [t|].
    + destruct Hinv as (Hw & Hid & Hcur & Hle & Hlt & Hpn).
      destruct (cut_loop_windows
                  (S (length (drop (length (DocumentProcessor.chunks v) * stepn)
                                (T ++ t))))
                  (T ++ t) n (DocumentProcessor.chunks v))
        as (l' & Hrun & Hw' & Hle' & Hlt').
      * now apply windows_cut_app.
      * rewrite length_app. lia.
      * lia.
      * rewrite Hcur, Hid. rewrite <- drop_app_le by lia.
        rewrite Hrun. simpl.
        rewrite (app_assoc T t). apply IH.
        unfold chunking_inv. simpl.
        split; [exact Hw'|]. split; [reflexivity|]. split; [reflexivity|].
        split; [exact Hle'|]. split; [exact Hlt'|]. intros E. discriminate E.
    + apply IH. destruct Hinv as (Hw & Hid & Hcur & Hle & Hlt & Hpn).
      unfold chunking_inv. simpl.
      split; [exact Hw|]. split; [exact Hid|]. split; [exact Hcur|].
      split; [exact Hle|]. split; [exact Hlt|]. intros E. discriminate E.
Qed.

(** What [chunk_text] returns, in closed form: the stripped full windows of
    the accumulated text, then the stripped remainder unless it is blank. *)
Lemma chunk_text_windows (p : DocumentProcessor.t) (text : str) :
  cs = DocumentProcessor.chunk_size p * 4 ->
  co = DocumentProcessor.chunk_overlap p * 4 ->
  let T := accumulated_text text in
  exists (full : list chunk) (last : list chunk),
    DocumentProcessor.chunk_text p text md = Ret (full ++ last)
    /\ windows_cut csn stepn b f T full
    /\ (length full * stepn <= length T)%nat
    /\ (length (drop (length full * stepn) T) < csn)%nat
    /\ (if Py.truthy (Py.strip (drop (length full * stepn) T))
        then exists pn,
          last = [{| text := Py.strip (drop (length full * stepn) T);
                     chunk_id := Z.of_nat (length full); book_name := b;
                     page := pn; source := f |}]
        else last = []).
Proof.
  intros Hcs Hco T. unfold DocumentProcessor.chunk_text.
  rewrite <- Hcs, <- Hco.
  destruct (page_loop_windows
              (tail (Py.split (Py.lit "--- Page ") text)) _ [] chunking_inv_init)
    as (v & Hrun & Hw & Hid & Hcur & Hle & Hlt & Hpn).
  rewrite Hrun. simpl in *. fold T in Hw, Hcur, Hle.
  exists (DocumentProcessor.chunks v).
  unfold DocumentProcessor.final_chunk. rewrite Hcur in *.
  destruct (Py.truthy (Py.strip _)) eqn:Etr.
  - unfold PyVal.getitem. rewrite Hb, Hf. simpl.
    destruct (DocumentProcessor.page_num v) as [pn|] eqn:Epn.
    + simpl.
      exists [{| text := Py.strip (drop (length (DocumentProcessor.chunks v)
                                          * stepn) T);
                 chunk_id := DocumentProcessor.next_id v; book_name := b;
                 page := pn; source := f |}].
      split; [reflexivity|]. split; [exact Hw|]. split; [exact Hle|].
      split; [exact Hlt|]. exists pn. now rewrite Hid.
    + rewrite Hpn in Etr by reflexivity. discriminate Etr.
  - exists []. rewrite app_nil_r. auto.
Qed.

End Slicing.

(** ** [chunk_text] *)

Section ChunkText.
Context {U : Unicode}.
Variables (p : DocumentProcessor.t) (md : dict) (b f : value).
Hypothesis Hsize : well_sized p.
Hypothesis Hb : md !! Py.lit "book_name" = Some b.
Hypothesis Hf : md !! Py.lit "file_path" = Some f.

Local Abbreviation size := (Z.to_nat (DocumentProcessor.chunk_size p * 4)).
Local Abbreviation overlap :=
  (Z.to_nat (DocumentProcessor.chunk_overlap p * 4)).

Lemma stride_eq :
  Z.to_nat (DocumentProcessor.chunk_size p * 4
            - DocumentProcessor.chunk_overlap p * 4)
  = (size - overlap)%nat.
Proof. unfold well_sized in Hsize. lia. Qed.

Lemma chunk_text_closed_form (input : str) :
  let T := accumulated_text input in
  exists (full : list chunk) (last : list chunk),
    DocumentProcessor.chunk_text p input md = Ret (full ++ last)
    /\ windows_cut size (size - overlap) b f T full
    /\ (length full * (size - overlap) <= length T)%nat
    /\ (length (drop (length full * (size - overlap)) T) < size)%nat
    /\ (if Py.truthy (Py.strip (drop (length full * (size - overlap)) T))
        then exists pn,
          last = [{| text := Py.strip (drop (length full * (size - overlap)) T);
                     chunk_id := Z.of_nat (length full); book_name := b;
                     page := pn; source := f |}]
        else last = []).
Proof.
  rewrite <- stride_eq.
  apply (chunk_text_windows _ _ md b f); auto.
  unfold well_sized in Hsize. lia.
Qed.

(** C1, as the code has it.  With [0 < chunk_overlap < chunk_size],
    [chunk_text] cuts the text accumulated from the pages into windows of
    exactly [chunk_size*4] characters: the [i]-th chunk carries the [i]-th
    window with its leading and trailing white space stripped, each window
    after the first starts with the final [chunk_overlap*4] characters of the
    window before it, and what is left after the last full window is the
    final chunk unless it is blank. *)
Theorem chunk_text_sliding_windows (input : str) :
  let T := accumulated_text input in
  exists (chunks : list chunk) (n : nat),
    DocumentProcessor.chunk_text p input md = Ret chunks
    /\ (forall i, (i < n)%nat ->
          length (window size (size - overlap) T i) = size
          /\ text <$> chunks !! i
             = Some (Py.strip (window size (size - overlap) T i))
          /\ take overlap (drop ((i + 1) * (size - overlap)) T)
             = drop (size - overlap) (window size (size - overlap) T i))
    /\ (length (drop (n * (size - overlap)) T) < size)%nat
    /\ map text (drop n chunks)
       = (if Py.truthy (Py.strip (drop (n * (size - overlap)) T))
          then [Py.strip (drop (n * (size - overlap)) T)]
          else []).
Proof.
  intros T.
  destruct (chunk_text_closed_form input)
    as (full & last & Hrun & Hw & Hle & Hlt & Hlast).
  fold T in Hw, Hle, Hlt, Hlast.
  pose proof Hsize as [Hov Hsz].
  exists (full ++ last), (length full).
  split; [exact Hrun|]. split; [|split; [exact Hlt|]].
  - intros i Hi.
    destruct (lookup_lt_is_Some_2 full i Hi) as [c Hc].
    destruct (Hw i c Hc) as (Htext & _ & _ & _ & Hfull).
    assert (length (window size (size - overlap) T i) = size) as Hlen.
    { unfold window. rewrite length_take, length_drop. lia. }
    split; [exact Hlen|]. split.
    + rewrite lookup_app_l by exact Hi. rewrite Hc. simpl. now f_equal.
    + unfold window. rewrite skipn_firstn_comm, drop_drop.
      f_equal; [lia|]. f_equal. lia.
  - rewrite drop_app_length.
    destruct (Py.truthy _); [destruct Hlast as [pn ->] | subst last];
      reflexivity.
Qed.

(** C10, as the code has it.  With [0 < chunk_overlap < chunk_size] and a
    metadata dictionary that has [book_name] and [file_path], [chunk_text]
    returns a list in which the chunk at position [i] has [chunk_id] equal to
    [i], a text free of leading and trailing white space, and the book name
    and file path of the metadata; when the input has no two adjacent
    white-space characters (as every output of [clean_text]), every chunk's
    text is non-empty. *)
Theorem chunk_text_output_invariant (input : str) :
  exists chunks : list chunk,
    DocumentProcessor.chunk_text p input md = Ret chunks
    /\ forall i c, chunks !! i = Some c ->
         chunk_id c = Z.of_nat i
         /\ trimmed (text c) = true
         /\ book_name c = b
         /\ source c = f
         /\ (single_spaced input = true -> text c <> []).
Proof.
  destruct (chunk_text_closed_form input)
    as (full & last & Hrun & Hw & Hle & Hlt & Hlast).
  pose proof Hsize as [Hov Hsz].
  exists (full ++ last). split; [exact Hrun|].
  intros i c Hc.
  destruct (decide (i < length full)%nat) as [Hi|Hi].
  - rewrite lookup_app_l in Hc by exact Hi.
    destruct (Hw i c Hc) as (Htext & Hid & Hbn & Hsrc & Hfull).
    rewrite Htext. repeat split; auto using strip_trimmed.
    intros Hs. apply strip_nonempty.
    + now apply window_single_spaced, accumulated_text_single_spaced.
    + unfold window. rewrite length_take, length_drop. lia.
  - rewrite lookup_app_r in Hc by lia.
    destruct (Py.truthy _) eqn:Etr; [|subst last; discriminate Hc].
    destruct Hlast as [pn ->].
    destruct (i - length full)%nat eqn:E; simpl in Hc; [|discriminate Hc].
    injection Hc as <-. simpl.
    split; [f_equal; lia|]. split; [apply strip_trimmed|].
    split; [reflexivity|]. split; [reflexivity|].
    intros _ Hnil. rewrite Hnil in Etr. discriminate Etr.
Qed.

End ChunkText.

(** The default sizes, 1000 and 200 tokens, on a small cleaned text. *)
Lemma chunk_text_sliding_windows_witness :
  well_sized (DocumentProcessor.init None None)
  /\ exists (chunks : list chunk) (n : nat),
       DocumentProcessor.chunk_text (U := AsciiTables.tables)
         (DocumentProcessor.init None None) Samples.two_pages Samples.metadata
       = Ret chunks
       /\ (length (drop (n * (4000 - 800))
                    (accumulated_text (U := AsciiTables.tables)
                       Samples.two_pages)) < 4000)%nat.
Proof.
  assert (well_sized (DocumentProcessor.init None None)) as Hs
      by (unfold well_sized; vm_compute; split; reflexivity).
  split; [exact Hs|].
  destruct (chunk_text_sliding_windows (U := AsciiTables.tables)
              (DocumentProcessor.init None None) Samples.metadata
              (VStr (Py.lit "Perry")) (VStr (Py.lit "data/books/Perry.pdf"))
              Hs eq_refl eq_refl Samples.two_pages)
    as (chunks & n & Hrun & _ & Hrem & _).
  exists chunks, n. split; [exact Hrun | exact Hrem].
Defined.

Lemma chunk_text_output_invariant_witness :
  well_sized (DocumentProcessor.init None None)
  /\ exists chunks : list chunk,
       DocumentProcessor.chunk_text (U := AsciiTables.tables)
         (DocumentProcessor.init None None) Samples.two_pages Samples.metadata
       = Ret chunks
       /\ forall i c, chunks !! i = Some c -> chunk_id c = Z.of_nat i.
Proof.
  assert (well_sized (DocumentProcessor.init None None)) as Hs
      by (unfold well_sized; vm_compute; split; reflexivity).
  split; [exact Hs|].
  destruct (chunk_text_output_invariant (U := AsciiTables.tables)
              (DocumentProcessor.init None None) Samples.metadata
              (VStr (Py.lit "Perry")) (VStr (Py.lit "data/books/Perry.pdf"))
              Hs eq_refl eq_refl Samples.two_pages)
    as (chunks & Hrun & Hall).
  exists chunks. split; [exact Hrun|].
  intros i c Hc. now destruct (Hall i c Hc).
Defined.

(** C1 as stated fails: on a cleaned text whose first window of 4000
    characters ends in a space, the first of the two chunks has a text of
    3999 characters. *)
Lemma chunk_text_window_not_exact :
  Helpers.clean_text (U := AsciiTables.tables) Samples.trailing_space_page
  = Samples.trailing_space_page
  /\ ~ (forall chunks,
          DocumentProcessor.chunk_text (U := AsciiTables.tables)
            (DocumentProcessor.init None None) Samples.trailing_space_page
            Samples.metadata = Ret chunks ->
          forall i c, (S i < length chunks)%nat -> chunks !! i = Some c ->
            length (text c)
            = Z.to_nat (DocumentProcessor.chunk_size
                          (DocumentProcessor.init None None) * 4)).
Proof.
  split; [vm_compute; reflexivity|].
  intros H.
  assert (exists c1 c2,
            DocumentProcessor.chunk_text (U := AsciiTables.tables)
              (DocumentProcessor.init None None) Samples.trailing_space_page
              Samples.metadata = Ret [c1; c2]
            /\ (length (text c1) =? 3999)%nat = true) as (c1 & c2 & E & Hlen).
  { vm_compute. eexists _, _. split; reflexivity. }
  assert (length (text c1) = 4000%nat) as H4000.
  { apply (H _ E 0%nat c1); [simpl; lia | reflexivity]. }
  rewrite H4000 in Hlen. vm_compute in Hlen. discriminate Hlen.
Qed.

(** C10 as stated fails: on a page of 4000 spaces the only chunk returned
    has an empty text. *)
Lemma chunk_text_blank_chunk :
  DocumentProcessor.chunk_text (U := AsciiTables.tables)
    (DocumentProcessor.init None None) Samples.blank_page Samples.metadata
  = Ret [{| text := []; chunk_id := 0; book_name := VStr (Py.lit "Perry");
            page := 1; source := VStr (Py.lit "data/books/Perry.pdf") |}]
  /\ ~ (forall chunks,
          DocumentProcessor.chunk_text (U := AsciiTables.tables)
            (DocumentProcessor.init None None) Samples.blank_page
            Samples.metadata = Ret chunks ->
          forall i c, chunks !! i = Some c -> text c <> []).
Proof.
  assert (DocumentProcessor.chunk_text (U := AsciiTables.tables)
            (DocumentProcessor.init None None) Samples.blank_page
            Samples.metadata
          = Ret [{| text := []; chunk_id := 0;
                    book_name := VStr (Py.lit "Perry"); page := 1;
                    source := VStr (Py.lit "data/books/Perry.pdf") |}]) as E
      by (vm_compute; reflexivity).
  split; [exact E|].
  intros H. now apply (H _ E 0%nat _ eq_refl).
Qed.

(** ** [BookManager] *)

Lemma read_loop_all (fuel : nat) (h : Hashlib.md5) (rest : bytes) :
  (length rest < fuel)%nat ->
  BookManager.read_loop fuel h rest = h ++ rest.
Proof.
  revert h rest. induction fuel as [|fuel IH]; intros h rest Hlt; [lia|].
  cbn [BookManager.read_loop].
  destruct (take 4096 rest) as [|x chunk] eqn:E.
  - destruct rest as [|y rest]; [now rewrite app_nil_r | discriminate E].
  - rewrite IH.
    + unfold Hashlib.update. rewrite <- E, <- app_assoc.
      now rewrite take_drop.
    + rewrite length_drop. destruct rest; [discriminate E|].
      simpl in Hlt |- *. lia.
Qed.

Lemma calculate_file_hash_eq (fs : filesystem) (file_path : Path)
    (contents : bytes) :
  files fs !! path_str file_path = Some contents ->
  BookManager._calculate_file_hash fs file_path
  = Ret (Hashlib.hexdigest contents).
Proof.
  intros H. unfold BookManager._calculate_file_hash. rewrite H.
  now rewrite read_loop_all by lia.
Qed.

Lemma hexdigest_length (h : Hashlib.md5) :
  length (Hashlib.hexdigest h) = 32%nat.
Proof.
  unfold Hashlib.hexdigest, Hashlib.digest.
  destruct (Hashlib.blocks _ _ _) as [[[A B] C] D]. reflexivity.
Qed.

Lemma is_processed_eq (self : BookManager.t) (fs : filesystem)
    (file_path : Path) (contents : bytes) :
  files fs !! path_str file_path = Some contents ->
  BookManager.is_processed self fs file_path
  = Ret (match BookManager.processed_books self !! path_name file_path with
         | Some entry =>
             bool_decide
               (VStr (Hashlib.hexdigest contents)
                = PyVal.get entry (Py.lit "file_hash") (VStr []))
         | None => false
         end).
Proof.
  intros H. unfold BookManager.is_processed.
  destruct (BookManager.processed_books self !! path_name file_path);
    [|reflexivity].
  now rewrite (calculate_file_hash_eq _ _ _ H).
Qed.

(** C4, as the code has it.  For a file that exists, [is_processed] returns
    True exactly when the file's name is in the tracker and the MD5 digest of
    the file's current contents equals the [file_hash] stored for that name;
    after [mark_as_processed], [is_processed] returns True while the contents
    are the same, and, once the contents have changed, returns True exactly
    when the new contents have the same MD5 digest as the marked ones. *)
Theorem is_processed_tracks_digest (self : BookManager.t) (fs : filesystem)
    (file_path : Path) (contents : bytes) :
  files fs !! path_str file_path = Some contents ->
  (exists r,
     BookManager.is_processed self fs file_path = Ret r
     /\ (r = true <->
         exists entry,
           BookManager.processed_books self !! path_name file_path
           = Some entry
           /\ PyVal.get entry (Py.lit "file_hash") (VStr [])
              = VStr (Hashlib.hexdigest contents)))
  /\ forall chunk_count now io disk,
       exists self' disk',
         BookManager.mark_as_processed self fs file_path chunk_count now io
           disk = Ret (self', disk')
         /\ BookManager.is_processed self' fs file_path = Ret true
         /\ forall fs' contents',
              files fs' !! path_str file_path = Some contents' ->
              BookManager.is_processed self' fs' file_path
              = Ret (bool_decide (Hashlib.hexdigest contents'
                                  = Hashlib.hexdigest contents)).
Proof.
  intros H. split.
  - rewrite (is_processed_eq _ _ _ _ H). eexists. split; [reflexivity|].
    destruct (BookManager.processed_books self !! path_name file_path)
      as [entry|].
    + rewrite bool_decide_eq_true. split.
      * intros E. exists entry. auto.
      * intros (entry' & [= <-] & E). auto.
    + split; [discriminate|]. intros (entry & E & _). discriminate E.
  - intros chunk_count now io disk.
    unfold BookManager.mark_as_processed, BookManager.st_size.
    rewrite (calculate_file_hash_eq _ _ _ H), H. simpl.
    eexists _, _. split; [reflexivity|].
    assert (forall fs' contents',
              files fs' !! path_str file_path = Some contents' ->
              BookManager.is_processed
                {| BookManager.processed_books :=
                     <[path_name file_path :=
                         {[ Py.lit "file_path" := VStr (path_str file_path);
                            Py.lit "file_hash" :=
                              VStr (Hashlib.hexdigest contents);
                            Py.lit "chunk_count" := VInt chunk_count;
                            Py.lit "processed_date" := VStr now;
                            Py.lit "file_size" :=
                              VInt (Z.of_nat (length contents)) ]}]>
                       (BookManager.processed_books self) |} fs' file_path
              = Ret (bool_decide (Hashlib.hexdigest contents'
                                  = Hashlib.hexdigest contents))) as Hgen.
    { intros fs' contents' H'. rewrite (is_processed_eq _ _ _ _ H'). simpl.
      rewrite lookup_insert_eq. f_equal.
      assert (PyVal.get
                ({[ Py.lit "file_path" := VStr (path_str file_path);
                    Py.lit "file_hash" := VStr (Hashlib.hexdigest contents);
                    Py.lit "chunk_count" := VInt chunk_count;
                    Py.lit "processed_date" := VStr now;
                    Py.lit "file_size" := VInt (Z.of_nat (length contents)) ]}
                 : gmap (list N) value)
                (Py.lit "file_hash") (VStr [])
              = VStr (Hashlib.hexdigest contents)) as ->.
      { unfold PyVal.get. rewrite lookup_insert_ne by discriminate.
        now rewrite lookup_insert_eq. }
      apply bool_decide_ext. split; [now intros [= ->] | now intros ->]. }
    split; [|exact Hgen].
    rewrite (Hgen fs contents H). now rewrite bool_decide_eq_true_2.
Qed.

(** A file marked with [contents_a] and then rewritten with [contents_b]. *)
Lemma is_processed_tracks_digest_witness :
  files (Samples.disk_with Samples.contents_a) !! path_str Samples.book
  = Some Samples.contents_a
  /\ exists self' disk',
       BookManager.mark_as_processed (BookManager.init NoFile)
         (Samples.disk_with Samples.contents_a) Samples.book 3 Samples.noon
         Written NoFile = Ret (self', disk')
       /\ BookManager.is_processed self'
            (Samples.disk_with Samples.contents_a) Samples.book = Ret true.
Proof.
  assert (files (Samples.disk_with Samples.contents_a) !! path_str Samples.book
          = Some Samples.contents_a) as H by reflexivity.
  split; [exact H|].
  destruct (is_processed_tracks_digest (BookManager.init NoFile) _ _ _ H)
    as [_ Hmark].
  destruct (Hmark 3 Samples.noon Written NoFile) as (self' & disk' & E & Ht & _).
  exists self', disk'. split; [exact E | exact Ht].
Defined.

(** C4 as stated fails: the file is marked with one contents and rewritten
    with another, and [is_processed] still returns True, because both have
    the MD5 digest 79054025255fb1a26e4bc422aef54eb4. *)
Lemma is_processed_misses_collision :
  Samples.contents_a <> Samples.contents_b
  /\ exists self' disk',
       BookManager.mark_as_processed (BookManager.init NoFile)
         (Samples.disk_with Samples.contents_a) Samples.book 3 Samples.noon
         Written NoFile = Ret (self', disk')
       /\ BookManager.is_processed self'
            (Samples.disk_with Samples.contents_b) Samples.book = Ret true.
Proof.
  split; [vm_compute; discriminate|].
  vm_compute. eexists _, _. split; reflexivity.
Qed.

Lemma keyed_by_marked_names_app (pre post : list BookManager.op)
    (m : gmap (list N) (gmap (list N) value)) :
  keyed_by_marked_names pre m -> keyed_by_marked_names (pre ++ post) m.
Proof.
  intros H key entry Hk.
  destruct (H key entry Hk) as (fs & fp & cc & now & io & c & Hin & Hrest).
  exists fs, fp, cc, now, io, c. split; [|exact Hrest].
  apply in_or_app. now left.
Qed.

Lemma tracker_inv_app (pre post : list BookManager.op)
    (st : BookManager.t * tracker_file) :
  tracker_inv pre st -> tracker_inv (pre ++ post) st.
Proof.
  intros [H1 H2]. split; [now apply keyed_by_marked_names_app|].
  destruct (BookManager.persisted (snd st)); [|exact I].
  now apply keyed_by_marked_names_app.
Qed.

Lemma save_tracker_inv (ops : list BookManager.op) (self : BookManager.t)
    (now : str) (io : write_result) (disk : tracker_file) :
  keyed_by_marked_names ops (BookManager.processed_books self) ->
  match BookManager.persisted disk with
  | Some m => keyed_by_marked_names ops m
  | None => True
  end ->
  tracker_inv ops (self, BookManager._save_tracker self now io disk).
Proof.
  intros H1 H2. split; [exact H1|]. destruct io; simpl; auto.
Qed.

Lemma step_inv (pre : list BookManager.op) (st : BookManager.t * tracker_file)
    (o : BookManager.op) :
  tracker_inv pre st -> tracker_inv (pre ++ [o]) (BookManager.step st o).
Proof.
  intros Hinv. pose proof (tracker_inv_app pre [o] st Hinv) as [H1 H2].
  destruct o as [fs fp cc now io | name now io]; simpl.
  - unfold BookManager.mark_as_processed, BookManager.st_size.
    destruct (files fs !! path_str fp) as [contents|] eqn:Efile.
    + rewrite (calculate_file_hash_eq _ _ _ Efile). simpl.
      apply save_tracker_inv; [|exact H2]. simpl.
      intros key entry Hk.
      destruct (decide (path_name fp = key)) as [<-|Hne].
      * rewrite lookup_insert_eq in Hk. injection Hk as <-.
        exists fs, fp, cc, now, io, contents.
        split; [apply in_or_app; right; now left|].
        split; [reflexivity|]. split; [exact Efile|].
        rewrite lookup_insert_ne by discriminate.
        now rewrite lookup_insert_eq.
      * rewrite lookup_insert_ne in Hk by exact Hne. now apply H1.
    + unfold BookManager._calculate_file_hash. rewrite Efile. simpl.
      split; assumption.
  - unfold BookManager.remove_book.
    destruct (BookManager.processed_books (fst st) !! name) eqn:E.
    + apply save_tracker_inv; [|exact H2]. simpl.
      intros key entry Hk. apply lookup_delete_Some in Hk as [_ Hk].
      now apply H1.
    + destruct st. split; assumption.
Qed.

Lemma run_inv (ops pre : list BookManager.op)
    (st : BookManager.t * tracker_file) :
  tracker_inv pre st -> tracker_inv (pre ++ ops) (BookManager.run ops st).
Proof.
  revert pre st. induction ops as [|o ops IH]; intros pre st H.
  - now rewrite app_nil_r.
  - replace (pre ++ o :: ops) with ((pre ++ [o]) ++ ops)
      by now rewrite <- app_assoc.
    apply IH. now apply step_inv.
Qed.

(** C2, as the code has it.  Starting from an empty tracker, after any
    sequence of [mark_as_processed] and [remove_book] operations every key of
    the [processed_books] mapping, in memory and in the tracker file, is the
    file name of a book that was marked, and the entry under it holds as
    [file_hash] the MD5 hex digest of the contents that file had when it was
    marked. *)
Theorem tracker_keyed_by_file_name (ops : list BookManager.op) :
  let st := BookManager.run ops (BookManager.init NoFile, NoFile) in
  keyed_by_marked_names ops (BookManager.processed_books (fst st))
  /\ match BookManager.persisted (snd st) with
     | Some m => keyed_by_marked_names ops m
     | None => True
     end.
Proof.
  apply (run_inv ops [] (BookManager.init NoFile, NoFile)).
  split; simpl; [|exact I].
  intros key entry Hk. rewrite lookup_empty in Hk. discriminate Hk.
Qed.

(** C2 as stated fails: after one [mark_as_processed] the tracker file has
    the key [a.pdf], the name of the file, which is no MD5 hex digest. *)
Lemma tracker_key_is_not_digest :
  let m :=
    default ∅
      (BookManager.persisted
         (snd (BookManager.run
                 [BookManager.Mark (Samples.disk_with Samples.contents_a)
                    Samples.book 3 Samples.noon Written]
                 (BookManager.init NoFile, NoFile)))) in
  m !! Py.lit "a.pdf" <> None
  /\ ~ (forall key, m !! key <> None ->
          exists contents : bytes, key = Hashlib.hexdigest contents).
Proof.
  intros m.
  assert (m !! Py.lit "a.pdf" <> None) as Hkey.
  { subst m. unfold BookManager.run. cbn [fold_left BookManager.step fst snd].
    unfold BookManager.mark_as_processed, BookManager.st_size.
    assert (files (Samples.disk_with Samples.contents_a)
              !! path_str Samples.book = Some Samples.contents_a) as Hfile
        by apply lookup_singleton_eq.
    rewrite (calculate_file_hash_eq _ _ _ Hfile), Hfile.
    cbn [mbind outcome_bind BookManager._save_tracker BookManager.persisted
         fst snd doc_processed_books default BookManager.processed_books].
    change (path_name Samples.book) with (Py.lit "a.pdf").
    unfold id. rewrite lookup_insert_eq. discriminate. }
  split; [exact Hkey|].
  intros Hall. destruct (Hall _ Hkey) as [contents E].
  apply (f_equal length) in E. rewrite hexdigest_length in E.
  discriminate E.
Qed.

(** ** [process_books_directory] *)

Section Batch.
Context {U : Unicode} {F : Fitz}.
Variables (self : DocumentProcessor.t) (fs : filesystem).
Hypothesis Hsize : well_sized self.

Lemma extract_pages_returns (pages : list (returned str)) (n : Z) (acc : str) :
  DocumentProcessor.extract_pages n pages acc <> OutOfFuel.
Proof.
  revert n acc. induction pages as [|pg pages IH]; intros n acc; simpl.
  - discriminate.
  - destruct pg as [t|e]; simpl; [apply IH | discriminate].
Qed.

Lemma load_pdf_cases (file_path : Path) :
  (exists e, DocumentProcessor.load_pdf fs file_path = Raise e)
  \/ exists text md,
       DocumentProcessor.load_pdf fs file_path = Ret (text, md)
       /\ md !! Py.lit "book_name" = Some (VStr (path_stem file_path))
       /\ md !! Py.lit "file_path" = Some (VStr (path_str file_path)).
Proof.
  unfold DocumentProcessor.load_pdf.
  destruct (files fs !! path_str file_path) as [contents|]; [|left; eauto].
  destruct (fitz_open contents) as [doc|e]; simpl; [|left; eauto].
  pose proof (extract_pages_returns (doc_pages doc) 1 []) as Hne.
  destruct (DocumentProcessor.extract_pages 1 (doc_pages doc) [])
    as [full_text|e|]; simpl; [|left; eauto|contradiction].
  right. eexists _, _. split; [reflexivity|]. split.
  - now rewrite lookup_insert_eq.
  - rewrite lookup_insert_ne by discriminate. now rewrite lookup_insert_eq.
Qed.

(** With sizes that make the slicing loop progress, a book is processed or
    raises. *)
Lemma process_book_returns (file_path : Path) :
  DocumentProcessor.process_book self fs file_path <> OutOfFuel.
Proof.
  unfold DocumentProcessor.process_book.
  destruct (load_pdf_cases file_path) as [[e ->]|(text & md & -> & Hb & Hf)];
    simpl; [discriminate|].
  destruct (chunk_text_closed_form self md _ _ Hsize Hb Hf text)
    as (full & last & -> & _). discriminate.
Qed.

Lemma book_outcome (file_path : Path) :
  (exists chunks,
     DocumentProcessor.process_book self fs file_path = Ret chunks
     /\ chunks_if_processed self fs file_path = Some chunks
     /\ error_if_failed self fs file_path = None)
  \/ (exists e,
        DocumentProcessor.process_book self fs file_path = Raise e
        /\ chunks_if_processed self fs file_path = None
        /\ error_if_failed self fs file_path = Some e).
Proof.
  pose proof (process_book_returns file_path) as Hne.
  unfold chunks_if_processed, error_if_failed.
  destruct (DocumentProcessor.process_book self fs file_path)
    as [chunks|e|]; [left | right | contradiction]; eauto.
Qed.

Lemma books_loop_spec (pdf_files : list Path) (b : DocumentProcessor.batch) :
  DocumentProcessor.books_loop self fs pdf_files b
  = Ret {| DocumentProcessor.all_chunks :=
             DocumentProcessor.all_chunks b
             ++ concat (omap (chunks_if_processed self fs) pdf_files);
           DocumentProcessor.successful :=
             DocumentProcessor.successful b
             + Z.of_nat (length (omap (chunks_if_processed self fs) pdf_files));
           DocumentProcessor.failed :=
             DocumentProcessor.failed b
             + Z.of_nat (length (omap (error_if_failed self fs) pdf_files));
           DocumentProcessor.handled :=
             DocumentProcessor.handled b ++ pdf_files |}.
Proof.
  revert b. induction pdf_files as [|f files IH]; intros b.
  - simpl. rewrite !app_nil_r, !Z.add_0_r. now destruct b.
  - cbn [DocumentProcessor.books_loop omap list_omap].
    destruct (book_outcome f) as [(chunks & E & -> & ->)|(e & E & -> & ->)];
      rewrite E, IH;
      cbn [DocumentProcessor.all_chunks DocumentProcessor.successful
           DocumentProcessor.failed DocumentProcessor.handled concat length];
      rewrite <- ?app_assoc, ?Nat2Z.inj_succ; do 2 f_equal; lia.
Qed.


End Batch.


(** The same batch, evaluated: the unreadable book is counted as failed and
    the two others give their chunks. *)
Example process_books_directory_sample :
  DocumentProcessor.process_books_directory_vars (U := AsciiTables.tables)
    (F := Samples.plain_reader) (DocumentProcessor.init None None)
    Samples.library Samples.books_dir
  = Ret (let c :=
           {| text := Py.lit "1 --- hi"; chunk_id := 0;
              book_name := VStr (Py.lit "good"); page := 1;
              source := VStr (Py.lit "data/books/good.pdf") |} in
         {| DocumentProcessor.all_chunks := [c; c];
            DocumentProcessor.successful := 2;
            DocumentProcessor.failed := 1;
            DocumentProcessor.handled :=
              [Samples.good_book; Samples.empty_book; Samples.good_book] |}).
Proof. vm_compute. reflexivity. Qed.

(** ** [RAGEngine] *)

Section Engine.
Context {B : VectorBackend} {L : LLMHandler}.

(** C3. With [use_general_knowledge=True], [query] makes no similarity
    search: its outcome and its calls are the same whatever the vector store
    and [top_k] are, none of its calls goes to the vector store, and what it
    returns (whenever the language model handler returns an answer) has mode
    [general_knowledge], an empty sources list and the fixed citation
    string. *)
Theorem query_general_knowledge_bypasses_retrieval
    (self self' : RAGEngine.t) (question : str) (top_k top_k' : option Z) :
  RAGEngine.query self question true top_k
  = RAGEngine.query self' question true top_k'
  /\ forallb (fun e => negb (is_search e))
       (events (RAGEngine.query self question true top_k)) = true
  /\ result (RAGEngine.query self question true top_k)
     = (prompt ← lib (create_general_knowledge_prompt question);
        answer ← lib (generate_response prompt);
        Ret {| answer := answer;
               mode := Py.lit "general_knowledge";
               sources := [];
               citations :=
                 Py.lit "Based on general knowledge (not from textbooks)" |}).
Proof.
  split; [reflexivity|].
  unfold RAGEngine.query, RAGEngine.query_general_knowledge, call.
  cbn [mbind traced_bind events result].
  destruct (create_general_knowledge_prompt question) as [prompt|e];
    cbn; [|auto].
  destruct (generate_response prompt) as [a|e]; cbn; auto.
Qed.

(** C7. When the similarity search returns an empty list, [query_books]
    returns the fixed answer with an empty sources list, and its only call is
    the search: it does not call the language model handler. *)
Theorem query_books_nothing_found (self : RAGEngine.t) (question : str)
    (top_k : option Z) :
  VectorStore.similarity_search (RAGEngine.vector_store self) question top_k
  = Ret [] ->
  RAGEngine.query_books self question top_k
  = Traced [SimilaritySearch question top_k]
      (Ret (Py.lit "I couldn't find relevant information in the books to answer this question.",
            []))
  /\ forallb (fun e => negb (is_llm_call e))
       (events (RAGEngine.query_books self question top_k)) = true.
Proof.
  intros H. unfold RAGEngine.query_books, call.
  cbn [mbind traced_bind events result]. rewrite H. cbn. auto.
Qed.


Lemma source_entry_book (chunk : hit) :
  PyVal.get (RAGEngine.source_entry chunk) (Py.lit "book")
    (VStr (Py.lit "Unknown")) = cited_book chunk.
Proof.
  unfold PyVal.get, RAGEngine.source_entry. now rewrite lookup_insert_eq.
Qed.

Lemma source_entry_page (chunk : hit) :
  PyVal.get (RAGEngine.source_entry chunk) (Py.lit "page") VNone
  = cited_page chunk.
Proof.
  unfold PyVal.get, RAGEngine.source_entry.
  rewrite lookup_insert_ne by discriminate. now rewrite lookup_insert_eq.
Qed.

Lemma format_citation_line (i : Z) (book page : value) :
  PyVal.str_of_Z i ++ Py.lit ". " ++ Helpers.format_citation book page
  = citation_line i book page.
Proof.
  unfold Helpers.format_citation, citation_line.
  change (Py.lit ". **") with (Py.lit ". " ++ Py.lit "**").
  change (Py.lit "** (Page ") with (Py.lit "**" ++ Py.lit " (Page ").
  destruct (PyVal.truthy page); rewrite <- ?app_assoc; [reflexivity|].
  now rewrite app_nil_r.
Qed.

Lemma citations_loop_lines (i : Z) (chunks : list hit) (acc : list str) :
  Helpers.citations_loop i (map RAGEngine.source_entry chunks) acc
  = acc ++ imap (fun j c =>
                   citation_line (i + Z.of_nat j) (cited_book c) (cited_page c))
                chunks.
Proof.
  revert i acc. induction chunks as [|c chunks IH]; intros i acc.
  - simpl. now rewrite app_nil_r.
  - cbn [map Helpers.citations_loop imap].
    rewrite IH, source_entry_book, source_entry_page, format_citation_line.
    rewrite <- app_assoc. f_equal. cbn [app]. f_equal.
    + f_equal. lia.
    + apply imap_ext. intros j c' _. cbn. f_equal. lia.
Qed.

(** C6. For a book-based query whose retrieval returns a non-empty chunk
    list, and whose prompt and answer the language model handler returns,
    [query] returns the answer in mode [book_based] with one source per
    retrieved chunk, in order, carrying that chunk's book name and page, and
    with citations that are the lines [i. **book** (Page p)], numbered from
    1, joined by newlines (the page part omitted when the page is falsy). *)
Theorem query_books_cites_sources (self : RAGEngine.t) (question : str)
    (top_k : option Z) (chunks : list hit) (prompt reply : str) :
  VectorStore.similarity_search (RAGEngine.vector_store self) question top_k
  = Ret chunks ->
  chunks <> [] ->
  create_rag_prompt question chunks = Returned prompt ->
  generate_response prompt = Returned reply ->
  exists r,
    result (RAGEngine.query self question false top_k) = Ret r
    /\ answer r = reply
    /\ mode r = Py.lit "book_based"
    /\ length (sources r) = length chunks
    /\ (forall i c, chunks !! i = Some c ->
          exists src, sources r !! i = Some src
            /\ src !! Py.lit "book" = Some (cited_book c)
            /\ src !! Py.lit "page" = Some (cited_page c))
    /\ citations r = Helpers.format_citations_list (sources r)
    /\ citations r
       = Py.join [Py.NL]
           (imap (fun i c =>
                    citation_line (Z.of_nat i + 1) (cited_book c)
                      (cited_page c))
                 chunks).
Proof.
  intros Hsearch Hne Hprompt Hreply.
  unfold RAGEngine.query, RAGEngine.query_books, call.
  cbn [mbind traced_bind events result]. rewrite Hsearch.
  destruct chunks as [|c0 chunks0]; [contradiction|]. clear Hne.
  cbn [mbind traced_bind events result lib].
  rewrite Hprompt. cbn [mbind traced_bind events result lib].
  rewrite Hreply. cbn [mbind traced_bind events result lib mret traced_ret].
  eexists. split; [reflexivity|]. cbn [answer mode sources citations].
  split; [reflexivity|]. split; [reflexivity|].
  split; [apply length_map|]. split; [|split; [reflexivity|]].
  - intros i c Hc. exists (RAGEngine.source_entry c).
    rewrite list_lookup_fmap, Hc. split; [reflexivity|].
    unfold RAGEngine.source_entry. split.
    + now rewrite lookup_insert_eq.
    + rewrite lookup_insert_ne by discriminate. now rewrite lookup_insert_eq.
  - unfold Helpers.format_citations_list.
    rewrite citations_loop_lines. cbn [app map].
    f_equal. apply imap_ext. intros j c' _. cbn. f_equal. lia.
Qed.

End Engine.

(** A store of two documents queried in book mode. *)
Lemma query_books_cites_sources_witness :
  VectorStore.similarity_search (B := Samples.list_store) Samples.shelf
    Samples.question None
  = Ret (map (fun d => {| hit_text := fst d; hit_metadata := snd d;
                          hit_distance := None |}) Samples.shelf)
  /\ exists r,
       result (RAGEngine.query (B := Samples.list_store) (L := Samples.echo)
                 (RAGEngine.Make (B := Samples.list_store) Samples.shelf) Samples.question false None)
       = Ret r
       /\ citations r
          = Py.lit "1. **Perry** (Page 12)" ++ [Py.NL] ++ Py.lit "2. **McCabe**".
Proof.
  assert (VectorStore.similarity_search (B := Samples.list_store)
            Samples.shelf Samples.question None
          = Ret (map (fun d => {| hit_text := fst d; hit_metadata := snd d;
                                  hit_distance := None |}) Samples.shelf))
    as Hsearch by reflexivity.
  split; [exact Hsearch|].
  destruct (query_books_cites_sources (B := Samples.list_store)
              (L := Samples.echo) (RAGEngine.Make (B := Samples.list_store) Samples.shelf)
              Samples.question None _ Samples.question Samples.question
              Hsearch ltac:(discriminate) eq_refl eq_refl)
    as (r & Hr & _ & _ & _ & _ & _ & Hc).
  exists r. split; [exact Hr|]. rewrite Hc. vm_compute. reflexivity.
Defined.

(** An empty store queried in book mode. *)
Lemma query_books_nothing_found_witness :
  VectorStore.similarity_search (B := Samples.list_store) [] Samples.question
    None = Ret []
  /\ RAGEngine.query_books (B := Samples.list_store) (L := Samples.echo)
       (RAGEngine.Make (B := Samples.list_store) []) Samples.question None
     = Traced [SimilaritySearch Samples.question None]
         (Ret (Py.lit "I couldn't find relevant information in the books to answer this question.",
               [])).
Proof.
  assert (VectorStore.similarity_search (B := Samples.list_store) []
            Samples.question None = Ret []) as Hsearch by reflexivity.
  split; [exact Hsearch|].
  apply (query_books_nothing_found (B := Samples.list_store)
           (L := Samples.echo) (RAGEngine.Make (B := Samples.list_store) [])
           Samples.question None Hsearch).
Defined.

(** * Further properties *)

(** ** [truncate_text] *)

(** X1. For [max_length >= 3], [truncate_text] returns at most [max_length]
    characters: the text itself when it fits, and otherwise its first
    [max_length - 3] characters followed by three dots. *)
Theorem truncate_text_fits (text : str) (max_length : Z) :
  3 <= max_length ->
  Z.of_nat (length (Helpers.truncate_text text max_length)) <= max_length
  /\ (Z.of_nat (length text) <= max_length ->
      Helpers.truncate_text text max_length = text)
  /\ (max_length < Z.of_nat (length text) ->
      Helpers.truncate_text text max_length
      = take (Z.to_nat (max_length - 3)) text ++ Py.lit "...").
Proof.
  intros Hmax. unfold Helpers.truncate_text, Py.slice_to.
  destruct (Z.leb_spec (Z.of_nat (length text)) max_length) as [Hle|Hgt].
  - split; [exact Hle|]. split; [reflexivity | lia].
  - destruct (Z.ltb_spec (max_length - 3) 0) as [?|_]; [lia|].
    split; [|split; [lia | reflexivity]].
    rewrite length_app, length_take.
    change (length (Py.lit "...")) with 3%nat. lia.
Qed.

Lemma truncate_text_fits_witness :
  3 <= 10
  /\ Helpers.truncate_text (Py.lit "What is distillation?") 10
     = Py.lit "What is...".
Proof.
  split; [lia|].
  destruct (truncate_text_fits (Py.lit "What is distillation?") 10
              ltac:(lia)) as (_ & _ & H).
  rewrite H by (simpl; lia). reflexivity.
Defined.

(** ** [clean_text], further *)

Section CleanTextMore.
Context {U : Unicode}.

(** X2. In [clean_text] the substitutions of page numbers and of runs of
    newlines never change anything: the first substitution has already
    turned every newline into a space, so the result is the white-space
    collapsing followed by [strip], and it holds no newline. *)
Theorem clean_text_later_substitutions_idle (s : str) :
  Helpers.clean_text s = Py.strip (Helpers.sub_spaces false s)
  /\ Helpers.sub_page_numbers (Helpers.sub_spaces false s)
     = Helpers.sub_spaces false s
  /\ Helpers.sub_newlines 0 (Helpers.sub_spaces false s)
     = Helpers.sub_spaces false s
  /\ forallb (fun c => negb (c =? Py.NL)%N) (Helpers.clean_text s) = true.
Proof.
  pose proof (plain_spaces_no_newline _ (sub_spaces_plain_spaces false s)) as H.
  split; [apply clean_text_eq|]. split.
  - unfold Helpers.sub_page_numbers.
    now apply sub_page_numbers_fuel_no_newline.
  - split; [now apply sub_newlines_no_newline|].
    apply plain_spaces_no_newline, clean_text_plain_spaces.
Qed.

Lemma no_newline_app (a b : str) :
  forallb (fun c => negb (c =? Py.NL)%N) (a ++ b) = true ->
  forallb (fun c => negb (c =? Py.NL)%N) a = true
  /\ forallb (fun c => negb (c =? Py.NL)%N) b = true.
Proof. rewrite forallb_app. apply andb_prop. Qed.

Lemma no_newline_partition (sep' s : str) :
  forallb (fun c => negb (c =? Py.NL)%N) s = true ->
  Py.partition (sep' ++ [Py.NL]) s = None.
Proof.
  intros H. destruct (Py.partition _ s) as [[a b]|] eqn:E; [|reflexivity].
  apply partition_spec in E. subst s.
  apply no_newline_app in H as [_ H]. apply no_newline_app in H as [H _].
  apply no_newline_app in H as [_ H]. discriminate H.
Qed.

Lemma no_newline_split_fuel (n : nat) (sep s : str) :
  forallb (fun c => negb (c =? Py.NL)%N) s = true ->
  Forall (fun p => forallb (fun c => negb (c =? Py.NL)%N) p = true)
         (Py.split_fuel n sep s).
Proof.
  revert s. induction n as [|n IH]; intros s H; simpl.
  - repeat constructor. exact H.
  - destruct (Py.partition sep s) as [[a b]|] eqn:E.
    + apply partition_spec in E. subst s.
      apply no_newline_app in H as [Ha H]. apply no_newline_app in H as [_ Hb].
      constructor; [exact Ha | now apply IH].
    + repeat constructor. exact H.
Qed.

(** X3. On a text cleaned by [clean_text], as [load_pdf] returns it,
    [chunk_text] never finds the end of a page header: the page text it
    accumulates for a page is the whole section, header remnant included, so
    the accumulated text is the concatenation of the sections whose page
    number can be read. *)
Theorem chunk_text_keeps_page_headers (raw : str) :
  let sections :=
    tail (Py.split (Py.lit "--- Page ") (Helpers.clean_text raw)) in
  Forall (fun sec => DocumentProcessor.read_page_text sec = Some sec) sections
  /\ accumulated_text (Helpers.clean_text raw)
     = concat (filter (fun sec => is_Some (DocumentProcessor.read_page_num sec))
                 sections).
Proof.
  intros sections.
  assert (Forall (fun p => forallb (fun c => negb (c =? Py.NL)%N) p = true)
            sections) as Hall.
  { apply Forall_tail. apply no_newline_split_fuel.
    apply plain_spaces_no_newline, clean_text_plain_spaces. }
  assert (Forall (fun sec => DocumentProcessor.read_page_text sec = Some sec)
            sections) as Htext.
  { eapply Forall_impl; [exact Hall|]. intros sec Hsec. simpl.
    unfold DocumentProcessor.read_page_text, Py.contains.
    change [45; 45; 45; Py.NL]%N with ([45; 45; 45] ++ [Py.NL])%N.
    now rewrite no_newline_partition. }
  split; [exact Htext|].
  unfold accumulated_text. fold sections. f_equal.
  clear Hall. induction Htext as [|sec l Hsec _ IH]; [reflexivity|].
  cbn [omap list_omap]. rewrite filter_cons. unfold page_text_of at 1.
  destruct (DocumentProcessor.read_page_num sec) as [n|].
  - rewrite Hsec. rewrite decide_True by eauto. now f_equal.
  - rewrite decide_False by (intros [? ?]; discriminate). exact IH.
Qed.

End CleanTextMore.

(** ** [chunk_text], further *)

Section SlicingMore.
Context {U : Unicode}.

Lemma cut_loop_diverges (Q : str -> Prop) (cs co : Z) (md : dict) (pn : Z) :
  is_Some (md !! Py.lit "book_name") -> is_Some (md !! Py.lit "file_path") ->
  (forall cur, Q cur ->
     cs <= Z.of_nat (length cur) /\ Q (Py.slice_from cur (cs - co))) ->
  forall n cur id l, Q cur ->
    DocumentProcessor.cut_loop n cs co md pn cur id l = OutOfFuel.
Proof.
  intros [bk Hb] [src Hf] Hstep.
  induction n as [|n IH]; intros cur id l HQ; [reflexivity|].
  destruct (Hstep cur HQ) as [Hge HQ']. simpl.
  destruct (Z.geb_spec (Z.of_nat (length cur)) cs); [|lia].
  unfold PyVal.getitem. rewrite Hb, Hf. simpl. now apply IH.
Qed.

(** X4. The slicing loop never ends, whatever the number of rounds it is
    given, once the text has reached the window size, when the window size is
    not positive, or the overlap equals the window size, or the overlap is at
    least twice the window size: the text kept for the next round is never
    shorter than a window.  [DocumentProcessor(chunk_size=100)], which keeps
    the default overlap of 200, is such a processor. *)
Theorem cut_loop_never_ends (cs co : Z) (md : dict) (pn : Z) (cur : str)
    (id : Z) (l : list chunk) :
  is_Some (md !! Py.lit "book_name") -> is_Some (md !! Py.lit "file_path") ->
  cs <= Z.of_nat (length cur) ->
  cs <= 0 \/ co = cs \/ 2 * cs <= co ->
  forall n, DocumentProcessor.cut_loop n cs co md pn cur id l = OutOfFuel.
Proof.
  intros Hb Hf Hlen Hsizes n.
  apply (cut_loop_diverges (fun cur => cs <= Z.of_nat (length cur))
           cs co md pn Hb Hf); [|exact Hlen].
  clear cur Hlen. intros cur Hlen. split; [exact Hlen|].
  rewrite slice_from_length.
  destruct (Z.ltb_spec (cs - co) 0); lia.
Qed.

End SlicingMore.

Lemma cut_loop_never_ends_witness :
  (400 <= Z.of_nat (length (repeat 97%N 400)))
  /\ (400 <= 0 \/ 800 = 400 \/ 2 * 400 <= 800)
  /\ DocumentProcessor.cut_loop 1000 400 800
       Samples.metadata 1 (repeat 97%N 400) 0 [] = OutOfFuel
  /\ DocumentProcessor.chunk_text (U := AsciiTables.tables)
       (DocumentProcessor.init (Some 100) None)
       (Py.lit "--- Page 1 ---" ++ [Py.NL] ++ repeat 97%N 400)
       Samples.metadata = OutOfFuel.
Proof.
  assert (400 <= Z.of_nat (length (repeat 97%N 400))) as Hlen
      by (rewrite repeat_length; lia).
  assert (400 <= 0 \/ 800 = 400 \/ 2 * 400 <= 800) as Hs by lia.
  split; [exact Hlen|]. split; [exact Hs|]. split.
  - apply (cut_loop_never_ends 400 800
             Samples.metadata 1 (repeat 97%N 400) 0 []);
      [vm_compute; eauto | vm_compute; eauto | exact Hlen | exact Hs].
  - vm_compute. reflexivity.
Defined.

Section ChunkCount.
Context {U : Unicode}.
Variables (p : DocumentProcessor.t) (md : dict) (b f : value).
Hypothesis Hsize : well_sized p.
Hypothesis Hb : md !! Py.lit "book_name" = Some b.
Hypothesis Hf : md !! Py.lit "file_path" = Some f.

Local Abbreviation size := (Z.to_nat (DocumentProcessor.chunk_size p * 4)).
Local Abbreviation overlap :=
  (Z.to_nat (DocumentProcessor.chunk_overlap p * 4)).

(** X5. The number of chunks that [chunk_text] returns: with [L] the length
    of the accumulated text, no full window when [L < size], else
    [(L - size) / (size - overlap) + 1] of them, plus one chunk for the
    remainder unless it is blank. *)
Theorem chunk_text_chunk_count (input : str) :
  let T := accumulated_text input in
  let full :=
    if (length T <? size)%nat then 0%nat
    else ((length T - size) / (size - overlap) + 1)%nat in
  exists chunks,
    DocumentProcessor.chunk_text p input md = Ret chunks
    /\ length chunks
       = (full + (if Py.truthy (Py.strip (drop (full * (size - overlap)) T))
                  then 1 else 0))%nat.
Proof.
  intros T full.
  destruct (chunk_text_closed_form p md b f Hsize Hb Hf input)
    as (fl & last & Hrun & Hw & Hle & Hlt & Hlast).
  fold T in Hw, Hle, Hlt, Hlast.
  pose proof Hsize as [Hov Hsz].
  assert (0 < size - overlap)%nat as Hstride by lia.
  rewrite length_drop in Hlt.
  assert (length fl = full) as Hfull.
  { subst full. destruct (length fl) as [|k] eqn:Ek.
    - destruct (Nat.ltb_spec (length T) size); [reflexivity | lia].
    - destruct (lookup_lt_is_Some_2 fl k ltac:(lia)) as [c Hc].
      destruct (Hw k c Hc) as (_ & _ & _ & _ & Hfit).
      destruct (Nat.ltb_spec (length T) size); [lia|].
      assert ((length T - size) / (size - overlap) = k)%nat as ->; [|lia].
      symmetry.
      apply (Nat.div_unique _ _ _ (length T - size - k * (size - overlap)));
        nia. }
  exists (fl ++ last). split; [exact Hrun|].
  rewrite length_app, <- Hfull.
  destruct (Py.truthy _); [destruct Hlast as [pn ->] | subst last];
    reflexivity.
Qed.

End ChunkCount.

Lemma chunk_text_chunk_count_witness :
  well_sized (DocumentProcessor.init (Some 2) (Some 1))
  /\ exists chunks,
       DocumentProcessor.chunk_text (U := AsciiTables.tables)
         (DocumentProcessor.init (Some 2) (Some 1)) Samples.two_pages
         Samples.metadata = Ret chunks
       /\ length chunks = 8%nat.
Proof.
  assert (well_sized (DocumentProcessor.init (Some 2) (Some 1))) as Hs
      by (unfold well_sized; vm_compute; split; reflexivity).
  split; [exact Hs|].
  destruct (chunk_text_chunk_count (U := AsciiTables.tables)
              (DocumentProcessor.init (Some 2) (Some 1)) Samples.metadata
              (VStr (Py.lit "Perry")) (VStr (Py.lit "data/books/Perry.pdf"))
              Hs eq_refl eq_refl Samples.two_pages)
    as (chunks & Hrun & Hlen).
  exists chunks. split; [exact Hrun|]. rewrite Hlen. vm_compute. reflexivity.
Defined.

Section Pages.
Context {U : Unicode}.

Lemma cut_loop_pages (n : nat) (cs co : Z) (md : dict) (pn : Z) (cur : str)
    (id : Z) (l : list chunk) (P : Z -> Prop) cur' id' l' :
  DocumentProcessor.cut_loop n cs co md pn cur id l = Ret (cur', id', l') ->
  P pn -> Forall (fun c => P (page c)) l -> Forall (fun c => P (page c)) l'.
Proof.
  revert cur id l. induction n as [|n IH]; intros cur id l; [discriminate|].
  simpl. destruct (Z.of_nat (length cur) >=? cs).
  - destruct (PyVal.getitem md (Py.lit "book_name")) as [bk|e|];
      simpl; try discriminate.
    destruct (PyVal.getitem md (Py.lit "file_path")) as [src|e|];
      simpl; try discriminate.
    intros Hrun Hpn Hall. apply (IH _ _ _ Hrun Hpn).
    apply Forall_app. split; [exact Hall|]. repeat constructor. exact Hpn.
  - intros [= <- <- <-]. auto.
Qed.

Lemma page_loop_pages (cs co : Z) (md : dict) (pages : list str)
    (v v' : DocumentProcessor.vars) (seen : list Z) :
  DocumentProcessor.page_loop cs co md pages v = Ret v' ->
  Forall (fun c => In (page c) seen) (DocumentProcessor.chunks v) ->
  (forall n, DocumentProcessor.page_num v = Some n -> In n seen) ->
  let all := seen ++ omap DocumentProcessor.read_page_num pages in
  Forall (fun c => In (page c) all) (DocumentProcessor.chunks v')
  /\ (forall n, DocumentProcessor.page_num v' = Some n -> In n all).
Proof.
  revert v seen. induction pages as [|sec pages IH]; intros v seen.
  - simpl. intros [= <-] Hall Hpn. rewrite app_nil_r. auto.
  - cbn [DocumentProcessor.page_loop omap list_omap].
    destruct (DocumentProcessor.read_page_num sec) as [n|]; [|apply IH].
    intros Hrun Hall Hpn.
    replace (seen ++ n :: omap DocumentProcessor.read_page_num pages)
      with ((seen ++ [n]) ++ omap DocumentProcessor.read_page_num pages)
      by now rewrite <- app_assoc.
    assert (Forall (fun c => In (page c) (seen ++ [n]))
              (DocumentProcessor.chunks v)) as Hall'.
    { eapply Forall_impl; [exact Hall|]. intros c Hc. apply in_or_app. auto. }
    assert (In n (seen ++ [n])) as Hn by (apply in_or_app; right; now left).
    destruct (DocumentProcessor.read_page_text sec) as [t|].
    + destruct (DocumentProcessor.cut_loop _ cs co md n _ _ _)
        as [[[cur' id'] l']| |] eqn:Ecut; try discriminate.
      simpl in Hrun. apply (IH _ _ Hrun); simpl.
      * exact (cut_loop_pages _ _ _ _ _ _ _ _
                 (fun z => In z (seen ++ [n])) _ _ _ Ecut Hn Hall').
      * intros m [= <-]. exact Hn.
    + apply (IH _ _ Hrun); simpl; [exact Hall'|].
      intros m [= <-]. exact Hn.
Qed.

(** X6. Whatever the sizes, every chunk that [chunk_text] returns carries as
    [page] a page number read from one of the page headers of the input. *)
Theorem chunk_text_pages_from_headers (p : DocumentProcessor.t) (input : str)
    (md : dict) (chunks : list chunk) :
  DocumentProcessor.chunk_text p input md = Ret chunks ->
  Forall (fun c =>
            In (page c)
               (omap DocumentProcessor.read_page_num
                  (tail (Py.split (Py.lit "--- Page ") input))))
         chunks.
Proof.
  unfold DocumentProcessor.chunk_text.
  destruct (DocumentProcessor.page_loop _ _ md _ _) as [v| |] eqn:Eloop;
    try discriminate.
  destruct (page_loop_pages _ _ _ _ _ _ [] Eloop) as [Hall Hpn];
    [constructor | discriminate |].
  simpl in Hall, Hpn. simpl. unfold DocumentProcessor.final_chunk.
  destruct (Py.truthy _); [|now intros [= <-]].
  destruct (PyVal.getitem md (Py.lit "book_name")) as [bk|e|];
    simpl; try discriminate.
  destruct (DocumentProcessor.page_num v) as [n|] eqn:En;
    simpl; try discriminate.
  destruct (PyVal.getitem md (Py.lit "file_path")) as [src|e|];
    simpl; try discriminate.
  intros [= <-]. apply Forall_app. split; [exact Hall|].
  repeat constructor. simpl. now apply Hpn.
Qed.

End Pages.

Lemma chunk_text_pages_from_headers_witness :
  DocumentProcessor.chunk_text (U := AsciiTables.tables)
    (DocumentProcessor.init None None) Samples.two_pages Samples.metadata
  = Ret [{| text := Py.lit "1 --- ab cd ef gh ij kl 2 --- mn op";
            chunk_id := 0; book_name := VStr (Py.lit "Perry"); page := 2;
            source := VStr (Py.lit "data/books/Perry.pdf") |}]
  /\ Forall (fun c => In (page c) [1; 2])
       [{| text := Py.lit "1 --- ab cd ef gh ij kl 2 --- mn op";
           chunk_id := 0; book_name := VStr (Py.lit "Perry"); page := 2;
           source := VStr (Py.lit "data/books/Perry.pdf") |}].
Proof.
  assert (DocumentProcessor.chunk_text (U := AsciiTables.tables)
            (DocumentProcessor.init None None) Samples.two_pages
            Samples.metadata
          = Ret [{| text := Py.lit "1 --- ab cd ef gh ij kl 2 --- mn op";
                    chunk_id := 0; book_name := VStr (Py.lit "Perry");
                    page := 2;
                    source := VStr (Py.lit "data/books/Perry.pdf") |}]) as E
      by (vm_compute; reflexivity).
  split; [exact E|].
  exact (chunk_text_pages_from_headers (U := AsciiTables.tables) _ _ _ _ E).
Defined.

(** ** [load_pdf] and [process_book] *)

Section Books.
Context {U : Unicode} {F : Fitz}.

Lemma load_pdf_cleaned (fs : filesystem) (file_path : Path) (text : str)
    (md : dict) :
  DocumentProcessor.load_pdf fs file_path = Ret (text, md) ->
  single_spaced text = true /\ trimmed text = true
  /\ md !! Py.lit "book_name" = Some (VStr (path_stem file_path))
  /\ md !! Py.lit "file_path" = Some (VStr (path_str file_path)).
Proof.
  unfold DocumentProcessor.load_pdf.
  destruct (files fs !! path_str file_path) as [contents|]; [|discriminate].
  destruct (fitz_open contents) as [doc|e]; simpl; [|discriminate].
  destruct (DocumentProcessor.extract_pages 1 (doc_pages doc) [])
    as [full_text|e|]; simpl; try discriminate.
  intros [= <- <-].
  split; [apply clean_text_single_spaced|].
  split; [apply clean_text_trimmed|]. split.
  - now rewrite lookup_insert_eq.
  - rewrite lookup_insert_ne by discriminate. now rewrite lookup_insert_eq.
Qed.

Lemma process_book_fields (self : DocumentProcessor.t) (fs : filesystem)
    (file_path : Path) (chunks : list chunk) :
  well_sized self ->
  DocumentProcessor.process_book self fs file_path = Ret chunks ->
  forall i c, chunks !! i = Some c ->
    chunk_id c = Z.of_nat i
    /\ text c <> []
    /\ trimmed (text c) = true
    /\ book_name c = VStr (path_stem file_path)
    /\ source c = VStr (path_str file_path).
Proof.
  intros Hsize. unfold DocumentProcessor.process_book.
  destruct (DocumentProcessor.load_pdf fs file_path) as [[text md]|e|] eqn:El;
    simpl; [|discriminate..].
  destruct (load_pdf_cleaned _ _ _ _ El) as (Hss & _ & Hb & Hf).
  destruct (chunk_text_closed_form self md _ _ Hsize Hb Hf text)
    as (full & last & -> & Hw & Hle & Hlt & Hlast).
  pose proof Hsize as [Hov Hsz].
  intros [= <-] i c Hc.
  destruct (decide (i < length full)%nat) as [Hi|Hi].
  - rewrite lookup_app_l in Hc by exact Hi.
    destruct (Hw i c Hc) as (Htext & Hid & Hbn & Hsrc & Hfull).
    rewrite Htext. repeat split; auto using strip_trimmed.
    apply strip_nonempty.
    + now apply window_single_spaced, accumulated_text_single_spaced.
    + unfold window. rewrite length_take, length_drop. lia.
  - rewrite lookup_app_r in Hc by lia.
    destruct (Py.truthy _) eqn:Etr; [|subst last; discriminate Hc].
    destruct Hlast as [pn ->].
    destruct (i - length full)%nat eqn:E; simpl in Hc; [|discriminate Hc].
    injection Hc as <-. simpl.
    split; [f_equal; lia|]. split.
    + intros Hnil. rewrite Hnil in Etr. discriminate Etr.
    + split; [apply strip_trimmed|]. split; reflexivity.
Qed.

(** X7. With [0 < chunk_overlap < chunk_size], [process_book] returns or
    raises what [load_pdf] raises; the chunks it returns are numbered from 0
    in order, have a non-empty text free of leading and trailing white space,
    and carry the stem of the file's name as [book_name] and the file's path
    as [source]. *)
Theorem process_book_chunks (self : DocumentProcessor.t) (fs : filesystem)
    (file_path : Path) :
  well_sized self ->
  match DocumentProcessor.process_book self fs file_path with
  | Ret chunks =>
      forall i c, chunks !! i = Some c ->
        chunk_id c = Z.of_nat i
        /\ text c <> []
        /\ trimmed (text c) = true
        /\ book_name c = VStr (path_stem file_path)
        /\ source c = VStr (path_str file_path)
  | Raise e => DocumentProcessor.load_pdf fs file_path = Raise e
  | OutOfFuel => False
  end.
Proof.
  intros Hsize.
  pose proof (process_book_fields self fs file_path) as Hfields.
  pose proof (process_book_returns self fs Hsize file_path) as Hret.
  destruct (DocumentProcessor.process_book self fs file_path)
    as [chunks|e|] eqn:E; [now apply Hfields| |contradiction].
  unfold DocumentProcessor.process_book in E.
  destruct (load_pdf_cases fs file_path)
    as [[e' He]|(t & m & He & Hb & Hf)]; rewrite He in E; simpl in E.
  - now injection E as ->.
  - destruct (chunk_text_closed_form self m _ _ Hsize Hb Hf t)
      as (full & last & Hrun & _).
    rewrite Hrun in E. discriminate E.
Qed.

End Books.

Section Directory.
Context {U : Unicode} {F : Fitz}.


End Directory.


(** The readable book of the sample directory. *)
Lemma process_book_chunks_witness :
  well_sized (DocumentProcessor.init None None)
  /\ DocumentProcessor.process_book (U := AsciiTables.tables)
       (F := Samples.plain_reader) (DocumentProcessor.init None None)
       Samples.library Samples.good_book
     = Ret [{| text := Py.lit "1 --- hi"; chunk_id := 0;
               book_name := VStr (Py.lit "good"); page := 1;
               source := VStr (Py.lit "data/books/good.pdf") |}]
  /\ forall i c,
       [{| text := Py.lit "1 --- hi"; chunk_id := 0;
           book_name := VStr (Py.lit "good"); page := 1;
           source := VStr (Py.lit "data/books/good.pdf") |}] !! i = Some c ->
       chunk_id c = Z.of_nat i
       /\ text c <> []
       /\ trimmed (text c) = true
       /\ book_name c = VStr (path_stem Samples.good_book)
       /\ source c = VStr (path_str Samples.good_book).
Proof.
  assert (well_sized (DocumentProcessor.init None None)) as Hs
      by (unfold well_sized; vm_compute; split; reflexivity).
  split; [exact Hs|].
  pose proof (process_book_chunks (U := AsciiTables.tables)
                (F := Samples.plain_reader) (DocumentProcessor.init None None)
                Samples.library Samples.good_book Hs) as H.
  assert (DocumentProcessor.process_book (U := AsciiTables.tables)
            (F := Samples.plain_reader) (DocumentProcessor.init None None)
            Samples.library Samples.good_book
          = Ret [{| text := Py.lit "1 --- hi"; chunk_id := 0;
                    book_name := VStr (Py.lit "good"); page := 1;
                    source := VStr (Py.lit "data/books/good.pdf") |}]) as E
      by (vm_compute; reflexivity).
  rewrite E in H. split; [exact E | exact H].
Defined.

(** ** [BookManager], further *)

(** X9. [_calculate_file_hash] reads the whole file, whatever its length:
    the pieces of 4096 bytes that it feeds to the hash add up to the
    contents, so the result is the MD5 hex digest of the contents; for a
    missing file it raises [FileNotFoundError]. *)
Theorem calculate_file_hash_whole_file (fs : filesystem) (file_path : Path) :
  BookManager._calculate_file_hash fs file_path
  = match files fs !! path_str file_path with
    | Some contents => Ret (Hashlib.hexdigest contents)
    | None => Raise (FileNotFoundError (path_str file_path))
    end
  /\ forall contents fuel,
       (length contents < fuel)%nat ->
       BookManager.read_loop fuel Hashlib.new contents = contents.
Proof.
  split.
  - unfold BookManager._calculate_file_hash.
    destruct (files fs !! path_str file_path) as [contents|];
      [|reflexivity].
    now rewrite read_loop_all by lia.
  - intros contents fuel Hlt. now rewrite read_loop_all.
Qed.

Lemma new_entry_fields (file_path : Path) (digest now : str)
    (chunk_count size : Z) :
  let entry : gmap (list N) value :=
    {[ Py.lit "file_path" := VStr (path_str file_path);
       Py.lit "file_hash" := VStr digest;
       Py.lit "chunk_count" := VInt chunk_count;
       Py.lit "processed_date" := VStr now;
       Py.lit "file_size" := VInt size ]} in
  entry !! Py.lit "file_hash" = Some (VStr digest)
  /\ entry !! Py.lit "chunk_count" = Some (VInt chunk_count)
  /\ entry !! Py.lit "file_size" = Some (VInt size)
  /\ entry !! Py.lit "processed_date" = Some (VStr now).
Proof.
  intros entry. subst entry.
  split; [|split; [|split]].
  - rewrite lookup_insert_ne by discriminate. now rewrite lookup_insert_eq.
  - do 2 rewrite lookup_insert_ne by discriminate. now rewrite lookup_insert_eq.
  - do 4 rewrite lookup_insert_ne by discriminate.
    now rewrite lookup_singleton_eq.
  - do 3 rewrite lookup_insert_ne by discriminate. now rewrite lookup_insert_eq.
Qed.

(** X10. [mark_as_processed] on an existing file records, under the file's
    name, the chunk count given, the size of the file and the digest of its
    contents, and leaves the entries of all other names as they were. *)
Theorem mark_as_processed_records (self : BookManager.t) (fs : filesystem)
    (file_path : Path) (contents : bytes) (chunk_count : Z) (now : str)
    (io : write_result) (disk : tracker_file) :
  files fs !! path_str file_path = Some contents ->
  exists self' disk',
    BookManager.mark_as_processed self fs file_path chunk_count now io disk
    = Ret (self', disk')
    /\ (let info := BookManager.get_book_info self' (path_name file_path) in
        info !! Py.lit "chunk_count" = Some (VInt chunk_count)
        /\ info !! Py.lit "file_size"
           = Some (VInt (Z.of_nat (length contents)))
        /\ info !! Py.lit "file_hash"
           = Some (VStr (Hashlib.hexdigest contents))
        /\ info !! Py.lit "processed_date" = Some (VStr now))
    /\ (forall name, name <> path_name file_path ->
          BookManager.get_book_info self' name
          = BookManager.get_book_info self name)
    /\ (io = Written ->
        BookManager.persisted disk'
        = Some (BookManager.processed_books self')).
Proof.
  intros Hfile.
  unfold BookManager.mark_as_processed, BookManager.st_size.
  rewrite (calculate_file_hash_eq _ _ _ Hfile), Hfile. simpl.
  eexists _, _. split; [reflexivity|].
  unfold BookManager.get_book_info. simpl. split; [|split].
  - rewrite lookup_insert_eq. simpl.
    destruct (new_entry_fields file_path (Hashlib.hexdigest contents) now
                chunk_count (Z.of_nat (length contents)))
      as (H1 & H2 & H3 & H4). auto.
  - intros name Hne. now rewrite lookup_insert_ne by congruence.
  - intros ->. reflexivity.
Qed.

Lemma mark_as_processed_records_witness :
  files (Samples.disk_with Samples.contents_a) !! path_str Samples.book
  = Some Samples.contents_a
  /\ exists self' disk',
       BookManager.mark_as_processed (BookManager.init NoFile)
         (Samples.disk_with Samples.contents_a) Samples.book 3 Samples.noon
         Written NoFile = Ret (self', disk')
       /\ BookManager.get_book_info self' (Py.lit "a.pdf")
            !! Py.lit "file_size" = Some (VInt 128).
Proof.
  assert (files (Samples.disk_with Samples.contents_a) !! path_str Samples.book
          = Some Samples.contents_a) as H by reflexivity.
  split; [exact H|].
  destruct (mark_as_processed_records (BookManager.init NoFile) _ _ _ 3
              Samples.noon Written NoFile H)
    as (self' & disk' & E & (_ & Hsz & _) & _).
  exists self', disk'. split; [exact E | exact Hsz].
Defined.

(** X11. After [remove_book] of a name, [is_processed] answers False for
    every path with that name, without reading the file, and the entries of
    all other names are as they were; removing a name that is not tracked
    changes neither the manager nor the tracker file. *)
Theorem remove_book_forgets (self : BookManager.t) (file_name now : str)
    (io : write_result) (disk : tracker_file) :
  let st := BookManager.remove_book self file_name now io disk in
  (forall fs file_path, path_name file_path = file_name ->
     BookManager.is_processed (fst st) fs file_path = Ret false)
  /\ (forall name, name <> file_name ->
        BookManager.processed_books (fst st) !! name
        = BookManager.processed_books self !! name)
  /\ (BookManager.processed_books self !! file_name = None ->
      st = (self, disk)).
Proof.
  unfold BookManager.remove_book.
  destruct (BookManager.processed_books self !! file_name) eqn:E; simpl.
  - split; [|split; [|discriminate]].
    + intros fs fp <-. unfold BookManager.is_processed. simpl.
      now rewrite lookup_delete_eq.
    + intros name Hne. now rewrite lookup_delete_ne by congruence.
  - split; [|auto].
    intros fs fp <-. unfold BookManager.is_processed. now rewrite E.
Qed.

Lemma step_reload (st : BookManager.t * tracker_file) (o : BookManager.op) :
  match o with
  | BookManager.Mark _ _ _ _ io => io = Written
  | BookManager.Remove _ _ io => io = Written
  end ->
  BookManager.init (snd st) = fst st ->
  BookManager.init (snd (BookManager.step st o))
  = fst (BookManager.step st o).
Proof.
  destruct st as [self disk].
  destruct o as [fs fp cc now io | name now io]; simpl; intros -> Hinv.
  - destruct (BookManager.mark_as_processed self fs fp cc now Written disk)
      as [[self' disk']| |] eqn:E; simpl; try exact Hinv.
    unfold BookManager.mark_as_processed in E.
    destruct (BookManager._calculate_file_hash fs fp); try discriminate E.
    simpl in E. destruct (BookManager.st_size fs fp); try discriminate E.
    simpl in E. injection E as <- <-. reflexivity.
  - unfold BookManager.remove_book.
    destruct (BookManager.processed_books self !! name); simpl;
      [reflexivity | exact Hinv].
Qed.

(** X12. When every write of the tracker file succeeds, after any sequence
    of [mark_as_processed] and [remove_book] on a fresh tracker a manager
    started anew from the file holds the same mapping as the one in
    memory. *)
Theorem reload_after_successful_writes (ops : list BookManager.op) :
  writes_succeed ops ->
  let st := BookManager.run ops (BookManager.init NoFile, NoFile) in
  BookManager.init (snd st) = fst st.
Proof.
  intros Hall. simpl.
  assert (forall st, BookManager.init (snd st) = fst st ->
            BookManager.init (snd (BookManager.run ops st))
            = fst (BookManager.run ops st)) as Hgen.
  { induction Hall as [|o l Ho _ IH]; intros st Hinv; [exact Hinv|].
    apply IH. now apply step_reload. }
  now apply Hgen.
Qed.

Lemma reload_after_successful_writes_witness :
  writes_succeed
    [BookManager.Mark (Samples.disk_with Samples.contents_a) Samples.book 3
       Samples.noon Written;
     BookManager.Remove (Py.lit "b.pdf") Samples.noon Written]
  /\ (let st :=
        BookManager.run
          [BookManager.Mark (Samples.disk_with Samples.contents_a)
             Samples.book 3 Samples.noon Written;
           BookManager.Remove (Py.lit "b.pdf") Samples.noon Written]
          (BookManager.init NoFile, NoFile) in
      BookManager.init (snd st) = fst st).
Proof.
  assert (writes_succeed
            [BookManager.Mark (Samples.disk_with Samples.contents_a)
               Samples.book 3 Samples.noon Written;
             BookManager.Remove (Py.lit "b.pdf") Samples.noon Written]) as H
      by (repeat constructor).
  split; [exact H|]. exact (reload_after_successful_writes _ H).
Defined.

(** ** [get_stats] *)

Lemma sum_step_comm (z1 z2 : gmap (list N) value) (y : option Z) :
  (a ← (a ← y; c ← BookManager.chunk_count_of z2; Some (a + c));
   c ← BookManager.chunk_count_of z1; Some (a + c))
  = (a ← (a ← y; c ← BookManager.chunk_count_of z1; Some (a + c));
     c ← BookManager.chunk_count_of z2; Some (a + c)).
Proof.
  destruct y as [a|]; [|reflexivity]. simpl.
  destruct (BookManager.chunk_count_of z1) as [c1|],
           (BookManager.chunk_count_of z2) as [c2|]; simpl; try reflexivity.
  f_equal. lia.
Qed.

Lemma sum_chunk_counts_insert (m : gmap (list N) (gmap (list N) value))
    (k : list N) (entry : gmap (list N) value) :
  m !! k = None ->
  BookManager.sum_chunk_counts (<[k := entry]> m)
  = (a ← BookManager.sum_chunk_counts m;
     c ← BookManager.chunk_count_of entry; Some (a + c)).
Proof.
  intros Hk. unfold BookManager.sum_chunk_counts.
  apply (map_fold_insert_L
           (fun _ book acc =>
              a ← acc; c ← BookManager.chunk_count_of book; Some (a + c)));
    [|exact Hk].
  intros j1 j2 z1 z2 y _ _ _. apply sum_step_comm.
Qed.

Lemma sum_chunk_counts_delete (m : gmap (list N) (gmap (list N) value))
    (k : list N) (entry : gmap (list N) value) :
  m !! k = Some entry ->
  BookManager.sum_chunk_counts m
  = (a ← BookManager.sum_chunk_counts (delete k m);
     c ← BookManager.chunk_count_of entry; Some (a + c)).
Proof.
  intros Hk. unfold BookManager.sum_chunk_counts.
  apply (map_fold_delete_L
           (fun _ book acc =>
              a ← acc; c ← BookManager.chunk_count_of book; Some (a + c)));
    [|exact Hk].
  intros j1 j2 z1 z2 y _ _ _. apply sum_step_comm.
Qed.

(** X13. [get_stats] after [mark_as_processed]: when the statistics could be
    computed before, they can be computed after; the file's name is among the
    books, the number of books grows by one if the name was not tracked, and
    the total of the chunk counts is the old total, less the count that the
    name had, plus the count given. *)
Theorem get_stats_after_mark (self : BookManager.t) (fs : filesystem)
    (file_path : Path) (contents : bytes) (chunk_count : Z) (now : str)
    (io : write_result) (disk : tracker_file) (st : BookManager.stats) :
  files fs !! path_str file_path = Some contents ->
  BookManager.get_stats self = Some st ->
  exists self' disk',
    BookManager.mark_as_processed self fs file_path chunk_count now io disk
    = Ret (self', disk')
    /\ let old := BookManager.processed_books self !! path_name file_path in
       BookManager.get_stats self'
       = Some {| BookManager.total_books_processed :=
                   BookManager.total_books_processed st
                   + match old with Some _ => 0 | None => 1 end;
                 BookManager.total_chunks :=
                   BookManager.total_chunks st
                   - default 0 (old ≫= BookManager.chunk_count_of)
                   + chunk_count;
                 BookManager.books :=
                   {[path_name file_path]} ∪ BookManager.books st |}.
Proof.
  intros Hfile Hst.
  unfold BookManager.mark_as_processed, BookManager.st_size.
  rewrite (calculate_file_hash_eq _ _ _ Hfile), Hfile. simpl.
  eexists _, _. split; [reflexivity|].
  set (entry := ({[ _ := _ ; _ := _ ; _ := _ ; _ := _ ; _ := _ ]}
                 : gmap (list N) value)).
  assert (BookManager.chunk_count_of entry = Some chunk_count) as Hentry.
  { unfold BookManager.chunk_count_of, PyVal.get. subst entry.
    do 2 rewrite lookup_insert_ne by discriminate.
    now rewrite lookup_insert_eq. }
  unfold BookManager.get_stats in *. simpl.
  destruct (BookManager.sum_chunk_counts (BookManager.processed_books self))
    as [total|] eqn:Etotal; [|discriminate Hst].
  simpl in Hst. injection Hst as <-. simpl.
  destruct (BookManager.processed_books self !! path_name file_path)
    as [old|] eqn:Eold.
  - cbn [mbind option_bind default from_option id].
    rewrite (sum_chunk_counts_delete _ _ _ Eold) in Etotal.
    rewrite <- insert_delete_eq.
    rewrite sum_chunk_counts_insert by apply lookup_delete_eq.
    destruct (BookManager.sum_chunk_counts
                (delete (path_name file_path)
                   (BookManager.processed_books self))) as [rest|];
      [|discriminate Etotal].
    simpl in Etotal. rewrite Hentry. simpl.
    destruct (BookManager.chunk_count_of old) as [c|]; [|discriminate Etotal].
    simpl in Etotal. injection Etotal as <-. simpl.
    rewrite insert_delete_eq, map_size_insert_Some by eauto.
    rewrite dom_insert_L.
    replace (rest + c - c + chunk_count) with (rest + chunk_count) by lia.
    now rewrite Z.add_0_r.
  - rewrite sum_chunk_counts_insert by exact Eold. rewrite Hentry. simpl.
    rewrite map_size_insert_None by exact Eold.
    rewrite Etotal. simpl.
    rewrite dom_insert_L, Z.sub_0_r, Nat2Z.inj_succ. do 2 f_equal.
Qed.

Lemma get_stats_after_mark_witness :
  files (Samples.disk_with Samples.contents_a) !! path_str Samples.book
  = Some Samples.contents_a
  /\ BookManager.get_stats (BookManager.init NoFile)
     = Some {| BookManager.total_books_processed := 0;
               BookManager.total_chunks := 0;
               BookManager.books := ∅ |}
  /\ exists self' disk' st',
       BookManager.mark_as_processed (BookManager.init NoFile)
         (Samples.disk_with Samples.contents_a) Samples.book 3 Samples.noon
         Written NoFile = Ret (self', disk')
       /\ BookManager.get_stats self' = Some st'
       /\ BookManager.total_chunks st' = 3.
Proof.
  assert (files (Samples.disk_with Samples.contents_a) !! path_str Samples.book
          = Some Samples.contents_a) as H by reflexivity.
  assert (BookManager.get_stats (BookManager.init NoFile)
          = Some {| BookManager.total_books_processed := 0;
                    BookManager.total_chunks := 0;
                    BookManager.books := ∅ |}) as H0 by reflexivity.
  split; [exact H|]. split; [exact H0|].
  destruct (get_stats_after_mark (BookManager.init NoFile) _ _ _ 3
              Samples.noon Written NoFile _ H H0)
    as (self' & disk' & E & Hs).
  exists self', disk'. eexists. split; [exact E|]. split; [exact Hs|].
  reflexivity.
Defined.

(** ** [get_new_books] and [process_new_books] *)

Lemma new_books_loop_filter (self : BookManager.t) (fs : filesystem)
    (pdfs new : list Path) :
  BookManager.new_books_loop self fs pdfs = Ret new ->
  new = List.filter (fun pdf => negb (processed_now self fs pdf)) pdfs
  /\ Forall (fun pdf => exists r,
               BookManager.is_processed self fs pdf = Ret r) pdfs.
Proof.
  revert new. induction pdfs as [|pdf pdfs IH]; intros new; simpl.
  - intros [= <-]. auto.
  - unfold processed_now at 1.
    destruct (BookManager.is_processed self fs pdf) as [r| |] eqn:E;
      simpl; try discriminate.
    destruct (BookManager.new_books_loop self fs pdfs) as [l| |];
      simpl; try discriminate.
    destruct (IH l eq_refl) as [-> Hall].
    intros [= <-]. split; [now destruct r|]. constructor; eauto.
Qed.

Lemma new_books_loop_returns (self : BookManager.t) (fs : filesystem)
    (pdfs : list Path) :
  Forall (fun pdf => exists r,
            BookManager.is_processed self fs pdf = Ret r) pdfs ->
  BookManager.new_books_loop self fs pdfs
  = Ret (List.filter (fun pdf => negb (processed_now self fs pdf)) pdfs).
Proof.
  induction 1 as [|pdf pdfs [r Hr] _ IH]; simpl; [reflexivity|].
  unfold processed_now at 1. rewrite Hr, IH. simpl. now destruct r.
Qed.

Lemma classify_spec (self : BookManager.t) (fs : filesystem)
    (pdfs new : list Path) (acc_new : list Path) (acc_skipped : list str) :
  BookManager.new_books_loop self fs pdfs = Ret new ->
  Incremental.classify self fs pdfs acc_new acc_skipped
  = Ret (acc_new ++ new,
         acc_skipped
         ++ map path_name (List.filter (processed_now self fs) pdfs)).
Proof.
  revert new acc_new acc_skipped.
  induction pdfs as [|pdf pdfs IH]; intros new acc_new acc_skipped; simpl.
  - intros [= <-]. now rewrite !app_nil_r.
  - unfold processed_now at 1.
    destruct (BookManager.is_processed self fs pdf) as [r| |] eqn:E;
      simpl; try discriminate.
    destruct (BookManager.new_books_loop self fs pdfs) as [l| |] eqn:El;
      simpl; try discriminate.
    intros [= <-]. destruct r; rewrite (IH l) by reflexivity.
    + simpl. now rewrite <- app_assoc.
    + now rewrite <- app_assoc.
Qed.

Lemma filter_length_split {A} (f : A -> bool) (l : list A) :
  (length (List.filter (fun x => negb (f x)) l)
   + length (List.filter f l) = length l)%nat.
Proof.
  induction l as [|x l IH]; [reflexivity|]. simpl.
  destruct (f x); simpl; lia.
Qed.

Lemma NoDup_map_inj_In {A B} (f : A -> B) (l : list A) :
  NoDup (map f l) ->
  forall x y, In x l -> In y l -> f x = f y -> x = y.
Proof.
  induction l as [|a l IH]; intros Hnd x y Hx Hy Hxy; [contradiction|].
  simpl in Hnd. apply NoDup_cons in Hnd as [Hnotin Hnd].
  rewrite list_elem_of_In in Hnotin.
  destruct Hx as [<-|Hx], Hy as [<-|Hy]; auto.
  - exfalso. apply Hnotin. rewrite Hxy. now apply in_map.
  - exfalso. apply Hnotin. rewrite <- Hxy. now apply in_map.
Qed.

Lemma NoDup_map_filter {A B} (f : A -> B) (p : A -> bool) (l : list A) :
  NoDup (map f l) -> NoDup (map f (List.filter p l)).
Proof.
  induction l as [|a l IH]; intros Hnd; [exact Hnd|].
  simpl in Hnd. apply NoDup_cons in Hnd as [Hnotin Hnd].
  rewrite list_elem_of_In in Hnotin.
  simpl. destruct (p a); [|now apply IH].
  simpl. apply NoDup_cons. split; [|now apply IH].
  rewrite list_elem_of_In. intros Hin. apply Hnotin.
  apply in_map_iff in Hin as (x & Hfx & Hx).
  apply filter_In in Hx as [Hx _]. rewrite <- Hfx. now apply in_map.
Qed.

Section Scan.
Context {U : Unicode} {F : Fitz}.
Variables (self : DocumentProcessor.t) (fs : filesystem).
Hypothesis Hsize : well_sized self.

Lemma process_loop_chunks (clock : Path -> str) (io : Path -> write_result)
    (new : list Path) (st : BookManager.t * tracker_file)
    (acc : list chunk) :
  exists st',
    Incremental.process_loop self fs clock io new st acc
    = Ret (st', acc ++ concat (omap (chunks_if_processed self fs) new)).
Proof.
  revert st acc. induction new as [|pdf new IH]; intros st acc.
  - exists st. simpl. now rewrite app_nil_r.
  - cbn [Incremental.process_loop omap list_omap].
    destruct (book_outcome self fs Hsize pdf)
      as [(chunks & E & -> & _)|(e & E & -> & _)]; rewrite E.
    + cbn [concat]. rewrite app_assoc.
      unfold BookManager.mark_as_processed, BookManager.st_size,
        BookManager._calculate_file_hash.
      destruct (files fs !! path_str pdf); simpl; apply IH.
    + apply IH.
Qed.

(** X14. When the scan for new books succeeds, [process_new_books] returns.
    The new books it names are those of [get_new_books]; it counts every one
    of them as processed, also those whose processing failed; new and skipped
    books together are the books of the directory; and the chunks returned
    are those of the new books that could be processed, one book after the
    other. *)
Theorem process_new_books_accounting (clock : Path -> str)
    (io : Path -> write_result) (book_manager : BookManager.t)
    (disk : tracker_file) (books_dir : Path) (all_pdfs new : list Path) :
  pdf_listing fs !! path_str books_dir = Some all_pdfs ->
  BookManager.get_new_books book_manager fs books_dir = Ret new ->
  exists r st,
    Incremental.process_new_books self fs clock io book_manager disk books_dir
    = Ret (r, st)
    /\ new_book_names r = Some (map path_name new)
    /\ new_books_processed r = Z.of_nat (length new)
    /\ new_books_processed r + skipped_books r = Z.of_nat (length all_pdfs)
    /\ scan_chunks r = concat (omap (chunks_if_processed self fs) new)
    /\ total_new_chunks r = Z.of_nat (length (scan_chunks r)).
Proof.
  intros Hdir Hnew. unfold BookManager.get_new_books in Hnew.
  rewrite Hdir in Hnew.
  unfold Incremental.process_new_books. rewrite Hdir.
  rewrite (classify_spec _ _ _ _ [] [] Hnew). simpl.
  destruct (process_loop_chunks clock io new (book_manager, disk) [])
    as [st' ->]. simpl.
  eexists _, _. split; [reflexivity|]. simpl.
  repeat split.
  destruct (new_books_loop_filter _ _ _ _ Hnew) as [-> _].
  rewrite length_map.
  pose proof (filter_length_split (processed_now book_manager fs) all_pdfs).
  lia.
Qed.


Lemma is_processed_by_entry (bm bm' : BookManager.t) (file_path : Path) :
  BookManager.processed_books bm' !! path_name file_path
  = BookManager.processed_books bm !! path_name file_path ->
  BookManager.is_processed bm' fs file_path
  = BookManager.is_processed bm fs file_path.
Proof.
  intros H. unfold BookManager.is_processed. now rewrite H.
Qed.

Lemma process_loop_failing (clock : Path -> str) (io : Path -> write_result)
    (new : list Path) (st : BookManager.t * tracker_file)
    (acc : list chunk) :
  Forall (fun pdf => exists e,
            DocumentProcessor.process_book self fs pdf = Raise e) new ->
  Incremental.process_loop self fs clock io new st acc = Ret (st, acc).
Proof.
  induction 1 as [|pdf new [e He] _ IH]; simpl; [reflexivity|].
  now rewrite He.
Qed.

(** The entry that [mark_as_processed] writes, and the entries it keeps. *)
Lemma mark_as_processed_frame (bm : BookManager.t) (file_path : Path)
    (contents : bytes) (chunk_count : Z) (now : str) (io : write_result)
    (disk : tracker_file) :
  files fs !! path_str file_path = Some contents ->
  exists bm' disk',
    BookManager.mark_as_processed bm fs file_path chunk_count now io disk
    = Ret (bm', disk')
    /\ (exists entry,
          BookManager.processed_books bm' !! path_name file_path = Some entry
          /\ entry !! Py.lit "file_hash"
             = Some (VStr (Hashlib.hexdigest contents)))
    /\ (forall name, name <> path_name file_path ->
          BookManager.processed_books bm' !! name
          = BookManager.processed_books bm !! name).
Proof.
  intros Hfile.
  unfold BookManager.mark_as_processed, BookManager.st_size.
  rewrite (calculate_file_hash_eq _ _ _ Hfile), Hfile. simpl.
  eexists _, _. split; [reflexivity|]. simpl. split.
  - eexists. split; [apply lookup_insert_eq|].
    rewrite lookup_insert_ne by discriminate. apply lookup_insert_eq.
  - intros name Hne. now rewrite lookup_insert_ne by congruence.
Qed.

(** What the loop over the new books leaves in the tracker: the entries of
    the names it did not meet are untouched, and a book that was processed
    has the digest of its contents recorded. *)
Lemma process_loop_tracker (clock : Path -> str) (io : Path -> write_result)
    (new : list Path) (st st' : BookManager.t * tracker_file)
    (acc acc' : list chunk) :
  Incremental.process_loop self fs clock io new st acc = Ret (st', acc') ->
  NoDup (map path_name new) ->
  Forall (fun pdf => is_Some (files fs !! path_str pdf)) new ->
  (forall name, ~ In name (map path_name new) ->
     BookManager.processed_books (fst st') !! name
     = BookManager.processed_books (fst st) !! name)
  /\ Forall (fun pdf =>
               (exists e, DocumentProcessor.process_book self fs pdf = Raise e)
               \/ BookManager.is_processed (fst st') fs pdf = Ret true) new.
Proof.
  revert st acc. induction new as [|pdf new IH]; intros st acc.
  - simpl. intros [= <- <-] _ _. split; [auto | constructor].
  - cbn [Incremental.process_loop map]. intros Hrun Hnd Hex.
    apply NoDup_cons in Hnd as [Hnotin Hnd].
    apply Forall_cons in Hex as [[contents Hfile] Hex].
    destruct (DocumentProcessor.process_book self fs pdf) as [chunks|e|] eqn:E;
      try discriminate Hrun.
    + destruct (mark_as_processed_frame (fst st) pdf contents
                  (Z.of_nat (length chunks)) (clock pdf) (io pdf) (snd st)
                  Hfile) as (bm1 & disk1 & Hmark & Hhash & Hframe).
      rewrite Hmark in Hrun.
      destruct (IH _ _ Hrun Hnd Hex) as [Hothers Hall].
      split.
      * intros name Hname.
        rewrite Hothers by (intros Hin; apply Hname; now right).
        simpl. apply Hframe. intros ->. apply Hname. now left.
      * constructor; [|exact Hall]. right.
        rewrite (is_processed_eq _ _ _ _ Hfile).
        rewrite Hothers by (rewrite list_elem_of_In in Hnotin; exact Hnotin).
        simpl. destruct Hhash as (entry & -> & Hhash).
        unfold PyVal.get. rewrite Hhash. simpl.
        now rewrite bool_decide_eq_true_2.
    + destruct (IH _ _ Hrun Hnd Hex) as [Hothers Hall]. split.
      * intros name Hname. apply Hothers. intros Hin. apply Hname. now right.
      * constructor; [left; eauto | exact Hall].
Qed.

(** X15. A second scan of an unchanged directory brings no chunks.  When the
    files of the directory exist and have distinct names, after a first
    [process_new_books] a second one on the same files finds as new only
    books whose processing raises, so it returns no chunk and leaves the
    tracker as it was. *)
Theorem process_new_books_second_scan (clock clock' : Path -> str)
    (io io' : Path -> write_result) (book_manager bm1 : BookManager.t)
    (disk disk1 : tracker_file) (books_dir : Path) (all_pdfs : list Path)
    (r1 : scan_result) :
  pdf_listing fs !! path_str books_dir = Some all_pdfs ->
  NoDup (map path_name all_pdfs) ->
  Forall (fun pdf => is_Some (files fs !! path_str pdf)) all_pdfs ->
  Incremental.process_new_books self fs clock io book_manager disk books_dir
  = Ret (r1, (bm1, disk1)) ->
  exists r2,
    Incremental.process_new_books self fs clock' io' bm1 disk1 books_dir
    = Ret (r2, (bm1, disk1))
    /\ scan_chunks r2 = []
    /\ total_new_chunks r2 = 0
    /\ new_books_processed r2 + skipped_books r2
       = Z.of_nat (length all_pdfs).
Proof.
  intros Hdir Hnd Hex Hrun1.
  (* every listed file can be checked, in any state of the tracker *)
  assert (forall bm, Forall (fun pdf => exists r,
            BookManager.is_processed bm fs pdf = Ret r) all_pdfs) as Hcheck.
  { intros bm. eapply Forall_impl; [exact Hex|].
    intros pdf [contents Hfile]. simpl.
    rewrite (is_processed_eq _ _ _ _ Hfile). eauto. }
  set (new1 := List.filter (fun pdf => negb (processed_now book_manager fs pdf))
                 all_pdfs).
  (* the first scan *)
  unfold Incremental.process_new_books in Hrun1. rewrite Hdir in Hrun1.
  rewrite (classify_spec _ _ _ _ [] []
             (new_books_loop_returns _ _ _ (Hcheck book_manager))) in Hrun1.
  simpl in Hrun1. fold new1 in Hrun1.
  destruct (Incremental.process_loop self fs clock io new1
              (book_manager, disk) []) as [[st1 chunks1]| |] eqn:Eloop;
    try discriminate Hrun1.
  simpl in Hrun1. injection Hrun1 as _ ->.
  assert (forall pdf, In pdf new1 <->
            In pdf all_pdfs /\ processed_now book_manager fs pdf = false)
    as Hnew1.
  { intros pdf. unfold new1. rewrite filter_In, negb_true_iff. tauto. }
  pose proof (NoDup_map_inj_In path_name all_pdfs Hnd) as Hinj.
  destruct (process_loop_tracker clock io new1 _ _ _ _ Eloop) as [Hothers Hall].
  { now apply NoDup_map_filter. }
  { apply Forall_forall. intros pdf Hpdf. apply list_elem_of_In in Hpdf.
    apply Hnew1 in Hpdf as [Hpdf _]. apply list_elem_of_In in Hpdf.
    rewrite Forall_forall in Hex. now apply Hex. }
  simpl in Hothers, Hall.
  (* after the first scan a book is processed, or its processing raises *)
  assert (forall pdf, In pdf all_pdfs ->
            processed_now bm1 fs pdf = true
            \/ exists e, DocumentProcessor.process_book self fs pdf = Raise e)
    as Hafter.
  { intros pdf Hpdf.
    destruct (processed_now book_manager fs pdf) eqn:Ebefore.
    - left. unfold processed_now in *.
      rewrite (is_processed_by_entry book_manager bm1); [exact Ebefore|].
      apply Hothers. intros Hin. apply in_map_iff in Hin as (pdf' & Hname & Hin).
      pose proof Hin as Hin'. apply Hnew1 in Hin' as [Hin' Hfalse].
      rewrite (Hinj pdf' pdf Hin' Hpdf Hname) in Hfalse. congruence.
    - assert (In pdf new1) as Hin by (apply Hnew1; auto).
      rewrite Forall_forall in Hall. apply list_elem_of_In in Hin.
      destruct (Hall pdf Hin) as [Hraise|Hok].
      + now right.
      + left. unfold processed_now. now rewrite Hok. }
  (* the second scan *)
  unfold Incremental.process_new_books. rewrite Hdir.
  rewrite (classify_spec _ _ _ _ [] []
             (new_books_loop_returns _ _ _ (Hcheck bm1))).
  simpl.
  rewrite process_loop_failing.
  - simpl. eexists. split; [reflexivity|]. simpl.
    split; [reflexivity|]. split; [reflexivity|].
    rewrite length_map.
    pose proof (filter_length_split (processed_now bm1 fs) all_pdfs). lia.
  - apply Forall_forall. intros pdf Hpdf. apply list_elem_of_In in Hpdf.
    apply filter_In in Hpdf as [Hpdf Hfalse].
    apply negb_true_iff in Hfalse.
    destruct (Hafter pdf Hpdf) as [Htrue|Hraise]; [congruence | exact Hraise].
Qed.

End Scan.

(** A first scan of the sample directory with an empty tracker. *)
Lemma process_new_books_accounting_witness :
  well_sized (DocumentProcessor.init None None)
  /\ pdf_listing Samples.two_books !! path_str Samples.books_dir
     = Some [Samples.good_book; Samples.empty_book]
  /\ BookManager.get_new_books (BookManager.init NoFile) Samples.two_books
       Samples.books_dir
     = Ret [Samples.good_book; Samples.empty_book]
  /\ exists r st,
       Incremental.process_new_books (U := AsciiTables.tables)
         (F := Samples.plain_reader) (DocumentProcessor.init None None)
         Samples.two_books (fun _ => Samples.noon) (fun _ => Written)
         (BookManager.init NoFile) NoFile Samples.books_dir
       = Ret (r, st)
       /\ new_books_processed r = 2
       /\ skipped_books r = 0
       /\ map text (scan_chunks r) = [Py.lit "1 --- hi"].
Proof.
  assert (well_sized (DocumentProcessor.init None None)) as Hs
      by (unfold well_sized; vm_compute; split; reflexivity).
  assert (pdf_listing Samples.two_books !! path_str Samples.books_dir
          = Some [Samples.good_book; Samples.empty_book]) as Hdir
      by (vm_compute; reflexivity).
  assert (BookManager.get_new_books (BookManager.init NoFile)
            Samples.two_books Samples.books_dir
          = Ret [Samples.good_book; Samples.empty_book]) as Hnew
      by (vm_compute; reflexivity).
  split; [exact Hs|]. split; [exact Hdir|]. split; [exact Hnew|].
  destruct (process_new_books_accounting (U := AsciiTables.tables)
              (F := Samples.plain_reader) (DocumentProcessor.init None None)
              Samples.two_books Hs (fun _ => Samples.noon) (fun _ => Written)
              (BookManager.init NoFile) NoFile Samples.books_dir _ _ Hdir Hnew)
    as (r & st & Hrun & _ & Hn & Hsum & Hchunks & _).
  exists r, st. split; [exact Hrun|]. split; [exact Hn|].
  split; [simpl in Hn, Hsum; lia|]. rewrite Hchunks.
  vm_compute. reflexivity.
Defined.

(** Two scans of the sample directory, starting with an empty tracker. *)
Lemma process_new_books_second_scan_witness :
  NoDup (map path_name [Samples.good_book; Samples.empty_book])
  /\ exists r1 bm1 disk1 r2,
       Incremental.process_new_books (U := AsciiTables.tables)
         (F := Samples.plain_reader) (DocumentProcessor.init None None)
         Samples.two_books (fun _ => Samples.noon) (fun _ => Written)
         (BookManager.init NoFile) NoFile Samples.books_dir
       = Ret (r1, (bm1, disk1))
       /\ map text (scan_chunks r1) = [Py.lit "1 --- hi"]
       /\ Incremental.process_new_books (U := AsciiTables.tables)
            (F := Samples.plain_reader) (DocumentProcessor.init None None)
            Samples.two_books (fun _ => Samples.noon) (fun _ => NotWritten)
            bm1 disk1 Samples.books_dir
          = Ret (r2, (bm1, disk1))
       /\ scan_chunks r2 = [].
Proof.
  assert (pdf_listing Samples.two_books !! path_str Samples.books_dir
          = Some [Samples.good_book; Samples.empty_book]) as Hdir
      by (vm_compute; reflexivity).
  assert (NoDup (map path_name [Samples.good_book; Samples.empty_book]))
    as Hnd.
  { apply NoDup_cons. split.
    - intros Hin. apply list_elem_of_In in Hin.
      destruct Hin as [Hin|[]]. vm_compute in Hin. discriminate Hin.
    - apply NoDup_singleton. }
  assert (Forall (fun pdf => is_Some (files Samples.two_books !! path_str pdf))
            [Samples.good_book; Samples.empty_book]) as Hex.
  { repeat constructor; vm_compute; eauto. }
  split; [exact Hnd|].
  destruct (Incremental.process_new_books (U := AsciiTables.tables)
              (F := Samples.plain_reader) (DocumentProcessor.init None None)
              Samples.two_books (fun _ => Samples.noon) (fun _ => Written)
              (BookManager.init NoFile) NoFile Samples.books_dir)
    as [[r1 [bm1 disk1]]|e|] eqn:Erun;
    [|vm_compute in Erun; discriminate Erun..].
  destruct (process_new_books_second_scan (U := AsciiTables.tables)
              (F := Samples.plain_reader) (DocumentProcessor.init None None)
              Samples.two_books (fun _ => Samples.noon)
              (fun _ => Samples.noon) (fun _ => Written)
              (fun _ => NotWritten) (BookManager.init NoFile) bm1 NoFile
              disk1 Samples.books_dir _ r1 Hdir Hnd Hex Erun)
    as (r2 & Hrun2 & Hchunks & _).
  exists r1, bm1, disk1, r2. split; [reflexivity|].
  split; [|split; [exact Hrun2 | exact Hchunks]].
  vm_compute in Erun. injection Erun as <- _ _. reflexivity.
Defined.

(** ** [add_documents] *)

Lemma lit_inj (s1 s2 : string) : Py.lit s1 = Py.lit s2 -> s1 = s2.
Proof.
  unfold Py.lit. intros H.
  rewrite <- (string_of_list_ascii_of_string s1),
          <- (string_of_list_ascii_of_string s2).
  f_equal. revert H.
  generalize (list_ascii_of_string s1) (list_ascii_of_string s2).
  induction l as [|a l IH]; intros [|a' l'] H; try discriminate; [reflexivity|].
  simpl in H. injection H as Ha Hl. f_equal; [|now apply IH].
  now rewrite <- (ascii_N_embedding a), <- (ascii_N_embedding a'), Ha.
Qed.

(** [str] of an [int] tells the integers apart. *)
Lemma str_of_Z_inj (z1 z2 : Z) :
  PyVal.str_of_Z z1 = PyVal.str_of_Z z2 -> z1 = z2.
Proof.
  unfold PyVal.str_of_Z. intros H. apply lit_inj in H.
  apply (f_equal NilZero.int_of_string) in H.
  assert (forall z, Z.to_int z <> Decimal.Pos Decimal.Nil
                    /\ Z.to_int z <> Decimal.Neg Decimal.Nil) as Hnn.
  { intros [|p|p]; simpl; split; try discriminate;
      intros [= E]; now apply DecimalPos.Unsigned.to_uint_nonnil in E. }
  rewrite !NilZero.isi in H by apply Hnn.
  injection H as H. apply (f_equal Z.of_int) in H.
  now rewrite !DecimalZ.of_to in H.
Qed.

Section Ids.
Context {U : Unicode}.
Variables (p : DocumentProcessor.t) (md : dict) (b f : value).
Hypothesis Hsize : well_sized p.
Hypothesis Hb : md !! Py.lit "book_name" = Some b.
Hypothesis Hf : md !! Py.lit "file_path" = Some f.

Lemma chunk_text_fields (input : str) (chunks : list chunk) :
  DocumentProcessor.chunk_text p input md = Ret chunks ->
  forall i c, chunks !! i = Some c ->
    chunk_id c = Z.of_nat i /\ book_name c = b /\ source c = f.
Proof.
  intros Hrun.
  destruct (chunk_text_closed_form p md b f Hsize Hb Hf input)
    as (full & last & Hrun' & Hw & _ & _ & Hlast).
  rewrite Hrun in Hrun'. injection Hrun' as ->.
  intros i c Hc.
  destruct (decide (i < length full)%nat) as [Hi|Hi].
  - rewrite lookup_app_l in Hc by exact Hi.
    destruct (Hw i c Hc) as (_ & Hid & Hbn & Hsrc & _). auto.
  - rewrite lookup_app_r in Hc by lia.
    destruct (Py.truthy _); [|subst last; discriminate Hc].
    destruct Hlast as [pn ->].
    destruct (i - length full)%nat eqn:E; simpl in Hc; [|discriminate Hc].
    injection Hc as <-. simpl. split; [f_equal; lia | auto].
Qed.

(** X16. The ids that [add_documents] builds for the chunks of one
    [chunk_text] call, [<book_name>_chunk_<chunk_id>], are pairwise distinct,
    and the metadata it stores for a chunk holds the chunk's page and id as
    decimal strings. *)
Theorem add_documents_ids_distinct (input : str) (chunks : list chunk) :
  DocumentProcessor.chunk_text p input md = Ret chunks ->
  NoDup (map VectorStore.chunk_doc_id chunks)
  /\ forall i c, chunks !! i = Some c ->
       VectorStore.chunk_doc_id c
       = PyVal.to_str b ++ Py.lit "_chunk_" ++ PyVal.str_of_Z (Z.of_nat i)
       /\ VectorStore.chunk_metadata c !! Py.lit "chunk_id"
          = Some (VStr (PyVal.str_of_Z (Z.of_nat i)))
       /\ VectorStore.chunk_metadata c !! Py.lit "page"
          = Some (VStr (PyVal.str_of_Z (page c))).
Proof.
  intros Hrun. pose proof (chunk_text_fields input chunks Hrun) as Hfields.
  assert (forall i c, chunks !! i = Some c ->
            VectorStore.chunk_doc_id c
            = PyVal.to_str b ++ Py.lit "_chunk_"
                ++ PyVal.str_of_Z (Z.of_nat i)) as Hid.
  { intros i c Hc. destruct (Hfields i c Hc) as (Hi & Hbn & _).
    unfold VectorStore.chunk_doc_id. now rewrite Hi, Hbn. }
  split.
  - apply NoDup_alt. intros i j x Hi Hj.
    rewrite list_lookup_fmap in Hi, Hj.
    destruct (chunks !! i) as [ci|] eqn:Eci; [|discriminate Hi].
    destruct (chunks !! j) as [cj|] eqn:Ecj; [|discriminate Hj].
    simpl in Hi, Hj. injection Hi as Hi. injection Hj as Hj.
    rewrite (Hid i ci Eci) in Hi. rewrite (Hid j cj Ecj) in Hj.
    rewrite <- Hj in Hi. do 2 apply app_inv_head in Hi.
    apply str_of_Z_inj in Hi. lia.
  - intros i c Hc. split; [now apply Hid|].
    destruct (Hfields i c Hc) as (Hi & _ & _).
    unfold VectorStore.chunk_metadata. split.
    + do 2 rewrite lookup_insert_ne by discriminate.
      now rewrite lookup_insert_eq, Hi.
    + rewrite lookup_insert_ne by discriminate. now rewrite lookup_insert_eq.
Qed.

End Ids.

Lemma add_documents_ids_distinct_witness :
  well_sized (DocumentProcessor.init None None)
  /\ DocumentProcessor.chunk_text (U := AsciiTables.tables)
       (DocumentProcessor.init None None) Samples.two_pages Samples.metadata
     = Ret [{| text := Py.lit "1 --- ab cd ef gh ij kl 2 --- mn op";
               chunk_id := 0; book_name := VStr (Py.lit "Perry"); page := 2;
               source := VStr (Py.lit "data/books/Perry.pdf") |}]
  /\ map VectorStore.chunk_doc_id
       [{| text := Py.lit "1 --- ab cd ef gh ij kl 2 --- mn op";
           chunk_id := 0; book_name := VStr (Py.lit "Perry"); page := 2;
           source := VStr (Py.lit "data/books/Perry.pdf") |}]
     = [Py.lit "Perry_chunk_0"]
  /\ NoDup (map VectorStore.chunk_doc_id
              [{| text := Py.lit "1 --- ab cd ef gh ij kl 2 --- mn op";
                  chunk_id := 0; book_name := VStr (Py.lit "Perry");
                  page := 2;
                  source := VStr (Py.lit "data/books/Perry.pdf") |}]).
Proof.
  assert (well_sized (DocumentProcessor.init None None)) as Hs
      by (unfold well_sized; vm_compute; split; reflexivity).
  assert (DocumentProcessor.chunk_text (U := AsciiTables.tables)
            (DocumentProcessor.init None None) Samples.two_pages
            Samples.metadata
          = Ret [{| text := Py.lit "1 --- ab cd ef gh ij kl 2 --- mn op";
                    chunk_id := 0; book_name := VStr (Py.lit "Perry");
                    page := 2;
                    source := VStr (Py.lit "data/books/Perry.pdf") |}]) as E
      by (vm_compute; reflexivity).
  split; [exact Hs|]. split; [exact E|]. split; [reflexivity|].
  exact (proj1 (add_documents_ids_distinct (U := AsciiTables.tables) _
                  Samples.metadata _ _ Hs eq_refl eq_refl _ _ E)).
Defined.

(** ** The ids of a batch *)

Lemma uint_no_underscore (d : Decimal.uint) :
  95%N ∉ Py.lit (NilEmpty.string_of_uint d).
Proof.
  induction d; cbn;
    [apply not_elem_of_nil
    |apply not_elem_of_cons; split; [discriminate|exact IHd]..].
Qed.

Lemma str_of_nat_no_underscore (i : nat) :
  95%N ∉ PyVal.str_of_Z (Z.of_nat i).
Proof.
  unfold PyVal.str_of_Z.
  destruct (Z.of_nat i) as [|p|p] eqn:E; [| |lia].
  - cbn. apply not_elem_of_cons. split; [discriminate|apply not_elem_of_nil].
  - cbn [Z.to_int NilZero.string_of_int]. unfold NilZero.string_of_uint.
    destruct (Pos.to_uint p); cbv iota beta;
      [cbn; apply not_elem_of_cons; split;
         [discriminate|apply not_elem_of_nil]
      |apply uint_no_underscore..].
Qed.

(** An id determines the book name and the number it was built from. *)
Lemma doc_id_inj (s1 s2 : str) (i j : nat) :
  s1 ++ Py.lit "_chunk_" ++ PyVal.str_of_Z (Z.of_nat i)
  = s2 ++ Py.lit "_chunk_" ++ PyVal.str_of_Z (Z.of_nat j) ->
  s1 = s2 /\ i = j.
Proof.
  change (Py.lit "_chunk_") with (Py.lit "_chunk" ++ [95%N]).
  rewrite <- !(app_assoc (Py.lit "_chunk") [95%N]). cbn [app].
  rewrite !(app_assoc _ (Py.lit "_chunk")). intros H.
  apply not_elem_of_app_cons_inv_r in H;
    [|apply str_of_nat_no_underscore..].
  destruct H as (Hs & _ & Hd). split.
  - now apply app_inv_tail in Hs.
  - apply str_of_Z_inj in Hd. lia.
Qed.

Lemma numbered_ids_distinct (b : value) (chunks : list chunk) :
  numbered_for b chunks -> NoDup (map VectorStore.chunk_doc_id chunks).
Proof.
  intros Hnum. apply NoDup_alt. intros i j x Hi Hj.
  rewrite list_lookup_fmap in Hi, Hj.
  destruct (chunks !! i) as [ci|] eqn:Eci; [|discriminate Hi].
  destruct (chunks !! j) as [cj|] eqn:Ecj; [|discriminate Hj].
  simpl in Hi, Hj. injection Hi as Hi. injection Hj as Hj.
  destruct (Hnum i ci Eci) as [Hii Hbi].
  destruct (Hnum j cj Ecj) as [Hjj Hbj].
  unfold VectorStore.chunk_doc_id in Hi, Hj.
  rewrite Hii, Hbi in Hi. rewrite Hjj, Hbj, <- Hi in Hj.
  now apply doc_id_inj in Hj.
Qed.

Section BatchIds.
Context {U : Unicode} {F : Fitz}.
Variables (self : DocumentProcessor.t) (fs : filesystem).
Hypothesis Hsize : well_sized self.

Lemma chunks_if_processed_numbered (f : Path) (chunks : list chunk) :
  chunks_if_processed self fs f = Some chunks ->
  numbered_for (VStr (path_stem f)) chunks.
Proof.
  unfold chunks_if_processed.
  destruct (DocumentProcessor.process_book self fs f) as [cs| |] eqn:E;
    try discriminate.
  intros [= <-] i c Hc.
  destruct (process_book_fields self fs f cs Hsize E i c Hc)
    as (Hid & _ & _ & Hb & _). auto.
Qed.

Lemma batch_chunk_origin (pdf_files : list Path) (c : chunk) :
  c ∈ concat (omap (chunks_if_processed self fs) pdf_files) ->
  exists f i, f ∈ pdf_files /\ chunk_id c = Z.of_nat i
              /\ book_name c = VStr (path_stem f).
Proof.
  induction pdf_files as [|f rest IH]; cbn [omap list_omap concat].
  - intros Hin. now apply elem_of_nil in Hin.
  - destruct (chunks_if_processed self fs f) as [chunks|] eqn:E.
    + cbn [concat]. intros Hin. apply elem_of_app in Hin.
      destruct Hin as [Hin|Hin].
      * apply list_elem_of_lookup in Hin. destruct Hin as [i Hi].
        destruct (chunks_if_processed_numbered f chunks E i c Hi) as [? ?].
        exists f, i. split; [left|auto].
      * destruct (IH Hin) as (f' & i & Hf' & ?). exists f', i.
        split; [now right|auto].
    + intros Hin. destruct (IH Hin) as (f' & i & Hf' & ?). exists f', i.
      split; [now right|auto].
Qed.

Lemma batch_ids_NoDup (pdf_files : list Path) :
  NoDup (map path_stem pdf_files) ->
  NoDup (map VectorStore.chunk_doc_id
           (concat (omap (chunks_if_processed self fs) pdf_files))).
Proof.
  induction pdf_files as [|f rest IH]; cbn [omap list_omap concat map].
  - intros _. apply NoDup_nil_2.
  - intros Hnd. apply NoDup_cons in Hnd. destruct Hnd as [Hf Hnd].
    destruct (chunks_if_processed self fs f) as [chunks|] eqn:E;
      [|now apply IH].
    cbn [concat]. rewrite map_app. apply NoDup_app.
    split; [|split; [|now apply IH]].
    + eapply numbered_ids_distinct, chunks_if_processed_numbered, E.
    + intros x Hx Hx'.
      apply list_elem_of_fmap in Hx. destruct Hx as (c & -> & Hc).
      apply list_elem_of_fmap in Hx'. destruct Hx' as (c' & Heq & Hc').
      apply list_elem_of_lookup in Hc. destruct Hc as [i Hi].
      destruct (chunks_if_processed_numbered f chunks E i c Hi) as [Hid Hb].
      destruct (batch_chunk_origin rest c' Hc') as (f' & j & Hf' & Hid' & Hb').
      unfold VectorStore.chunk_doc_id in Heq.
      rewrite Hid, Hb, Hid', Hb' in Heq. cbn [PyVal.to_str] in Heq.
      apply doc_id_inj in Heq. destruct Heq as [Hstem _].
      apply Hf. rewrite Hstem. apply list_elem_of_fmap. eauto.
Qed.

(** X17. With [0 < chunk_overlap < chunk_size], for a directory whose files
    have pairwise distinct stems, the ids [<book_name>_chunk_<chunk_id>] that
    [add_documents] builds for the chunks that [process_books_directory]
    returns are pairwise distinct, although chunk ids start again at 0 in
    every book. *)
Theorem process_books_directory_ids_distinct (books_dir : Path)
    (pdf_files : list Path) (chunks : list chunk) :
  pdf_listing fs !! path_str books_dir = Some pdf_files ->
  NoDup (map path_stem pdf_files) ->
  DocumentProcessor.process_books_directory self fs books_dir = Ret chunks ->
  NoDup (map VectorStore.chunk_doc_id chunks).
Proof.
  intros Hdir Hnd.
  unfold DocumentProcessor.process_books_directory,
    DocumentProcessor.process_books_directory_vars.
  rewrite Hdir. destruct pdf_files as [|f rest] eqn:E; [discriminate|].
  rewrite <- E in *. rewrite (books_loop_spec self fs Hsize). cbn.
  intros [= <-]. now apply batch_ids_NoDup.
Qed.

End BatchIds.

(** The sample directory of two books. *)
Lemma process_books_directory_ids_distinct_witness :
  well_sized (DocumentProcessor.init None None)
  /\ NoDup (map path_stem [Samples.good_book; Samples.empty_book])
  /\ DocumentProcessor.process_books_directory (U := AsciiTables.tables)
       (F := Samples.plain_reader) (DocumentProcessor.init None None)
       Samples.two_books Samples.books_dir
     = Ret [{| text := Py.lit "1 --- hi"; chunk_id := 0;
               book_name := VStr (Py.lit "good"); page := 1;
               source := VStr (Py.lit "data/books/good.pdf") |}]
  /\ NoDup (map VectorStore.chunk_doc_id
              [{| text := Py.lit "1 --- hi"; chunk_id := 0;
                  book_name := VStr (Py.lit "good"); page := 1;
                  source := VStr (Py.lit "data/books/good.pdf") |}]).
Proof.
  assert (well_sized (DocumentProcessor.init None None)) as Hs
      by (unfold well_sized; vm_compute; split; reflexivity).
  assert (pdf_listing Samples.two_books !! path_str Samples.books_dir
          = Some [Samples.good_book; Samples.empty_book]) as Hdir
      by (vm_compute; reflexivity).
  assert (NoDup (map path_stem [Samples.good_book; Samples.empty_book]))
    as Hnd.
  { apply NoDup_cons. split.
    - intros Hin. apply list_elem_of_In in Hin.
      destruct Hin as [Hin|[]]. vm_compute in Hin. discriminate Hin.
    - apply NoDup_singleton. }
  assert (DocumentProcessor.process_books_directory (U := AsciiTables.tables)
            (F := Samples.plain_reader) (DocumentProcessor.init None None)
            Samples.two_books Samples.books_dir
          = Ret [{| text := Py.lit "1 --- hi"; chunk_id := 0;
                    book_name := VStr (Py.lit "good"); page := 1;
                    source := VStr (Py.lit "data/books/good.pdf") |}]) as E
      by (vm_compute; reflexivity).
  split; [exact Hs|]. split; [exact Hnd|]. split; [exact E|].
  exact (process_books_directory_ids_distinct (U := AsciiTables.tables)
           (F := Samples.plain_reader) (DocumentProcessor.init None None)
           Samples.two_books Hs Samples.books_dir _ _ Hdir Hnd E).
Defined.

(** ** [similarity_search] and [query] *)

Lemma index_lookup {A} (xs : list A) (i : nat) (x : A) :
  xs !! i = Some x -> index xs i = Ret x.
Proof. unfold index. now intros ->. Qed.

Section Search.
Context {B : VectorBackend}.

(** The distance that the loop of [similarity_search] reads at position
    [i]. *)
Lemma format_results_zip (r : query_results) (docs0 : list str)
    (metas0 : list (gmap (list N) value)) (rest_d : list (list str))
    (rest_m : list (list (gmap (list N) value)))
    (dist0 : option (list float)) :
  documents r = docs0 :: rest_d ->
  metadatas r = metas0 :: rest_m ->
  match dist0 with
  | Some d0 => exists rest, distances r = Some (d0 :: rest)
  | None => distances r = None
  end ->
  forall (n a : nat) (acc : list hit),
    (a + n <= length docs0)%nat ->
    (a + n <= length metas0)%nat ->
    (forall d0, dist0 = Some d0 -> (a + n <= length d0)%nat) ->
    exists hits,
      VectorStore.format_results r (seq a n) acc = Ret (acc ++ hits)
      /\ map hit_text hits = take n (drop a docs0)
      /\ map hit_metadata hits = take n (drop a metas0)
      /\ map hit_distance hits
         = match dist0 with
           | Some d0 => map Some (take n (drop a d0))
           | None => repeat None n
           end.
Proof.
  intros Hd Hm Hdist. induction n as [|n IH]; intros a acc Hld Hlm Hldist.
  - exists []. simpl. rewrite app_nil_r. destruct dist0; auto.
  - destruct (lookup_lt_is_Some_2 docs0 a ltac:(lia)) as [doc Edoc].
    destruct (lookup_lt_is_Some_2 metas0 a ltac:(lia)) as [meta Emeta].
    assert (exists dist,
               match distances r with
               | Some ds => d0 ← index ds 0; d ← index d0 a; Ret (Some d)
               | None => Ret None
               end = Ret dist
               /\ match dist0 with
                  | Some d0 => exists d, d0 !! a = Some d /\ dist = Some d
                  | None => dist = None
                  end) as (dist & Edist & Hdist').
    { destruct dist0 as [d0|].
      - destruct Hdist as [rest ->].
        destruct (lookup_lt_is_Some_2 d0 a) as [d Ed];
          [specialize (Hldist d0 eq_refl); lia|].
        exists (Some d). unfold index. cbn. rewrite Ed. cbn. eauto.
      - rewrite Hdist. eauto. }
    destruct (IH (S a) (acc ++ [{| hit_text := doc; hit_metadata := meta;
                                   hit_distance := dist |}]))
      as (hits & Hrun & Ht & Hmeta & Hds); [lia|lia| |].
    { intros d0 E. specialize (Hldist d0 E). lia. }
    exists ({| hit_text := doc; hit_metadata := meta; hit_distance := dist |}
            :: hits).
    cbn [seq VectorStore.format_results]. rewrite Hd, Hm.
    change (index (docs0 :: rest_d) 0) with (Ret docs0).
    change (index (metas0 :: rest_m) 0) with (Ret metas0).
    cbn [mbind outcome_bind].
    rewrite (index_lookup _ _ _ Edoc), (index_lookup _ _ _ Emeta).
    cbn [mbind outcome_bind]. rewrite Edist. cbn [mbind outcome_bind].
    rewrite Hrun, <- app_assoc. split; [reflexivity|].
    cbn [map hit_text hit_metadata hit_distance].
    rewrite Ht, Hmeta, Hds.
    rewrite (drop_S docs0 doc a Edoc), (drop_S metas0 meta a Emeta).
    split; [reflexivity|]. split; [reflexivity|].
    destruct dist0 as [d0|].
    + destruct Hdist' as (d & Ed & ->). now rewrite (drop_S d0 d a Ed).
    + now subst dist.
Qed.

(** X18. When the database answers with one list of documents, a list of
    metadata at least as long and, if it reports distances, a list of
    distances at least as long, [similarity_search] returns one hit per
    document, in the database's order: the i-th hit pairs the i-th document
    with the i-th metadata and the i-th distance ([None] without distances).
    The number of results it asks for is [top_k], or 8 when [top_k] is
    [None] or 0. *)
Theorem similarity_search_pairs (self : collection) (query : str)
    (top_k : option Z) (e : embedding) (r : query_results)
    (docs0 : list str) (metas0 : list (gmap (list N) value))
    (rest_d : list (list str)) (rest_m : list (list (gmap (list N) value)))
    (dist0 : option (list float)) :
  encode query = Returned e ->
  collection_query self e
    (match top_k with
     | Some k => if k =? 0 then 8 else k
     | None => 8
     end) = Returned r ->
  documents r = docs0 :: rest_d ->
  metadatas r = metas0 :: rest_m ->
  match dist0 with
  | Some d0 => exists rest, distances r = Some (d0 :: rest)
  | None => distances r = None
  end ->
  (length docs0 <= length metas0)%nat ->
  (forall d0, dist0 = Some d0 -> (length docs0 <= length d0)%nat) ->
  exists hits,
    VectorStore.similarity_search self query top_k = Ret hits
    /\ map hit_text hits = docs0
    /\ map hit_metadata hits = take (length docs0) metas0
    /\ map hit_distance hits
       = match dist0 with
         | Some d0 => map Some (take (length docs0) d0)
         | None => repeat None (length docs0)
         end.
Proof.
  intros He Hq Hd Hm Hdist Hlm Hld.
  unfold VectorStore.similarity_search, PyVal.or_default, Settings.TOP_K_RESULTS.
  rewrite He. cbn [lib mbind outcome_bind]. rewrite Hq.
  cbn [lib mbind outcome_bind]. rewrite Hd.
  destruct docs0 as [|d docs0'] eqn:Edocs.
  - exists []. destruct dist0; auto.
  - rewrite <- Edocs in *.
    destruct (format_results_zip r docs0 metas0 rest_d rest_m dist0 Hd Hm Hdist
                (length docs0) 0%nat [] ltac:(lia) ltac:(lia))
      as (hits & Hrun & Ht & Hmeta & Hds).
    { intros d0 E. specialize (Hld d0 E). lia. }
    exists hits. rewrite Edocs in Hrun at 1. rewrite Edocs at 1.
    split; [exact Hrun|].
    rewrite drop_0 in Ht. rewrite drop_0 in Hmeta. rewrite firstn_all in Ht.
    split; [exact Ht|]. split; [exact Hmeta|].
    rewrite Hds. destruct dist0; [now rewrite drop_0|reflexivity].
Qed.

Lemma format_results_ends (r : query_results) (range : list nat)
    (acc : list hit) :
  VectorStore.format_results r range acc <> OutOfFuel.
Proof.
  revert acc. induction range as [|i range IH]; intros acc; [discriminate|].
  cbn [VectorStore.format_results]. unfold index.
  destruct (documents r !! 0%nat) as [docs|]; [|discriminate].
  cbn [mbind outcome_bind].
  destruct (docs !! i); [|discriminate]. cbn [mbind outcome_bind].
  destruct (metadatas r !! 0%nat) as [metas|]; [|discriminate].
  cbn [mbind outcome_bind].
  destruct (metas !! i); [|discriminate]. cbn [mbind outcome_bind].
  destruct (distances r) as [ds|]; cbn [mbind outcome_bind]; [|apply IH].
  destruct (ds !! 0%nat) as [d0|]; [|discriminate]. cbn [mbind outcome_bind].
  destruct (d0 !! i); [|discriminate]. cbn [mbind outcome_bind]. apply IH.
Qed.

Lemma similarity_search_ends (self : collection) (query : str)
    (top_k : option Z) :
  VectorStore.similarity_search self query top_k <> OutOfFuel.
Proof.
  unfold VectorStore.similarity_search.
  destruct (encode query) as [e|err]; [|discriminate].
  cbn [lib mbind outcome_bind].
  destruct (collection_query self e _) as [r|err]; [|discriminate].
  cbn [lib mbind outcome_bind].
  destruct (documents r) as [|[|d docs0] rest]; try discriminate.
  apply format_results_ends.
Qed.

End Search.

(** The two documents of the sample store. *)
Lemma similarity_search_pairs_witness :
  exists hits,
    VectorStore.similarity_search (B := Samples.list_store) Samples.shelf
      Samples.question (Some 0) = Ret hits
    /\ map hit_text hits = map fst Samples.shelf
    /\ map hit_metadata hits = map snd Samples.shelf
    /\ map hit_distance hits = [None; None].
Proof.
  destruct (similarity_search_pairs (B := Samples.list_store) Samples.shelf
              Samples.question (Some 0) Samples.question
              {| documents := [map fst Samples.shelf];
                 metadatas := [map snd Samples.shelf];
                 distances := None |}
              (map fst Samples.shelf) (map snd Samples.shelf) [] [] None
              eq_refl eq_refl eq_refl eq_refl eq_refl
              ltac:(simpl; lia) ltac:(discriminate))
    as (hits & Hrun & Ht & Hm & Hd).
  exists hits. split; [exact Hrun|]. split; [exact Ht|].
  split; [exact Hm|exact Hd].
Defined.

Section EngineMore.
Context {B : VectorBackend} {L : LLMHandler}.

(** X19. In book mode the first call of [query] is the similarity search.
    When the search raises, [query] raises the same error; when it finds
    nothing, [query] returns the fixed answer in mode [book_based] with no
    sources and an empty citations string; in both cases it makes no other
    call.  Only a non-empty retrieval reaches the language model handler, and
    the prompt is then built from the question and the retrieved chunks. *)
Theorem query_book_mode_search_first (self : RAGEngine.t) (question : str)
    (top_k : option Z) :
  exists rest,
    events (RAGEngine.query self question false top_k)
    = SimilaritySearch question top_k :: rest
    /\ match VectorStore.similarity_search (RAGEngine.vector_store self)
               question top_k with
       | Ret [] =>
           rest = []
           /\ result (RAGEngine.query self question false top_k)
              = Ret {| answer := Py.lit "I couldn't find relevant information in the books to answer this question.";
                       mode := Py.lit "book_based";
                       sources := [];
                       citations := [] |}
       | Ret (c :: chunks) =>
           exists more, rest = CreateRagPrompt question (c :: chunks) :: more
       | Raise e =>
           rest = []
           /\ result (RAGEngine.query self question false top_k) = Raise e
       | OutOfFuel => False
       end.
Proof.
  pose proof (similarity_search_ends (RAGEngine.vector_store self) question
                top_k) as Hends.
  unfold RAGEngine.query, RAGEngine.query_books, call.
  cbn [mbind traced_bind events result].
  destruct (VectorStore.similarity_search _ question top_k)
    as [[|c chunks]|e|]; [| | |contradiction].
  - exists []. cbn. auto.
  - cbn [mbind traced_bind events result].
    destruct (lib (create_rag_prompt question (c :: chunks))) as [prompt|e|];
      cbn [mbind traced_bind events result app];
      [|eexists; split; [reflexivity|]; eexists; reflexivity..].
    destruct (lib (generate_response prompt)) as [a|e|];
      cbn [mbind traced_bind events result app];
      eexists; (split; [reflexivity|]); eexists; reflexivity.
  - exists []. cbn. auto.
Qed.

(** X20. The preview that [query_books] stores with a source is the chunk's
    text when that has at most 200 characters, and otherwise its first 200
    characters followed by three dots: it never has more than 203
    characters, and it starts like the text. *)
Theorem source_entry_preview (chunk : hit) :
  exists preview,
    RAGEngine.source_entry chunk !! Py.lit "text_preview"
    = Some (VStr preview)
    /\ (length preview <= 203)%nat
    /\ take 200 preview = take 200 (hit_text chunk)
    /\ ((length (hit_text chunk) <= 200)%nat -> preview = hit_text chunk)
    /\ ((200 < length (hit_text chunk))%nat ->
        preview = take 200 (hit_text chunk) ++ Py.lit "...").
Proof.
  unfold RAGEngine.source_entry.
  do 2 rewrite lookup_insert_ne by discriminate.
  rewrite lookup_singleton_eq. eexists. split; [reflexivity|].
  change (Py.slice_to (hit_text chunk) 200) with (take 200 (hit_text chunk)).
  destruct (200 <? length (hit_text chunk))%nat eqn:E.
  - apply Nat.ltb_lt in E.
    assert (length (take 200 (hit_text chunk)) = 200%nat) as Hl
        by (rewrite length_take; lia).
    split; [rewrite length_app, Hl; simpl; lia|].
    split; [now rewrite take_app_length'|]. split; [lia|reflexivity].
  - apply Nat.ltb_ge in E.
    split; [lia|]. split; [reflexivity|]. split; [reflexivity|lia].
Qed.

End EngineMore.

(** ** Reprocessing all books *)

Section Reprocess.
Context {U : Unicode} {F : Fitz}.
Variables (self : DocumentProcessor.t) (fs : filesystem).
Hypothesis Hsize : well_sized self.

Lemma new_books_loop_empty (all_pdfs : list Path) :
  BookManager.new_books_loop {| BookManager.processed_books := ∅ |} fs all_pdfs
  = Ret all_pdfs.
Proof.
  induction all_pdfs as [|pdf rest IH]; [reflexivity|].
  cbn [BookManager.new_books_loop]. unfold BookManager.is_processed.
  cbn [BookManager.processed_books]. rewrite lookup_empty.
  cbn [mbind outcome_bind]. now rewrite IH.
Qed.

(** X21. Reprocessing: after [clear_all], [process_new_books] skips no book.
    It treats every PDF file of the directory as new, whatever the files
    hold, and the chunks it returns are those that [process_books_directory]
    returns for the directory. *)
Theorem process_new_books_after_clear_all (book_manager : BookManager.t)
    (now : str) (io0 : write_result) (disk : tracker_file)
    (clock : Path -> str) (io : Path -> write_result) (books_dir : Path)
    (pdf : Path) (pdfs : list Path) :
  pdf_listing fs !! path_str books_dir = Some (pdf :: pdfs) ->
  let cleared := BookManager.clear_all book_manager now io0 disk in
  exists r st,
    Incremental.process_new_books self fs clock io (fst cleared) (snd cleared)
      books_dir
    = Ret (r, st)
    /\ skipped_books r = 0
    /\ skipped_book_names r = Some []
    /\ new_book_names r = Some (map path_name (pdf :: pdfs))
    /\ DocumentProcessor.process_books_directory self fs books_dir
       = Ret (scan_chunks r).
Proof.
  intros Hdir cleared. subst cleared.
  unfold BookManager.clear_all, Incremental.process_new_books.
  cbn [fst snd]. rewrite Hdir.
  rewrite (classify_spec _ _ _ _ [] [] (new_books_loop_empty (pdf :: pdfs))).
  cbn [app mbind outcome_bind].
  destruct (process_loop_chunks self fs Hsize clock io (pdf :: pdfs)
              ({| BookManager.processed_books := ∅ |},
               BookManager._save_tracker
                 {| BookManager.processed_books := ∅ |} now io0 disk) [])
    as [st' Hloop].
  rewrite Hloop. cbn [app mbind outcome_bind].
  assert (List.filter
            (processed_now {| BookManager.processed_books := ∅ |} fs)
            (pdf :: pdfs) = []) as Hnone.
  { generalize (pdf :: pdfs). intros l.
    induction l as [|x l IH]; [reflexivity|]. cbn [List.filter].
    unfold processed_now at 1, BookManager.is_processed.
    cbn [BookManager.processed_books]. now rewrite lookup_empty. }
  rewrite Hnone. eexists _, _. split; [reflexivity|].
  cbn [skipped_books skipped_book_names new_book_names scan_chunks map length].
  split; [reflexivity|]. split; [reflexivity|]. split; [reflexivity|].
  unfold DocumentProcessor.process_books_directory,
    DocumentProcessor.process_books_directory_vars.
  rewrite Hdir, (books_loop_spec self fs Hsize). reflexivity.
Qed.

End Reprocess.

(** The sample directory, reprocessed with a tracker that knew one of its
    books. *)
Lemma process_new_books_after_clear_all_witness :
  well_sized (DocumentProcessor.init None None)
  /\ pdf_listing Samples.two_books !! path_str Samples.books_dir
     = Some [Samples.good_book; Samples.empty_book]
  /\ exists r st,
       Incremental.process_new_books (U := AsciiTables.tables)
         (F := Samples.plain_reader) (DocumentProcessor.init None None)
         Samples.two_books (fun _ => Samples.noon) (fun _ => Written)
         (fst (BookManager.clear_all
                 {| BookManager.processed_books :=
                      {[ Py.lit "good.pdf" := ∅ ]} |}
                 Samples.noon Written NoFile))
         (snd (BookManager.clear_all
                 {| BookManager.processed_books :=
                      {[ Py.lit "good.pdf" := ∅ ]} |}
                 Samples.noon Written NoFile))
         Samples.books_dir
       = Ret (r, st)
       /\ new_book_names r = Some [Py.lit "good.pdf"; Py.lit "empty.pdf"]
       /\ skipped_books r = 0.
Proof.
  assert (well_sized (DocumentProcessor.init None None)) as Hs
      by (unfold well_sized; vm_compute; split; reflexivity).
  assert (pdf_listing Samples.two_books !! path_str Samples.books_dir
          = Some [Samples.good_book; Samples.empty_book]) as Hdir
      by (vm_compute; reflexivity).
  split; [exact Hs|]. split; [exact Hdir|].
  destruct (process_new_books_after_clear_all (U := AsciiTables.tables)
              (F := Samples.plain_reader) (DocumentProcessor.init None None)
              Samples.two_books Hs
              {| BookManager.processed_books := {[ Py.lit "good.pdf" := ∅ ]} |}
              Samples.noon Written NoFile (fun _ => Samples.noon)
              (fun _ => Written) Samples.books_dir _ _ Hdir)
    as (r & st & Hrun & Hskip & _ & Hnames & _).
  exists r, st. split; [exact Hrun|]. split; [exact Hnames|exact Hskip].
Defined.
